(** * The CloudFormation template deployment engine of LocalStack

    A shallow embedding of
    [localstack/services/cloudformation/engine/template_deployer.py] and of
    the Route 53 record-set resource provider, with the properties the
    specification states about them.

    Conventions.  A Python call that may raise is a function into a result
    type with an explicit exception case.  Calls that leave the repository
    (service clients, model classes, the stack store) are fields of an
    interface record or Section variables: every theorem holds for all of
    them.  Python dictionaries keep insertion order and have unique keys, so
    they are association lists that are updated in place.

    Part I holds the definitions, Part II the lemmas and theorems. *)

From Stdlib Require Import String Ascii List ZArith Bool Lia Arith PeanoNat Sorted
  Permutation DecimalString.
Import ListNotations.
Open Scope string_scope.
Open Scope list_scope.

Set Implicit Arguments.
Set Warnings "-register-all".

(* ================================================================== *)
(** * Part I: definitions *)

(* ------------------------------------------------------------------ *)
(** ** Python values *)

Module Py.

(** [contains m s] is Python's [m in s] on strings: [m] occurs in [s] as a
    contiguous run of characters. *)
Fixpoint contains (m s : string) : bool :=
  if String.prefix m s then true
  else match s with
       | EmptyString => false
       | String _ s' => contains m s'
       end.

(** The declarative reading of [m in s]. *)
Definition Substring (m s : string) : Prop :=
  exists pre post, s = (pre ++ m ++ post)%string.

(** JSON-like values: what a parsed template is made of.  Numbers are
    integers; floats do not occur in the modelled paths. *)
Inductive Value : Type :=
| VNone
| VBool (b : bool)
| VInt (z : Z)
| VStr (s : string)
| VList (l : list Value)
| VDict (d : list (string * Value)).

Definition Dict : Type := list (string * Value).

Section Assoc.

Variable A : Type.

(** [d.get(k)] *)
Fixpoint dict_get (k : string) (d : list (string * A)) : option A :=
  match d with
  | [] => None
  | (k', v) :: d' => if k' =? k then Some v else dict_get k d'
  end.

(** [k in d] *)
Definition dict_has (k : string) (d : list (string * A)) : bool :=
  match dict_get k d with Some _ => true | None => false end.

(** [d[k] = v]: an existing key keeps its position, a new key goes last. *)
Fixpoint dict_set (k : string) (v : A) (d : list (string * A)) : list (string * A) :=
  match d with
  | [] => [(k, v)]
  | (k', v') :: d' =>
      if k' =? k then (k, v) :: d' else (k', v') :: dict_set k v d'
  end.

(** [d.pop(k, None)] *)
Fixpoint dict_pop (k : string) (d : list (string * A)) : list (string * A) :=
  match d with
  | [] => []
  | (k', v') :: d' => if k' =? k then d' else (k', v') :: dict_pop k d'
  end.

Definition dict_keys (d : list (string * A)) : list string := map fst d.
Definition dict_values (d : list (string * A)) : list A := map snd d.

(** [d.update(e)] *)
Definition dict_update (d e : list (string * A)) : list (string * A) :=
  fold_left (fun acc kv => dict_set (fst kv) (snd kv) acc) e d.

End Assoc.

(** [bool(v)] *)
Definition truthy (v : Value) : bool :=
  match v with
  | VNone => false
  | VBool b => b
  | VInt z => negb (z =? 0)%Z
  | VStr s => negb (s =? "")
  | VList l => match l with [] => false | _ => true end
  | VDict d => match d with [] => false | _ => true end
  end.

(** [a == b].  Dictionaries compare as maps (the order of the keys is
    irrelevant), [True]/[False] equal [1]/[0]. *)
Fixpoint py_eq (a : Value) {struct a} : Value -> bool :=
  match a with
  | VNone => fun b => match b with VNone => true | _ => false end
  | VBool x => fun b =>
      match b with
      | VBool y => Bool.eqb x y
      | VInt z => (z =? (if x then 1 else 0))%Z
      | _ => false
      end
  | VInt z => fun b =>
      match b with
      | VInt z' => (z =? z')%Z
      | VBool y => (z =? (if y then 1 else 0))%Z
      | _ => false
      end
  | VStr s => fun b => match b with VStr s' => s =? s' | _ => false end
  | VList l => fun b =>
      match b with
      | VList l' =>
          (fix all2 (xs : list Value) (ys : list Value) {struct xs} : bool :=
             match xs, ys with
             | [], [] => true
             | x :: xs', y :: ys' => py_eq x y && all2 xs' ys'
             | _, _ => false
             end) l l'
      | _ => false
      end
  | VDict d => fun b =>
      match b with
      | VDict d' =>
          (length d =? length d')%nat &&
          (fix all (xs : list (string * Value)) {struct xs} : bool :=
             match xs with
             | [] => true
             | (k, v) :: xs' =>
                 match dict_get k d' with
                 | Some v' => py_eq v v'
                 | None => false
                 end && all xs'
             end) d
      | _ => false
      end
  end.

(** A string member of a list of strings: [s in [..]]. *)
Definition str_in (s : string) (l : list string) : bool :=
  existsb (fun x => x =? s) l.

(** [x or y] *)
Definition py_or (x y : Value) : Value := if truthy x then x else y.

(** [d.get(k)], with [None] for a missing key. *)
Definition getv (k : string) (d : Dict) : Value :=
  match dict_get k d with Some v => v | None => VNone end.

(** [d.get(k)] where the key is itself a value: only strings are keys. *)
Definition get_by (A : Type) (k : Value) (d : list (string * A)) : option A :=
  match k with VStr s => dict_get s d | _ => None end.

End Py.

(* ------------------------------------------------------------------ *)
(** ** Python strings

    Strings are sequences of bytes.  The methods below are the ones of
    [str] on such sequences. *)

Module Str.

Definition newline : ascii := ascii_of_nat 10.

(** [s.lower()], on the ASCII letters. *)
Definition lower_char (c : ascii) : ascii :=
  let n := nat_of_ascii c in
  if ((65 <=? n) && (n <=? 90))%nat then ascii_of_nat (n + 32) else c.

Fixpoint lower (s : string) : string :=
  match s with
  | EmptyString => EmptyString
  | String c s' => String (lower_char c) (lower s')
  end.

(** [s.startswith(p)] *)
Definition startswith (p s : string) : bool := String.prefix p s.

(** [s.split(sep)] for a separator that is not empty: [skip] counts the
    characters of a separator that are still to be passed over, [cur] is
    the piece that is being read. *)
Fixpoint split_go (sep : string) (skip : nat) (cur s : string) : list string :=
  match s with
  | EmptyString => [cur]
  | String c s' =>
      match skip with
      | S n => split_go sep n cur s'
      | 0 =>
          if String.prefix sep s
          then cur :: split_go sep (String.length sep - 1) EmptyString s'
          else split_go sep 0 (cur ++ String c EmptyString) s'
      end
  end.

Definition split (sep s : string) : list string := split_go sep 0 EmptyString s.

(** [sep.join(xs)] *)
Fixpoint join (sep : string) (xs : list string) : string :=
  match xs with
  | [] => EmptyString
  | [x] => x
  | x :: xs' => x ++ sep ++ join sep xs'
  end.

(** [s.replace(old, new)] for an [old] that is not empty. *)
Fixpoint replace_go (old new : string) (skip : nat) (s : string) : string :=
  match s with
  | EmptyString => EmptyString
  | String c s' =>
      match skip with
      | S n => replace_go old new n s'
      | 0 =>
          if String.prefix old s
          then new ++ replace_go old new (String.length old - 1) s'
          else String c (replace_go old new 0 s')
      end
  end.

(** [s.replace(old, new)]; an empty [old] matches before every character
    and at the end. *)
Definition replace (old new s : string) : string :=
  match old with
  | EmptyString =>
      new ++ String.concat EmptyString
               (map (fun c => String c new) (list_ascii_of_string s))
  | _ => replace_go old new 0 s
  end.

(** [s.split()]: the pieces between runs of white space. *)
Definition is_space (c : ascii) : bool :=
  let n := nat_of_ascii c in
  (((9 <=? n) && (n <=? 13)) || ((28 <=? n) && (n <=? 32)))%nat.

Fixpoint split_whitespace (cur s : string) : list string :=
  match s with
  | EmptyString => if cur =? EmptyString then [] else [cur]
  | String c s' =>
      if is_space c
      then if cur =? EmptyString then split_whitespace EmptyString s'
           else cur :: split_whitespace EmptyString s'
      else split_whitespace (cur ++ String c EmptyString) s'
  end.

(** The characters of a string, as strings: what iterating over it
    yields. *)
Definition chars (s : string) : list string :=
  map (fun c => String c EmptyString) (list_ascii_of_string s).

(** [s.partition(sep)] for a separator of one character: the text before
    its first occurrence and the text after it. *)
Fixpoint partition (sep : ascii) (s : string) : string * string :=
  match s with
  | EmptyString => (EmptyString, EmptyString)
  | String c s' =>
      if Ascii.eqb c sep then (EmptyString, s')
      else let (a, b) := partition sep s' in (String c a, b)
  end.

End Str.

(* ------------------------------------------------------------------ *)
(** ** Regular expressions

    The fragment of Python's [re] that the three patterns of the module
    use, with the semantics of its backtracking matcher: a repetition is
    greedy, an alternation tries its left branch first, and the first way
    of matching the whole pattern that the search finds is the match. *)

Module Regex.

Inductive Regex : Type :=
| Eps
| Chr (p : ascii -> bool)          (* one character of a class *)
| Seq (a b : Regex)
| Alt (a b : Regex)                (* [a|b] *)
| Star (a : Regex)                 (* [a*] *)
| Group (n : nat) (a : Regex)      (* the capturing group number [n] *)
| Bol                              (* [^] *)
| Eol.                             (* [$] *)

(** The captured groups, the last one that was closed first. *)
Definition Groups : Type := list (nat * string).

(** The text between a position and a later one, each given by the input
    that is left to read. *)
Definition consumed (s s' : string) : string :=
  substring 0 (String.length s - String.length s') s.

(** [run r whole s gs k]: match [r] at the position of [whole] where [s]
    is left, then go on with [k]; [None] makes the matcher backtrack.  An
    iteration of [a*] that reads nothing ends the repetition. *)
Fixpoint run (r : Regex) (whole s : string) (gs : Groups)
    (k : string -> Groups -> option Groups) {struct r} : option Groups :=
  match r with
  | Eps => k s gs
  | Chr p =>
      match s with
      | String c s' => if p c then k s' gs else None
      | EmptyString => None
      end
  | Seq a b => run a whole s gs (fun s' gs' => run b whole s' gs' k)
  | Alt a b =>
      match run a whole s gs k with
      | Some g => Some g
      | None => run b whole s gs k
      end
  | Star a =>
      (fix star (n : nat) (s : string) (gs : Groups) {struct n} : option Groups :=
         match n with
         | 0 => k s gs
         | S n' =>
             match run a whole s gs
                     (fun s' gs' =>
                        if (String.length s' <? String.length s)%nat
                        then star n' s' gs' else None) with
             | Some g => Some g
             | None => k s gs
             end
         end) (S (String.length s)) s gs
  | Group n a => run a whole s gs (fun s' gs' => k s' ((n, consumed s s') :: gs'))
  | Bol => if (String.length s =? String.length whole)%nat then k s gs else None
  | Eol =>
      if (s =? EmptyString) || (s =? String Str.newline EmptyString)
      then k s gs else None
  end.

(** [r.match(s)]: a match that starts at the beginning of [s]. *)
Definition re_match (r : Regex) (s : string) : option Groups :=
  run r s s [] (fun _ gs => Some gs).

(** [m[n]] *)
Fixpoint group (n : nat) (gs : Groups) : string :=
  match gs with
  | [] => EmptyString
  | (n', t) :: gs' => if (n' =? n)%nat then t else group n gs'
  end.

(** Pieces of patterns. *)
Fixpoint lit (s : string) : Regex :=
  match s with
  | EmptyString => Eps
  | String c s' => Seq (Chr (Ascii.eqb c)) (lit s')
  end.

Definition plus (a : Regex) : Regex := Seq a (Star a).      (* [a+] *)
Definition opt (a : Regex) : Regex := Alt a Eps.            (* [a?] *)
Definition dot : Regex := Chr (fun c => negb (Ascii.eqb c Str.newline)).  (* [.] *)
Definition other_than (x : ascii) : Regex := Chr (fun c => negb (Ascii.eqb c x)).
Definition digit : Regex :=                                  (* [\d] *)
  Chr (fun c => let n := nat_of_ascii c in ((48 <=? n) && (n <=? 57))%nat).

Fixpoint seq (rs : list Regex) : Regex :=
  match rs with
  | [] => Eps
  | [r] => r
  | r :: rs' => Seq r (seq rs')
  end.

End Regex.

(* ------------------------------------------------------------------ *)
(** ** Exceptions and the state-and-exception monad *)

Module Exc.

(** The exceptions the modelled code raises or lets through. *)
Inductive Exception : Type :=
| KeyError (key : string)
| TypeError
| ValueError
| AttributeError
| IndexError
| NoStackUpdates
| DependencyNotYetSatisfied
| PlainException (msg : string)       (* [raise Exception("...")] *)
| ServiceFailure (msg : string).      (* raised by a collaborator *)

(** The outcome of a call.  [OutOfFuel] is not a Python outcome: it marks a
    run of the model in which a [while] loop was cut off by its fuel, and
    stands for a loop that does not terminate.  No handler catches it. *)
Inductive Result (A : Type) : Type :=
| Ok (a : A)
| Raise (e : Exception)
| OutOfFuel.

Arguments Ok {A} a.
Arguments Raise {A} e.
Arguments OutOfFuel {A}.

(** Sequencing of pure results. *)
Definition rbind {A B} (r : Result A) (k : A -> Result B) : Result B :=
  match r with
  | Ok a => k a
  | Raise e => Raise e
  | OutOfFuel => OutOfFuel
  end.

(** A computation over a mutable state [S]: the state survives an
    exception, as the mutations of a Python object do. *)
Definition M (S A : Type) : Type := S -> Result A * S.

Definition ret {S A} (a : A) : M S A := fun s => (Ok a, s).
Definition raise {S A} (e : Exception) : M S A := fun s => (Raise e, s).
Definition bind {S A B} (m : M S A) (k : A -> M S B) : M S B :=
  fun s => match m s with
           | (Ok a, s') => k a s'
           | (Raise e, s') => (Raise e, s')
           | (OutOfFuel, s') => (OutOfFuel, s')
           end.
Definition get {S} : M S S := fun s => (Ok s, s).
Definition put {S} (s : S) : M S unit := fun _ => (Ok tt, s).
Definition modify {S} (f : S -> S) : M S unit := fun s => (Ok tt, f s).

(** [try: m  except Exception as e: h e] *)
Definition try_except {S A} (m : M S A) (h : Exception -> M S A) : M S A :=
  fun s => match m s with
           | (Ok a, s') => (Ok a, s')
           | (Raise e, s') => h e s'
           | (OutOfFuel, s') => (OutOfFuel, s')
           end.

(** [try: m  except DependencyNotYetSatisfied: h] *)
Definition try_dependency {S A} (m : M S A) (h : M S A) : M S A :=
  fun s => match m s with
           | (Raise DependencyNotYetSatisfied, s') => h s'
           | r => r
           end.

(** A call of a collaborator: it changes the collaborator's state and
    returns or raises.  That it comes back is an assumption on the
    collaborators that the type expresses. *)
Inductive Returned (A : Type) : Type :=
| Returns (a : A)
| Raises (e : Exception).

Arguments Returns {A} a.
Arguments Raises {A} e.

Definition Call (S A : Type) : Type := S -> Returned A * S.

Definition call {S A} (c : Call S A) : M S A :=
  fun s => match c s with
           | (Returns a, s') => (Ok a, s')
           | (Raises e, s') => (Raise e, s')
           end.

(** Lift a pure result. *)
Definition lift {S A} (r : Result A) : M S A := fun s => (r, s).

(** [d[k]] for a key that must be present. *)
Definition of_option {S A} (o : option A) (e : Exception) : M S A :=
  match o with Some a => ret a | None => raise e end.

(** [for x in xs: body x] *)
Fixpoint for_each {S A} (xs : list A) (body : A -> M S unit) : M S unit :=
  match xs with
  | [] => ret tt
  | x :: xs' => bind (body x) (fun _ => for_each xs' body)
  end.

(** [m in v] for a string [m]. *)
Definition py_in (m : string) (v : Py.Value) : Result bool :=
  match v with
  | Py.VStr s => Ok (Py.contains m s)
  | Py.VList l => Ok (existsb (Py.py_eq (Py.VStr m)) l)
  | Py.VDict d => Ok (Py.dict_has m d)
  | _ => Raise TypeError
  end.

(** A computation that is never cut off by fuel. *)
Definition terminates {S A} (m : M S A) : Prop :=
  forall s, fst (m s) <> OutOfFuel.

End Exc.

Declare Scope monad_scope.
Delimit Scope monad_scope with monad.
Notation "x <- m ;; k" := (Exc.bind m (fun x => k))
  (at level 61, m at next level, right associativity) : monad_scope.
Notation "m ;;; k" := (Exc.bind m (fun _ => k))
  (at level 61, right associativity) : monad_scope.

(* ------------------------------------------------------------------ *)
(** ** Stacks, templates and resource changes *)

Module Engine.

Import Py Exc.
Local Open Scope monad_scope.

Definition ACTION_CREATE : string := "create".
Definition ACTION_DELETE : string := "delete".

(** The [Action] of a resource change. *)
Inductive ChangeAction : Type := Remove | Add | Modify.

Definition ChangeAction_eqb (a b : ChangeAction) : bool :=
  match a, b with
  | Remove, Remove | Add, Add | Modify, Modify => true
  | _, _ => false
  end.

(** The dictionary under ["ResourceChange"] that [get_change_config] builds
    (the constant entries [Scope] and [Details] are left out).  [_deployed]
    is the key [prepare_should_deploy_change] attaches later. *)
Record ResourceChange : Type := {
  Action : ChangeAction;
  LogicalResourceId : Value;
  PhysicalResourceId : Value;
  ResourceType : Value;
  Replacement : option string;
  _deployed : option bool
}.

Definition set__deployed (d : option bool) (c : ResourceChange) : ResourceChange :=
  {| Action := Action c; LogicalResourceId := LogicalResourceId c;
     PhysicalResourceId := PhysicalResourceId c; ResourceType := ResourceType c;
     Replacement := Replacement c; _deployed := d |}.

(** A resource entry of a template is a dictionary. *)
Definition Resource : Type := Dict.
Definition Resources : Type := list (string * Resource).

(** What the engine reads and writes of a [Stack] or [StackChangeSet]
    object (the class itself lives in [engine/entities.py]).  Every field is
    an attribute or a dictionary entry the deployer accesses. *)
Record Stack : Type := {
  stack_name : string;
  status : string;                                  (* set_stack_status *)
  template_Resources : Resources;                   (* template["Resources"] *)
  template_Parameters : list (string * Dict);       (* template["Parameters"] *)
  template_original_Resources : list (string * Value);
  metadata_Parameters : list Dict;                  (* metadata["Parameters"] *)
  metadata_Capabilities : Value;
  metadata_Status : Value;
  metadata_ExecutionStatus : Value;
  metadata_StatusReason : Value;
  outputs : Dict;
  conditions : Dict;
  resource_states : list (string * Dict);
  change_sets : list (list Dict);   (* metadata["Parameters"] of each attached change set *)
  changes : list ResourceChange;    (* StackChangeSet.changes *)
  is_change_set : bool;             (* isinstance(_, StackChangeSet) *)
  resolved_outputs : Value;
  time_attributes : list string     (* set_time_attribute *)
}.

Definition set_status (v : string) (s : Stack) : Stack :=
  {| stack_name := stack_name s; status := v;
     template_Resources := template_Resources s;
     template_Parameters := template_Parameters s;
     template_original_Resources := template_original_Resources s;
     metadata_Parameters := metadata_Parameters s;
     metadata_Capabilities := metadata_Capabilities s;
     metadata_Status := metadata_Status s;
     metadata_ExecutionStatus := metadata_ExecutionStatus s;
     metadata_StatusReason := metadata_StatusReason s;
     outputs := outputs s; conditions := conditions s;
     resource_states := resource_states s; change_sets := change_sets s;
     changes := changes s; is_change_set := is_change_set s;
     resolved_outputs := resolved_outputs s;
     time_attributes := time_attributes s |}.

Definition set_template_Resources (v : Resources) (s : Stack) : Stack :=
  {| stack_name := stack_name s; status := status s;
     template_Resources := v;
     template_Parameters := template_Parameters s;
     template_original_Resources := template_original_Resources s;
     metadata_Parameters := metadata_Parameters s;
     metadata_Capabilities := metadata_Capabilities s;
     metadata_Status := metadata_Status s;
     metadata_ExecutionStatus := metadata_ExecutionStatus s;
     metadata_StatusReason := metadata_StatusReason s;
     outputs := outputs s; conditions := conditions s;
     resource_states := resource_states s; change_sets := change_sets s;
     changes := changes s; is_change_set := is_change_set s;
     resolved_outputs := resolved_outputs s;
     time_attributes := time_attributes s |}.

Definition set_template_original_Resources (v : list (string * Value)) (s : Stack) : Stack :=
  {| stack_name := stack_name s; status := status s;
     template_Resources := template_Resources s;
     template_Parameters := template_Parameters s;
     template_original_Resources := v;
     metadata_Parameters := metadata_Parameters s;
     metadata_Capabilities := metadata_Capabilities s;
     metadata_Status := metadata_Status s;
     metadata_ExecutionStatus := metadata_ExecutionStatus s;
     metadata_StatusReason := metadata_StatusReason s;
     outputs := outputs s; conditions := conditions s;
     resource_states := resource_states s; change_sets := change_sets s;
     changes := changes s; is_change_set := is_change_set s;
     resolved_outputs := resolved_outputs s;
     time_attributes := time_attributes s |}.

Definition set_metadata_Parameters (v : list Dict) (s : Stack) : Stack :=
  {| stack_name := stack_name s; status := status s;
     template_Resources := template_Resources s;
     template_Parameters := template_Parameters s;
     template_original_Resources := template_original_Resources s;
     metadata_Parameters := v;
     metadata_Capabilities := metadata_Capabilities s;
     metadata_Status := metadata_Status s;
     metadata_ExecutionStatus := metadata_ExecutionStatus s;
     metadata_StatusReason := metadata_StatusReason s;
     outputs := outputs s; conditions := conditions s;
     resource_states := resource_states s; change_sets := change_sets s;
     changes := changes s; is_change_set := is_change_set s;
     resolved_outputs := resolved_outputs s;
     time_attributes := time_attributes s |}.

(** The three entries [_run] writes into a change set's metadata, and
    [Capabilities]. *)
Definition set_metadata (cap st ex reason : Value) (s : Stack) : Stack :=
  {| stack_name := stack_name s; status := status s;
     template_Resources := template_Resources s;
     template_Parameters := template_Parameters s;
     template_original_Resources := template_original_Resources s;
     metadata_Parameters := metadata_Parameters s;
     metadata_Capabilities := cap;
     metadata_Status := st;
     metadata_ExecutionStatus := ex;
     metadata_StatusReason := reason;
     outputs := outputs s; conditions := conditions s;
     resource_states := resource_states s; change_sets := change_sets s;
     changes := changes s; is_change_set := is_change_set s;
     resolved_outputs := resolved_outputs s;
     time_attributes := time_attributes s |}.

Definition set_outputs_conditions (o c : Dict) (s : Stack) : Stack :=
  {| stack_name := stack_name s; status := status s;
     template_Resources := template_Resources s;
     template_Parameters := template_Parameters s;
     template_original_Resources := template_original_Resources s;
     metadata_Parameters := metadata_Parameters s;
     metadata_Capabilities := metadata_Capabilities s;
     metadata_Status := metadata_Status s;
     metadata_ExecutionStatus := metadata_ExecutionStatus s;
     metadata_StatusReason := metadata_StatusReason s;
     outputs := o; conditions := c;
     resource_states := resource_states s; change_sets := change_sets s;
     changes := changes s; is_change_set := is_change_set s;
     resolved_outputs := resolved_outputs s;
     time_attributes := time_attributes s |}.

Definition set_resource_states (v : list (string * Dict)) (s : Stack) : Stack :=
  {| stack_name := stack_name s; status := status s;
     template_Resources := template_Resources s;
     template_Parameters := template_Parameters s;
     template_original_Resources := template_original_Resources s;
     metadata_Parameters := metadata_Parameters s;
     metadata_Capabilities := metadata_Capabilities s;
     metadata_Status := metadata_Status s;
     metadata_ExecutionStatus := metadata_ExecutionStatus s;
     metadata_StatusReason := metadata_StatusReason s;
     outputs := outputs s; conditions := conditions s;
     resource_states := v; change_sets := change_sets s;
     changes := changes s; is_change_set := is_change_set s;
     resolved_outputs := resolved_outputs s;
     time_attributes := time_attributes s |}.

Definition set_changes (v : list ResourceChange) (s : Stack) : Stack :=
  {| stack_name := stack_name s; status := status s;
     template_Resources := template_Resources s;
     template_Parameters := template_Parameters s;
     template_original_Resources := template_original_Resources s;
     metadata_Parameters := metadata_Parameters s;
     metadata_Capabilities := metadata_Capabilities s;
     metadata_Status := metadata_Status s;
     metadata_ExecutionStatus := metadata_ExecutionStatus s;
     metadata_StatusReason := metadata_StatusReason s;
     outputs := outputs s; conditions := conditions s;
     resource_states := resource_states s; change_sets := change_sets s;
     changes := v; is_change_set := is_change_set s;
     resolved_outputs := resolved_outputs s;
     time_attributes := time_attributes s |}.

Definition set_resolved_outputs (v : Value) (s : Stack) : Stack :=
  {| stack_name := stack_name s; status := status s;
     template_Resources := template_Resources s;
     template_Parameters := template_Parameters s;
     template_original_Resources := template_original_Resources s;
     metadata_Parameters := metadata_Parameters s;
     metadata_Capabilities := metadata_Capabilities s;
     metadata_Status := metadata_Status s;
     metadata_ExecutionStatus := metadata_ExecutionStatus s;
     metadata_StatusReason := metadata_StatusReason s;
     outputs := outputs s; conditions := conditions s;
     resource_states := resource_states s; change_sets := change_sets s;
     changes := changes s; is_change_set := is_change_set s;
     resolved_outputs := v;
     time_attributes := time_attributes s |}.

Definition add_time_attribute (v : string) (s : Stack) : Stack :=
  {| stack_name := stack_name s; status := status s;
     template_Resources := template_Resources s;
     template_Parameters := template_Parameters s;
     template_original_Resources := template_original_Resources s;
     metadata_Parameters := metadata_Parameters s;
     metadata_Capabilities := metadata_Capabilities s;
     metadata_Status := metadata_Status s;
     metadata_ExecutionStatus := metadata_ExecutionStatus s;
     metadata_StatusReason := metadata_StatusReason s;
     outputs := outputs s; conditions := conditions s;
     resource_states := resource_states s; change_sets := change_sets s;
     changes := changes s; is_change_set := is_change_set s;
     resolved_outputs := resolved_outputs s;
     time_attributes := time_attributes s ++ [v] |}.

(** Modelled from the spec: [Stack.resources] (the class is in
    [engine/entities.py], which is not among the sources).  The spec's stack
    owns "a mutable resources map (logical-id -> Resource with live state)";
    its entries are the resource objects of the stack's template. *)
Definition resources (s : Stack) : Resources := template_Resources s.

(** Modelled from the spec: [Stack.set_resource_status] (in
    [engine/entities.py], not among the sources).  The spec's stack keeps a
    "per-resource status history" apart from its "stack-level status": the
    entry of the resource in [resource_states] gets the new
    [ResourceStatus], the one it had becomes [PreviousResourceStatus]. *)
Definition set_resource_status (resource_id : Value) (st : string)
    (physical_res_id : Value) (s : Stack) : Stack :=
  match resource_id with
  | VStr k =>
      let state := match dict_get k (resource_states s) with
                   | Some d => d | None => [] end in
      let state := dict_set "PhysicalResourceId"
                     (py_or (getv "PhysicalResourceId" state) physical_res_id) state in
      let state := dict_set "PreviousResourceStatus" (getv "ResourceStatus" state) state in
      let state := dict_set "ResourceStatus" (VStr st) state in
      set_resource_states (dict_set k state (resource_states s)) s
  | _ => s
  end.

(** A reference to a resource object: the template that holds it and its
    key there. *)
Inductive Side : Type := Old | New.

Section WithExt.

(** The state of the collaborators (service back-ends, parameter store). *)
Variable Ext : Type.

(** The objects an operation works on: [existing_stack], [new_stack] and the
    collaborators.  [other = None] says that [new_stack] is the very object
    [existing_stack], as in [deploy_stack], so that a write through one name
    is seen through the other. *)
Record Env : Type := {
  existing : Stack;
  other : option Stack;
  ext : Ext
}.

Definition new_stack (w : Env) : Stack :=
  match other w with Some s => s | None => existing w end.

Definition upd_existing (f : Stack -> Stack) (w : Env) : Env :=
  {| existing := f (existing w); other := other w; ext := ext w |}.

Definition upd_new (f : Stack -> Stack) (w : Env) : Env :=
  match other w with
  | Some s => {| existing := existing w; other := Some (f s); ext := ext w |}
  | None => upd_existing f w
  end.

Definition stack_of (sd : Side) (w : Env) : Stack :=
  match sd with Old => existing w | New => new_stack w end.

Definition upd_stack (sd : Side) (f : Stack -> Stack) (w : Env) : Env :=
  match sd with Old => upd_existing f w | New => upd_new f w end.

(** Run a collaborator that only sees its own state. *)
Definition lift_ext (A : Type) (c : Call Ext A) : M Env A :=
  fun w => let (r, e) := call c (ext w) in
           (r, {| existing := existing w; other := other w; ext := e |}).

(** [for x in xs: acc = f acc x] *)
Fixpoint fold_m (S A B : Type) (f : B -> A -> M S B) (xs : list A) (b : B) : M S B :=
  match xs with
  | [] => ret b
  | x :: xs' => b' <- f b x ;; fold_m f xs' b'
  end.

(** [resolve_ssm_parameter_value] of [engine/entities.py]: a look-up in the
    parameter store. *)
Variable resolve_ssm_parameter_value : Value -> Value -> Call Ext Value.

(* ---------------------------- *)
(** *** Parameter merging *)

(** [p["ParameterKey"]]; parameter keys are strings. *)
Definition param_key (p : Dict) : Result string :=
  match dict_get "ParameterKey" p with
  | Some (VStr k) => Ok k
  | Some _ => Raise TypeError
  | None => Raise (KeyError "ParameterKey")
  end.

Definition resolve_param (logical_id : string) (param_type default_value : Value)
  : M Env Value :=
  if py_eq param_type (VStr "AWS::SSM::Parameter::Value<String>")
  then lift_ext (resolve_ssm_parameter_value param_type default_value)
  else ret VNone.

(** The local function [_update_params] of [apply_parameter_changes]. *)
Definition _update_params (params_list : list Dict) (parameters : list (string * Dict))
  : Result (list (string * Dict)) :=
  fold_left
    (fun acc param =>
       rbind acc (fun parameters =>
         (* make sure we preserve parameter values if UsePreviousValue=true *)
         if negb (truthy (getv "UsePreviousValue" param))
         then rbind (param_key param) (fun k => Ok (dict_set k param parameters))
         else Ok parameters))
    params_list (Ok parameters).

(** The entry [apply_parameter_changes] builds for the template parameter
    [logical_id], before [ResolvedValue] is attached. *)
Definition template_param_entry (logical_id : string) (value : Dict)
    (parameters : list (string * Dict)) : Dict :=
  let default := getv "Default" value in
  let provided_param_value :=
    match dict_get logical_id parameters with
    | Some p => VDict p
    | None => VNone
    end in
  [ ("ParameterKey", VStr logical_id);
    ("ParameterValue",
      match default with VNone => provided_param_value | _ => default end) ].

Definition apply_parameter_changes : M Env unit :=
  w <- get ;;
  (* go through current parameter values *)
  parameters <- lift (fold_left
    (fun acc p =>
       rbind acc (fun parameters =>
         rbind (param_key p) (fun k => Ok (dict_set k p parameters))))
    (metadata_Parameters (existing w)) (Ok [])) ;;
  parameters <- fold_m
    (fun parameters (kv : string * Dict) =>
       let (logical_id, value) := kv in
       let default := getv "Default" value in
       let param := template_param_entry logical_id value parameters in
       param <- match default with
                | VNone => ret param
                | _ =>
                    resolved_value <- resolve_param logical_id (getv "Type" value) default ;;
                    match resolved_value with
                    | VNone => ret param
                    | _ => ret (dict_set "ResolvedValue" resolved_value param)
                    end
                end ;;
       ret (dict_set logical_id param parameters))
    (template_Parameters (new_stack w)) parameters ;;
  parameters <- lift (_update_params (metadata_Parameters (new_stack w)) parameters) ;;
  parameters <- lift (fold_left
    (fun acc change_set_params =>
       rbind acc (_update_params change_set_params))
    (change_sets (new_stack w)) (Ok parameters)) ;;
  modify (upd_existing (set_metadata_Parameters
    (filter (fun v => truthy (VDict v)) (dict_values parameters)))).

(* ---------------------------- *)
(** *** Change planner *)

Definition read_resource (sd : Side) (key : string) : M Env Resource :=
  w <- get ;;
  of_option (dict_get key (template_Resources (stack_of sd w))) (KeyError key).

Definition write_resource (sd : Side) (key : string) (r : Resource) : M Env unit :=
  modify (upd_stack sd (fun s =>
    set_template_Resources (dict_set key r (template_Resources s)) s)).

(** [resource["Properties"]] followed by a use as a dictionary. *)
Definition properties_of (r : Resource) : Result Dict :=
  match dict_get "Properties" r with
  | Some (VDict d) => Ok d
  | Some _ => Raise AttributeError
  | None => Raise (KeyError "Properties")
  end.

(** [set(a) != set(b)] is the negation of this. *)
Definition same_key_set (a b : list string) : bool :=
  forallb (fun k => str_in k b) a && forallb (fun k => str_in k a) b.

Definition ignored_keys : list string := ["LogicalResourceId"; "PhysicalResourceId"].

(** Returns [True] or falls off the end ([None], here [false]). *)
Definition resource_config_differs (resource_new : Resource) : M Env bool :=
  resource_id <- of_option (dict_get "LogicalResourceId" resource_new)
                   (KeyError "LogicalResourceId") ;;
  w <- get ;;
  resource_old <- of_option (get_by resource_id (resources (existing w)))
                    (KeyError "resource_id") ;;
  props_old <- lift (properties_of resource_old) ;;
  props_new <- lift (properties_of resource_new) ;;
  let old_keys := filter (fun k => negb (str_in k ignored_keys)) (dict_keys props_old) in
  let new_keys := filter (fun k => negb (str_in k ignored_keys)) (dict_keys props_new) in
  if negb (same_key_set old_keys new_keys) then ret true
  else if existsb (fun key => negb (py_eq (getv key props_old) (getv key props_new))) old_keys
  then ret true
  else
    let old_status :=
      match get_by resource_id (resource_states (existing w)) with
      | Some d => d
      | None => []
      end in
    let previous_state :=
      py_or (py_or (getv "PreviousResourceStatus" old_status)
                   (getv "ResourceStatus" old_status)) (VStr "") in
    if truthy (VDict old_status)
    then is_del <- lift (py_in "DELETE" previous_state) ;; ret is_del
    else ret false.

Definition get_change_config (action : ChangeAction) (resource : Resource)
  : Result ResourceChange :=
  match dict_get "Type" resource with
  | None => Raise (KeyError "Type")
  | Some ty =>
      Ok {| Action := action;
            LogicalResourceId := getv "LogicalResourceId" resource;
            PhysicalResourceId := getv "PhysicalResourceId" resource;
            ResourceType := ty;
            Replacement := match action with Modify => Some "False" | _ => None end;
            _deployed := None |}
  end.

(** The change [get_change_config] builds for a resource that has a
    [Type]. *)
Definition planned_change (action : ChangeAction) (resource : Resource)
  : ResourceChange :=
  {| Action := action;
     LogicalResourceId := getv "LogicalResourceId" resource;
     PhysicalResourceId := getv "PhysicalResourceId" resource;
     ResourceType := getv "Type" resource;
     Replacement := match action with Modify => Some "False" | _ => None end;
     _deployed := None |}.

(** The position of an action in the order in which [construct_changes]
    goes through the three lists. *)
Definition action_rank (a : ChangeAction) : nat :=
  match a with Remove => 0 | Add => 1 | Modify => 2 end.

(** The three list comprehensions of [construct_changes]; an element is a
    reference to the resource object. *)
Definition deletes_of (old_resources new_resources : Resources) : list (Side * string) :=
  map (fun kv => (Old, fst kv))
      (filter (fun kv => negb (dict_has (fst kv) new_resources)) old_resources).

Definition adds_of (initialize : bool) (old_resources new_resources : Resources)
  : list (Side * string) :=
  map (fun kv => (New, fst kv))
      (filter (fun kv => initialize || negb (dict_has (fst kv) old_resources)) new_resources).

Definition modifies_of (initialize : bool) (old_resources new_resources : Resources)
  : list (Side * string) :=
  map (fun kv => (New, fst kv))
      (filter (fun kv => negb initialize && dict_has (fst kv) old_resources) new_resources).

(** The body of the inner [for item in items] loop. *)
Definition construct_item (filter_unchanged_resources : bool) (action : ChangeAction)
    (changes : list ResourceChange) (item : Side * string)
  : M Env (list ResourceChange) :=
  let (sd, key) := item in
  r <- read_resource sd key ;;
  let r := dict_set "Properties"
             (match dict_get "Properties" r with Some v => v | None => VDict [] end) r in
  write_resource sd key r ;;;
  differs <- (if negb filter_unchanged_resources
                 || negb (ChangeAction_eqb action Modify)
              then ret true
              else resource_config_differs r) ;;
  if differs
  then change <- lift (get_change_config action r) ;; ret (changes ++ [change])
  else ret changes.

Definition construct_changes
    (initialize append_to_changeset filter_unchanged_resources : bool)
  : M Env (list ResourceChange) :=
  w <- get ;;
  let old_resources := template_Resources (existing w) in
  let new_resources := template_Resources (new_stack w) in
  let deletes := deletes_of old_resources new_resources in
  let adds := adds_of initialize old_resources new_resources in
  let modifies := modifies_of initialize old_resources new_resources in
  changes <- fold_m
    (fun changes (ai : ChangeAction * list (Side * string)) =>
       fold_m (construct_item filter_unchanged_resources (fst ai)) (snd ai) changes)
    [(Remove, deletes); (Add, adds); (Modify, modifies)] [] ;;
  (* append changes to change set *)
  (if append_to_changeset
   then w' <- get ;;
        if is_change_set (new_stack w')
        then modify (upd_new (fun s => set_changes (Engine.changes s ++ changes) s))
        else ret tt
   else ret tt) ;;;
  ret changes.

(** [merge_properties]: copy the entries of the new resource into the old
    one.  The old resource is written back after every step, and the new one
    is read again before its [Properties] are copied, so that the case of
    both names denoting one object is covered. *)
Definition merge_properties (resource_id : Value) : M Env unit :=
  w <- get ;;
  let old_resources := template_Resources (existing w) in
  let new_resources := template_Resources (new_stack w) in
  new_resource <- of_option (get_by resource_id new_resources) (KeyError "resource_id") ;;
  match resource_id with
  | VStr key =>
      (* old_resource = old_resources[resource_id] = old_resources.get(resource_id) or {} *)
      let found := match dict_get key old_resources with Some d => d | None => [] end in
      let kept := truthy (VDict found) in
      let old_resource := if kept then found else [] in
      write_resource Old key old_resource ;;;
      let old_resource :=
        fold_left
          (fun acc (kv : string * Value) =>
             if fst kv =? "Properties" then acc
             else dict_set (fst kv)
                    (match dict_get (fst kv) acc with Some v => v | None => snd kv end) acc)
          new_resource old_resource in
      (* old_res_props = old_resource["Properties"] = old_resource.get("Properties", {}) *)
      let old_res_props :=
        match dict_get "Properties" old_resource with Some v => v | None => VDict [] end in
      let old_resource := dict_set "Properties" old_res_props old_resource in
      write_resource Old key old_resource ;;;
      new_resource <- (if kept then read_resource New key else ret new_resource) ;;
      new_props <- lift (properties_of new_resource) ;;
      match old_res_props, new_props with
      | VDict d, _ =>
          write_resource Old key
            (dict_set "Properties" (VDict (dict_update d new_props)) old_resource)
      | _, [] => ret tt
      | _, _ :: _ => raise TypeError
      end ;;;
      (* overwrite original template entirely *)
      w' <- get ;;
      original <- of_option (dict_get key (template_original_Resources (new_stack w')))
                    (KeyError key) ;;
      modify (upd_existing (fun s =>
        set_template_original_Resources
          (dict_set key original (template_original_Resources s)) s))
  | _ => raise (KeyError "resource_id")
  end.

(** [init_resource_status(resources, action=action)] with the default
    [stack]. *)
Definition init_resource_status (rs : Resources) (action : string) : M Env unit :=
  w <- get ;;
  let rs := match rs with [] => resources (existing w) | _ => rs end in
  for_each (dict_keys rs) (fun resource_id =>
    modify (upd_existing
      (set_resource_status (VStr resource_id) (action ++ "_IN_PROGRESS") VNone))).

(** The body of the loop of [apply_changes] that looks for actual changes
    and prepares the properties. *)
Definition check_change (contains_changes : bool) (change : ResourceChange)
  : M Env bool :=
  w <- get ;;
  let res_action := Action change in
  let resource := get_by (LogicalResourceId change) (template_Resources (new_stack w)) in
  contains_changes <-
    (match res_action with
     | Modify =>
         match resource with
         | None => raise TypeError
         | Some r => differs <- resource_config_differs r ;;
                     ret (if differs then true else contains_changes)
         end
     | _ => ret true
     end) ;;
  (match res_action with
   | Modify | Add =>
       match resource with
       | None => raise TypeError
       | Some r =>
           resource_id <- of_option (dict_get "LogicalResourceId" r)
                            (KeyError "LogicalResourceId") ;;
           merge_properties resource_id
       end
   | Remove => ret tt
   end) ;;;
  ret contains_changes.

(** The first statements of [apply_changes]: resource statuses, parameters
    and the diff. *)
Definition plan_changes (initialize : bool) : M Env (list ResourceChange) :=
  w <- get ;;
  let old_resources := template_Resources (existing w) in
  init_resource_status old_resources "UPDATE" ;;;
  (* apply parameter changes to existing stack *)
  apply_parameter_changes ;;;
  (* construct changes *)
  construct_changes initialize false false.

(** [apply_changes] up to the start of the deployment loop: everything that
    runs in the caller's thread. *)
Definition apply_changes_prepare (initialize : bool) : M Env (list ResourceChange) :=
  changes <- plan_changes initialize ;;
  (* check if we have actual changes in the stack, and prepare properties *)
  contains_changes <- fold_m check_change changes false ;;
  if negb contains_changes then raise NoStackUpdates
  else
    (* merge stack outputs and conditions *)
    w' <- get ;;
    modify (upd_existing (fun s =>
      set_outputs_conditions
        (dict_update (outputs s) (outputs (new_stack w')))
        (dict_update (conditions s) (conditions (new_stack w'))) s)) ;;;
    ret changes.

(* ---------------------------- *)
(** *** Deployment loop *)

(** The collaborators of the loop.  Each one works on the stack objects and
    on the back-ends and is free to change both; a resource is named by its
    logical id, under which the collaborator finds the resource object in
    [stack.resources]. *)
Record Services : Type := {
  (** [add_default_resource_props(resource, stack_name, ...)] *)
  add_default_resource_props : string -> Call Env unit;
  (** [evaluate_resource_condition(stack_name, resources, resource)] *)
  evaluate_resource_condition : Value -> Call Env bool;
  (** [resolve_refs_recursively(stack_name, resources, resource)] *)
  resolve_refs_recursively : Value -> Call Env unit;
  (** [self.is_deployable_resource(resource)] *)
  is_deployable_resource : Value -> Call Env bool;
  (** [self.is_deployed(resource)] *)
  is_deployed : Value -> Call Env bool;
  (** [get_resource_model_instance(id, resources).is_updatable()] *)
  is_updatable : Value -> Call Env bool;
  (** [self.all_resource_dependencies_satisfied(resource)] *)
  all_resource_dependencies_satisfied : Value -> Call Env bool;
  (** what [execute_resource_action(resource_id, .., action_name)] does *)
  run_resource_action : Value -> string -> Call Env Value;
  (** what [update_resource(resource_id, resources, stack_name)] does *)
  run_update_resource : Value -> Call Env Value;
  (** [determine_resource_physical_id(resource_id, ..)] *)
  determine_resource_physical_id : Value -> Call Env Value;
  (** [get_action_name_for_resource_change(action)] *)
  get_action_name_for_resource_change : ChangeAction -> string;
  (** [resolve_outputs(stack)] *)
  resolve_outputs : Call Env Value
}.

Variable svc : Services.

(** The stack objects together with a record of the resource actions that
    were started, oldest first: the pairs of a logical id and of ["create"],
    ["delete"] or ["update"].  The record is kept by the model only. *)
Record World : Type := {
  env : Env;
  calls : list (Value * string)
}.

Definition lift_env (A : Type) (m : M Env A) : M World A :=
  fun w => let (r, e) := m (env w) in (r, {| env := e; calls := calls w |}).

Definition log_call (resource_id : Value) (what : string) : M World unit :=
  modify (fun w => {| env := env w; calls := calls w ++ [(resource_id, what)] |}).

Definition execute_resource_action (resource_id : Value) (action_name : string)
  : M World Value :=
  log_call resource_id action_name ;;;
  lift_env (call (run_resource_action svc resource_id action_name)).

Definition update_resource (resource_id : Value) : M World Value :=
  log_call resource_id "update" ;;;
  lift_env (call (run_update_resource svc resource_id)).

(** [stack.resources[resource_id]] *)
Definition the_resource (resource_id : Value) : M World Resource :=
  w <- get ;;
  of_option (get_by resource_id (resources (existing (env w)))) (KeyError "resource_id").

Definition is_updateable (resource_id : Value) : M Env bool :=
  deployable <- call (is_deployable_resource svc resource_id) ;;
  if negb deployable then ret false
  else deployed <- call (is_deployed svc resource_id) ;;
       if negb deployed then ret false
       else call (is_updatable svc resource_id).

Definition update_resource_details (resource_id result : Value) (action : string)
  : M World Value :=
  (* update physical resource id *)
  resource <- the_resource resource_id ;;
  let physical_id := getv "PhysicalResourceId" resource in
  physical_id <- (if truthy physical_id then ret physical_id
                  else lift_env (call (determine_resource_physical_id svc resource_id))) ;;
  resource <- the_resource resource_id ;;
  (if (negb (truthy (getv "PhysicalResourceId" resource)) || (action =? "UPDATE"))
      && truthy physical_id
   then match resource_id with
        | VStr key =>
            lift_env (write_resource Old key
                        (dict_set "PhysicalResourceId" physical_id resource))
        | _ => ret tt
        end
   else ret tt) ;;;
  (* set resource status *)
  lift_env (modify (upd_existing
    (set_resource_status resource_id (action ++ "_COMPLETE") physical_id))) ;;;
  ret physical_id.

(** The local variables of [do_apply_changes_in_loop] that outlive one
    statement: the list [changes], which shrinks, and [changes_done].
    [l_passes] counts the iterations of the [for] loop that were started; it
    is kept by the model only. *)
Record Loop : Type := {
  l_world : World;
  l_changes : list ResourceChange;
  l_changes_done : list ResourceChange;
  l_passes : nat
}.

Definition lift_world (A : Type) (m : M World A) : M Loop A :=
  fun l => let (r, w) := m (l_world l) in
           (r, {| l_world := w; l_changes := l_changes l;
                  l_changes_done := l_changes_done l; l_passes := l_passes l |}).

Definition set_l_changes (cs : list ResourceChange) (l : Loop) : Loop :=
  {| l_world := l_world l; l_changes := cs;
     l_changes_done := l_changes_done l; l_passes := l_passes l |}.

(** [changes[j]] *)
Definition change_at (j : nat) : M Loop ResourceChange :=
  l <- get ;;
  of_option (nth_error (l_changes l) j) (PlainException "IndexError").

Fixpoint list_update (A : Type) (j : nat) (f : A -> A) (xs : list A) : list A :=
  match xs, j with
  | [], _ => []
  | x :: xs', 0 => f x :: xs'
  | x :: xs', S j' => x :: list_update j' f xs'
  end.

Fixpoint list_delete (A : Type) (j : nat) (xs : list A) : list A :=
  match xs, j with
  | [], _ => []
  | _ :: xs', 0 => xs'
  | x :: xs', S j' => x :: list_delete j' xs'
  end.

(** A write to the dictionary [changes[j]["ResourceChange"]]. *)
Definition update_change (j : nat) (f : ResourceChange -> ResourceChange) : M Loop unit :=
  modify (fun l => set_l_changes (list_update j f (l_changes l)) l).

(** [del changes[j]] *)
Definition del_change (j : nat) : M Loop unit :=
  modify (fun l => set_l_changes (list_delete j (l_changes l)) l).

(** [prepare_should_deploy_change(resource_id, change, stack, new_resources)]
    for [change = changes[j]].  The result is [None], [False] or [True]. *)
Definition prepare_should_deploy_change (resource_id : Value) (j : nat)
  : M Loop (option bool) :=
  _ <- lift_world (the_resource resource_id) ;;
  change <- change_at j ;;
  let action := Action change in
  (* check resource condition, if present *)
  cond <- lift_world (lift_env (call (evaluate_resource_condition svc resource_id))) ;;
  if negb cond then ret None
  else
    (* resolve refs in resource details *)
    lift_world (lift_env (call (resolve_refs_recursively svc resource_id))) ;;;
    match action with
    | Add | Modify =>
        deployable <- (match action with
                       | Add => lift_world (lift_env (call (is_deployable_resource svc resource_id)))
                       | _ => ret true
                       end) ;;
        if negb deployable then ret (Some false)
        else
          deployed <- lift_world (lift_env (call (is_deployed svc resource_id))) ;;
          update_change j (set__deployed (Some deployed)) ;;;
          if negb deployed then ret (Some true)
          else match action with
               | Add => ret (Some false)
               | _ =>
                   updateable <- lift_world (lift_env (is_updateable resource_id)) ;;
                   if negb updateable then ret (Some false) else ret (Some true)
               end
    | Remove =>
        should_remove <- lift_world (lift_env (call (is_deployable_resource svc resource_id))) ;;
        ret (Some should_remove)
    end.

(** [apply_change(change, stack)] for [change = changes[j]]. *)
Definition apply_change (j : nat) : M Loop Value :=
  change <- change_at j ;;
  let action := Action change in
  let resource_id := LogicalResourceId change in
  _ <- lift_world (the_resource resource_id) ;;
  let deployed := _deployed change in
  update_change j (set__deployed None) ;;;
  cond <- lift_world (lift_env (call (evaluate_resource_condition svc resource_id))) ;;
  if negb cond then ret VNone
  else
    (* execute resource action *)
    result <-
      (match action, deployed with
       | Add, _ | _, Some false =>
           lift_world (execute_resource_action resource_id ACTION_CREATE)
       | Remove, _ =>
           lift_world (execute_resource_action resource_id ACTION_DELETE)
       | Modify, _ =>
           lift_world (update_resource resource_id)
       end) ;;
    (* update resource status and physical resource id *)
    let stack_action := get_action_name_for_resource_change svc action in
    _ <- lift_world (update_resource_details resource_id result stack_action) ;;
    ret result.

(** What one turn of the [while] loop did with [changes[j]]. *)
Inductive Step : Type :=
| Dropped      (* deleted from [changes] without an action *)
| Deferred     (* left in [changes], [j] advanced *)
| Applied.     (* action applied, moved to [changes_done] *)

Definition apply_and_record (j : nat) : M Loop Step :=
  _ <- apply_change j ;;
  change <- change_at j ;;
  modify (fun l => {| l_world := l_world l; l_changes := l_changes l;
                      l_changes_done := l_changes_done l ++ [change];
                      l_passes := l_passes l |}) ;;;
  del_change j ;;;
  ret Applied.

(** The body of the [while j < len(changes)] loop, [try] included. *)
Definition handle_change (j : nat) : M Loop Step :=
  try_dependency
    (change <- change_at j ;;
     let action := Action change in
     let resource_id := LogicalResourceId change in
     match action with
     | Add | Modify =>
         _ <- lift_world (the_resource resource_id) ;;
         should_deploy <- prepare_should_deploy_change resource_id j ;;
         match should_deploy with
         | Some true =>
             satisfied <- lift_world (lift_env (call (all_resource_dependencies_satisfied svc resource_id))) ;;
             if negb satisfied then ret Deferred
             else apply_and_record j
         | _ =>
             del_change j ;;;
             let stack_action := get_action_name_for_resource_change svc action in
             lift_world (lift_env (modify (upd_existing
               (set_resource_status resource_id (stack_action ++ "_COMPLETE") VNone)))) ;;;
             ret Dropped
         end
     | Remove =>
         should_remove <- prepare_should_deploy_change resource_id j ;;
         match should_remove with
         | Some true => apply_and_record j
         | _ => del_change j ;;; ret Dropped
         end
     end)
    (ret Deferred).

(** [while j < len(changes)], with [updated] as its result. *)
Fixpoint while_changes (fuel j : nat) (updated : bool) : M Loop bool :=
  match fuel with
  | 0 => fun l => (OutOfFuel, l)
  | S fuel' =>
      l <- get ;;
      if (j <? length (l_changes l))%nat
      then step <- handle_change j ;;
           match step with
           | Dropped => while_changes fuel' j updated
           | Deferred => while_changes fuel' (j + 1) updated
           | Applied => while_changes fuel' j true
           end
      else ret updated
  end.

Definition max_iters : nat := 30.

(** The message of the exception that ends a loop without progress (the
    list of the pending changes that follows it is left out). *)
Definition loop_completed : string :=
  "Resource deployment loop completed, pending resource changes".

(** One pass: [j = 0; updated = False; while ...]. *)
Definition one_pass : M Loop bool :=
  modify (fun l => {| l_world := l_world l; l_changes := l_changes l;
                      l_changes_done := l_changes_done l;
                      l_passes := S (l_passes l) |}) ;;;
  l <- get ;;
  while_changes (S (length (l_changes l))) 0 false.

(** [for i in range(n)] with the two exits of the loop body. *)
Fixpoint deployment_passes (n : nat) : M Loop unit :=
  match n with
  | 0 => ret tt
  | S n' =>
      updated <- one_pass ;;
      l <- get ;;
      match l_changes l with
      | [] => ret tt
      | _ :: _ =>
          if negb updated
          then raise (PlainException loop_completed)
          else deployment_passes n'
      end
  end.

(** Run a computation of the loop on its own local variables. *)
Definition with_loop (A : Type) (cs : list ResourceChange) (m : M Loop A)
  : M World (A * Loop) :=
  fun w =>
    let (r, l) := m {| l_world := w; l_changes := cs;
                       l_changes_done := []; l_passes := 0 |} in
    (match r with
     | Ok a => Ok (a, l)
     | Raise e => Raise e
     | OutOfFuel => OutOfFuel
     end, l_world l).

Definition do_apply_changes_in_loop (cs : list ResourceChange)
  : M World (list ResourceChange) :=
  w <- get ;;
  let new_resources := resources (existing (env w)) in
  (* apply default props before running the loop *)
  for_each (dict_keys new_resources)
    (fun resource_id => lift_env (call (add_default_resource_props svc resource_id))) ;;;
  (* start deployment loop *)
  r <- with_loop cs (deployment_passes max_iters) ;;
  let changes_done := l_changes_done (snd r) in
  (* clean up references to deleted resources in stack *)
  let deletes := filter (fun c => ChangeAction_eqb (Action c) Remove) changes_done in
  for_each deletes (fun delete =>
    match LogicalResourceId delete with
    | VStr key =>
        lift_env (modify (upd_existing (fun s =>
          set_template_Resources (dict_pop key (template_Resources s)) s)))
    | _ => ret tt
    end) ;;;
  (* resolve outputs *)
  outs <- lift_env (call (resolve_outputs svc)) ;;
  lift_env (modify (upd_existing (set_resolved_outputs outs))) ;;;
  ret changes_done.

(* ---------------------------- *)
(** *** Stack controller *)

(** Modelled from the spec: [Stack.set_stack_status] (in
    [engine/entities.py], not among the sources) sets the "stack-level
    status" of the spec's stack. *)
Definition set_stack_status (st : string) : M World unit :=
  lift_env (modify (upd_existing (set_status st))).

(** Modelled from the spec: [Stack.set_time_attribute] (same file) records
    a time stamp under the given name. *)
Definition set_time_attribute (name : string) : M World unit :=
  lift_env (modify (upd_existing (add_time_attribute name))).

(** The function [_run] that [apply_changes_in_loop] hands to the worker
    thread. *)
Definition _run (cs : list ResourceChange) (action : string) : M World unit :=
  status <- try_except
              (_ <- do_apply_changes_in_loop cs ;; ret (action ++ "_COMPLETE")%string)
              (fun _ => ret (action ++ "_FAILED")%string) ;;
  set_stack_status status ;;;
  w <- get ;;
  if is_change_set (new_stack (env w))
  then
    let failed := contains "FAILED" status in
    lift_env (modify (upd_new (fun s =>
      set_metadata (metadata_Capabilities s) (VStr status)
        (VStr (if failed then "EXECUTE_FAILED" else "EXECUTE_COMPLETE"))
        (VStr ("Deployment " ++ (if failed then "failed" else "succeeded"))%string) s)))
  else ret tt.

(** [start_worker_thread(_run)]: the body of the thread is run where the
    thread is started.  No caller touches the stack status after this
    point, so the final state is the one of the threaded run. *)
Definition apply_changes_in_loop (cs : list ResourceChange) (action : string)
  : M World unit :=
  _run cs action.

(** [apply_changes(existing_stack, new_stack, initialize=.., action=..)];
    the two stacks are the ones of the environment. *)
Definition apply_changes (initialize : bool) (action : string) : M World unit :=
  let action := if action =? "" then "CREATE" else action in
  cs <- lift_env (apply_changes_prepare initialize) ;;
  (* start deployment loop *)
  apply_changes_in_loop cs action.

(** Choose the object that is passed as [new_stack]; [None] passes the
    stack itself. *)
Definition pass_new_stack (ns : option Stack) : M World unit :=
  lift_env (modify (fun w => {| existing := existing w; other := ns; ext := ext w |})).

Definition deploy_stack : M World unit :=
  set_stack_status "CREATE_IN_PROGRESS" ;;;
  try_except
    (pass_new_stack None ;;; apply_changes true "CREATE")
    (fun e => set_stack_status "CREATE_FAILED" ;;; raise e).

Definition apply_change_set (change_set : Stack) : M World unit :=
  w <- get ;;
  let action :=
    if str_in (status (existing (env w))) ["CREATE_COMPLETE"; "UPDATE_COMPLETE"]
    then "UPDATE" else "CREATE" in
  set_stack_status (action ++ "_IN_PROGRESS") ;;;
  (* update attributes that the stack inherits from the changeset *)
  lift_env (modify (upd_existing (fun s =>
    set_metadata (metadata_Capabilities change_set) (metadata_Status s)
      (metadata_ExecutionStatus s) (metadata_StatusReason s) s))) ;;;
  try_except
    (pass_new_stack (Some change_set) ;;; apply_changes false action)
    (fun e =>
       lift_env (modify (upd_new (fun s =>
         set_metadata (metadata_Capabilities s) (VStr (action ++ "_FAILED")%string)
           (metadata_ExecutionStatus s) (metadata_StatusReason s) s))) ;;;
       set_stack_status (action ++ "_FAILED") ;;;
       raise e).

Definition update_stack (new_stack : Stack) : M World unit :=
  set_stack_status "UPDATE_IN_PROGRESS" ;;;
  (* apply changes *)
  pass_new_stack (Some new_stack) ;;;
  apply_changes false "UPDATE" ;;;
  set_time_attribute "LastUpdatedTime".

(** Modelled from the spec: [Stack.resource_status] (in
    [engine/entities.py]) looks the resource up in the per-resource status
    history and raises when there is no entry; [_safe_lookup_is_deleted]
    turns the exception into [True]. *)
Definition _safe_lookup_is_deleted (r_id : string) (s : Stack) : bool :=
  match dict_get r_id (resource_states s) with
  | Some ((_ :: _) as st) => py_eq (getv "ResourceStatus" st) (VStr "DELETE_COMPLETE")
  | _ => true  (* just an assumption *)
  end.

(** The dictionary [resources] that [delete_stack] builds from clones of
    the stack's resources. *)
Definition delete_stack_resources (stack_resources : list Resource)
  : Result (list (string * Resource)) :=
  rbind
    (fold_left
       (fun acc r =>
          rbind acc (fun rs =>
            match dict_get "LogicalResourceId" r with
            | Some (VStr k) => Ok (dict_set k r rs)
            | Some _ => Raise TypeError
            | None => Raise (KeyError "LogicalResourceId")
            end))
       stack_resources (Ok []))
    (fun rs =>
       fold_left
         (fun acc (kv : string * Resource) =>
            rbind acc (fun rs' =>
              let resource := snd kv in
              let resource :=
                dict_set "Properties"
                  (match dict_get "Properties" resource with
                   | Some v => v
                   | None => VDict resource
                   end) resource in
              match dict_get "Type" resource with
              | Some ty => Ok (rs' ++ [(fst kv, dict_set "ResourceType" ty resource)])
              | None => Raise (KeyError "Type")
              end))
         rs (Ok [])).

Definition max_cycle : nat := 10.

(** One resource of one cycle: the [try] statement. *)
Definition delete_resource (resource_id : string) : M World unit :=
  try_except
    (cond <- lift_env (call (evaluate_resource_condition svc (VStr resource_id))) ;;
     if cond
     then _ <- execute_resource_action (VStr resource_id) ACTION_DELETE ;;
          lift_env (modify (upd_existing
            (set_resource_status (VStr resource_id) "DELETE_COMPLETE" VNone)))
     else ret tt)
    (fun _ => ret tt).

(** [for iteration_cycle in range(1, max_cycle + 1)], [n] cycles left. *)
Fixpoint delete_cycles (n : nat) (rs : list (string * Resource)) : M World unit :=
  match n with
  | 0 => ret tt
  | S n' =>
      w <- get ;;
      let rs := filter (fun kv =>
                  negb (_safe_lookup_is_deleted (fst kv) (existing (env w)))) rs in
      match rs with
      | [] => ret tt
      | _ :: _ =>
          for_each rs (fun kv => delete_resource (fst kv)) ;;;
          delete_cycles n' rs
      end
  end.

Definition delete_stack : M World unit :=
  set_stack_status "DELETE_IN_PROGRESS" ;;;
  w <- get ;;
  let stack_resources := dict_values (resources (existing (env w))) in
  rs <- lift (delete_stack_resources stack_resources) ;;
  (* a bit of a workaround until we have a proper dependency graph *)
  delete_cycles max_cycle rs ;;;
  (* update status *)
  set_stack_status "DELETE_COMPLETE" ;;;
  set_time_attribute "DeletionTime".



(* ---------------------------- *)
(** *** Relations between states *)

(** Two resource dictionaries that agree on every entry but [Properties]. *)
Definition same_but_props (r r' : Resource) : Prop :=
  forall key, key <> "Properties" -> dict_get key r = dict_get key r'.

(** Two resource maps with the same keys in the same order, whose resources
    agree up to [Properties]. *)
Definition res_sim (rs rs' : Resources) : Prop :=
  Forall2 (fun kv kv' => fst kv = fst kv' /\ same_but_props (snd kv) (snd kv')) rs rs'.

Definition env_sim (w0 w : Env) : Prop :=
  (other w0 = None <-> other w = None) /\
  res_sim (template_Resources (existing w0)) (template_Resources (existing w)) /\
  res_sim (template_Resources (new_stack w0)) (template_Resources (new_stack w)).

(** A computation that leaves the status of the existing stack as it is,
    whatever its outcome. *)
Definition keeps_status (A : Type) (m : M Env A) : Prop :=
  forall w, status (existing (snd (m w))) = status (existing w).

(** A Modify change of the diff that changes nothing: the resource it names
    is in the new template [ns] under its logical id, has its entry in the
    original template, and [resource_config_differs] answers [False] for it
    in the state [w] in which the diff was made. *)
Definition unchanged_modify (ns : Stack) (w : Env) (c : ResourceChange) : Prop :=
  Action c = Modify /\
  exists key r,
    LogicalResourceId c = VStr key /\
    dict_get key (template_Resources ns) = Some r /\
    dict_get "LogicalResourceId" r = Some (VStr key) /\
    fst (resource_config_differs r w) = Ok false /\
    dict_has key (template_original_Resources ns) = true.

(** A computation of the loop that returns or raises and leaves the lengths
    of [changes] and [changes_done] and the count of passes as they are. *)
Definition len_kept (A : Type) (m : M Loop A) : Prop :=
  forall l,
    fst (m l) <> OutOfFuel /\
    length (l_changes (snd (m l))) = length (l_changes l) /\
    l_changes_done (snd (m l)) = l_changes_done l /\
    l_passes (snd (m l)) = l_passes l.

(** What a turn of the [while] loop at index [j] does to the two lists, by
    its outcome. *)
Definition step_effect (j : nat) (l : Loop) (r : Result Step) (l' : Loop) : Prop :=
  l_passes l' = l_passes l /\
  match r with
  | Ok Dropped =>
      S (length (l_changes l')) = length (l_changes l) /\
      l_changes_done l' = l_changes_done l
  | Ok Deferred | Raise _ =>
      length (l_changes l') = length (l_changes l) /\
      l_changes_done l' = l_changes_done l
  | Ok Applied =>
      S (length (l_changes l')) = length (l_changes l) /\
      exists c, l_changes_done l' = l_changes_done l ++ [c]
  | OutOfFuel => False
  end.

Definition step_ok (j : nat) (m : M Loop Step) : Prop :=
  forall l, j < length (l_changes l) -> step_effect j l (fst (m l)) (snd (m l)).

(** A computation that starts no resource action. *)
Definition calls_kept (A : Type) (m : M World A) : Prop :=
  forall w, calls (snd (m w)) = calls w.

(** The loop state after a collaborator left the stack objects and the
    back-ends as [e]. *)
Definition set_env (e : Env) (l : Loop) : Loop :=
  {| l_world := {| env := e; calls := calls (l_world l) |};
     l_changes := l_changes l;
     l_changes_done := l_changes_done l;
     l_passes := l_passes l |}.

(** The state in which an entry point calls [apply_changes]: the status is
    set, and [ns] is what is passed as the new stack. *)
Definition started (st : string) (ns : option Stack) (w : World) : World :=
  snd ((set_stack_status st ;;; pass_new_stack ns) w).

(** The action [apply_change_set] chooses from the status of the stack. *)
Definition change_set_action (w : World) : string :=
  if str_in (status (existing (env w))) ["CREATE_COMPLETE"; "UPDATE_COMPLETE"]
  then "UPDATE" else "CREATE".

(** The state in which [apply_change_set] calls [apply_changes]. *)
Definition change_set_started (change_set : Stack) (w : World) : World :=
  snd ((set_stack_status (change_set_action w ++ "_IN_PROGRESS") ;;;
        lift_env (modify (upd_existing (fun s =>
          set_metadata (metadata_Capabilities change_set) (metadata_Status s)
            (metadata_ExecutionStatus s) (metadata_StatusReason s) s))) ;;;
        pass_new_stack (Some change_set)) w).

(** A change as it was planned: without the mark [_deployed] that
    [prepare_should_deploy_change] attaches and [apply_change] removes. *)
Definition as_planned (c : ResourceChange) : ResourceChange := set__deployed None c.

(** A computation of the loop that leaves [changes_done] as it is and that
    changes nothing in [changes] that [view] shows. *)
Definition lists_kept (X A : Type) (view : list ResourceChange -> X) (m : M Loop A)
  : Prop :=
  forall l,
    view (l_changes (snd (m l))) = view (l_changes l) /\
    l_changes_done (snd (m l)) = l_changes_done l.

(** The changes of [l'], pending and done, are changes of [l], each of
    them once; the changes in [dropped] are the ones that are in neither
    list any more. *)
Definition accounted (l l' : Loop) : Prop :=
  exists dropped,
    Permutation (map as_planned (l_changes l' ++ l_changes_done l') ++ dropped)
                (map as_planned (l_changes l ++ l_changes_done l)).

(** A computation of the loop that invents no change and records none
    twice, and that records a change without its mark only. *)
Definition accounts (A : Type) (m : M Loop A) : Prop :=
  forall l,
    accounted l (snd (m l)) /\
    (Forall (fun c => _deployed c = None) (l_changes_done l) ->
     Forall (fun c => _deployed c = None) (l_changes_done (snd (m l)))).


(** The loop state after [apply_change] took the mark off [changes[j]] and
    started the action [what] on the resource [resource_id], which left
    the stack objects and the back-ends as [e]. *)
Definition after_action (j : nat) (resource_id : Value) (what : string) (e : Env)
    (l : Loop) : Loop :=
  {| l_world := {| env := e; calls := calls (l_world l) ++ [(resource_id, what)] |};
     l_changes := list_update j (set__deployed None) (l_changes l);
     l_changes_done := l_changes_done l;
     l_passes := l_passes l |}.

(* ---------------------------- *)
(** *** Is the resource deployed? *)

(** [get_resource_type(resource)] *)
Definition get_resource_type (resource : Resource) : Result Value :=
  match dict_get "Type" resource with
  | Some t => Ok t
  | None => Raise (KeyError "Type")
  end.

Section Deployed.

(** The model classes, [RESOURCE_MODELS.get(resource_type)], and what
    [instance.fetch_and_update_state(stack_name=.., resources=..)] does for
    the instance [resource_class(resource)]: it asks the service for the
    state of the resource. *)
Variable ModelClass : Type.
Variable RESOURCE_MODELS : Value -> option ModelClass.
Variable fetch_and_update_state : ModelClass -> Resource -> Call Env Value.

(** [get_resource_model_instance(resource_id, resources)]: the class and
    the resource of the instance, if the type has a class. *)
Definition get_resource_model_instance (resource_id : Value)
  : M Env (option (ModelClass * Resource)) :=
  w <- get ;;
  resource <- of_option (get_by resource_id (resources (existing w)))
                (KeyError "resource_id") ;;
  resource_type <- lift (get_resource_type resource) ;;
  match RESOURCE_MODELS resource_type with
  | None => ret None
  | Some resource_class => ret (Some (resource_class, resource))
  end.

(** [retrieve_resource_details(resource_id, resource_status, resources, stack_name)] *)
Definition retrieve_resource_details (resource_id : Value) (resource_status : Dict)
  : M Env Value :=
  w <- get ;;
  let resource := get_by resource_id (resources (existing w)) in
  let resource_id := py_or (getv "PhysicalResourceId" resource_status) resource_id in
  let resource := match resource with
                  | Some ((_ :: _) as r) => r
                  | _ => []
                  end in
  resource_type <- lift (get_resource_type resource) ;;
  match getv "Properties" resource with
  | VNone => raise (PlainException "Unable to find properties for resource")
  | resource_props =>
      try_except
        (try_dependency
           ((* convert resource props to resource entity *)
            instance <- get_resource_model_instance resource_id ;;
            match instance with
            | Some (resource_class, resource) =>
                call (fetch_and_update_state resource_class resource)
            | None =>
                (* special case for stack parameters *)
                if py_eq resource_type (VStr "Parameter") then ret resource_props
                else ret VNone
            end)
           (ret VNone))
        (fun _ => ret VNone)
  end.

(** [TemplateDeployer.is_deployed(resource)] *)
Definition is_deployed_resource (resource : Resource) : M Env bool :=
  let resource_status : Dict := [] in
  resource_id <- of_option (dict_get "LogicalResourceId" resource)
                   (KeyError "LogicalResourceId") ;;
  details <- retrieve_resource_details resource_id resource_status ;;
  ret (truthy details).

End Deployed.


End WithExt.

End Engine.

(* ------------------------------------------------------------------ *)
(** ** Action Invoker: [check_not_found_exception] and [invoke_function] *)

Module Invoker.

Import Py.

Definition ACTION_DELETE : string := "delete".

(** The list [markers] of [check_not_found_exception]. *)
Definition markers : list string :=
  [ "NoSuchBucket"; "ResourceNotFound"; "NoSuchEntity"; "NotFoundException";
    "404"; "not found"; "not exist" ].

Section Invoke.

(** Call parameters, results and the validator's report are opaque. *)
Variables Params Res Report : Type.

(** Exceptions a service function raises.  [ParamValidationError] is
    botocore's; its [kwargs.get("report")] may be absent.  [msg] is what
    [str(e)] returns. *)
Inductive Exn : Type :=
| ParamValidationError (report : option Report) (msg : string)
| ServiceError (msg : string).

Definition str (e : Exn) : string :=
  match e with
  | ParamValidationError _ m => m
  | ServiceError m => m
  end.

Inductive CallResult : Type :=
| Returned (r : Res)
| Raised (e : Exn).

(** What [invoke_function] does: return a value ([None] when an exception
    was swallowed) or raise. *)
Inductive Outcome : Type :=
| Return (v : option Res)
| Raise (e : Exn).

(** The service method, called with [params] as keyword arguments. *)
Variable function : Params -> CallResult.
(** [fix_boto_parameters_based_on_report(params, report)] *)
Variable fix_boto_parameters_based_on_report : Params -> Report -> Params.

(** [markers_hit = [m for m in markers if m in str(e)]]; the result says
    whether the list is non-empty. *)
Definition check_not_found_exception (e : Exn) : bool :=
  let markers_hit := filter (fun m => contains m (str e)) markers in
  match markers_hit with
  | [] => false
  | _ :: _ => true
  end.

(** The inner [try]: call, and on a [ParamValidationError] that carries a
    report retry once with converted parameters; without a report the
    exception is raised again. *)
Definition call_with_retry (params : Params) : CallResult :=
  match function params with
  | Returned r => Returned r
  | Raised (ParamValidationError (Some report) _) =>
      function (fix_boto_parameters_based_on_report params report)
  | Raised e => Raised e
  end.

(** The outer [try ... except Exception as e]. *)
Definition invoke_function (params : Params) (action_name : string) : Outcome :=
  match call_with_retry params with
  | Returned r => Return (Some r)
  | Raised e =>
      if (action_name =? "delete") && check_not_found_exception e
      then Return None
      else Raise e
  end.

(** The service call fails with [e]: either the first call raises [e] and
    no retry applies, or the retry raises [e]. *)
Inductive fails_with (params : Params) : Exn -> Prop :=
| fails_first e :
    function params = Raised e ->
    (forall r m, e <> ParamValidationError (Some r) m) ->
    fails_with params e
| fails_retry r m e :
    function params = Raised (ParamValidationError (Some r) m) ->
    function (fix_boto_parameters_based_on_report params r) = Raised e ->
    fails_with params e.

(** The message of [e] contains one of the markers. *)
Definition is_not_found (e : Exn) : Prop :=
  Exists (fun m => Substring m (str e)) markers.

End Invoke.

End Invoker.

(* ------------------------------------------------------------------ *)
(** ** The Route 53 record-set provider *)

Module Route53.

Import Py Exc.
Local Open Scope monad_scope.

Inductive OperationStatus : Type := SUCCESS | FAILED | IN_PROGRESS | PENDING.

Record ProgressEvent : Type := {
  pe_status : OperationStatus;
  resource_model : Dict
}.

(** The keyword arguments of a [change_resource_record_sets] call with one
    change in its batch. *)
Record ChangeRequest : Type := {
  HostedZoneId : Value;
  ChangeAction : string;
  ResourceRecordSet : Dict
}.

Definition attr_names : list string :=
  [ "Name"; "Type"; "SetIdentifier"; "Weight"; "Region"; "GeoLocation";
    "Failover"; "MultiValueAnswer"; "TTL"; "ResourceRecords"; "AliasTarget";
    "HealthCheckId" ].

(** Modelled from the spec: [util.select_attributes] ([provider_utils] is
    not among the sources).  The record set that scenario 1 of the spec
    sends is made of the listed properties of the model: the helper keeps
    the entries whose key is in the list. *)
Definition select_attributes (model : Dict) (params : list string) : Dict :=
  filter (fun kv => str_in (fst kv) params) model.

Section Provider.

(** The state of the Route 53 back-end. *)
Variable Backend : Type.

(** [client.list_hosted_zones_by_name(DNSName=name)["HostedZones"]] *)
Variable list_hosted_zones_by_name : Value -> M Backend (list Dict).
(** [route53.change_resource_record_sets(HostedZoneId=.., ChangeBatch=..)] *)
Variable change_resource_record_sets : ChangeRequest -> M Backend unit.
(** Python's [int(s)] on a string; [None] stands for [ValueError]. *)
Variable py_int : string -> option Z.

(** The back-end and the record of the change requests that were issued,
    oldest first; the record is kept by the model only. *)
Record St : Type := {
  backend : Backend;
  requests : list ChangeRequest
}.

Definition lift_backend (A : Type) (m : M Backend A) : M St A :=
  fun s => let (r, b) := m (backend s) in (r, {| backend := b; requests := requests s |}).

(** The text of a zone name inside a message.  The schema types the name
    as a string; the text of another value is not rendered. *)
Definition name_text (hosted_zone_name : Value) : string :=
  match hosted_zone_name with VStr s => s | _ => "?" end.

Definition get_hosted_zone_id_from_name (hosted_zone_name : Value) : M St Value :=
  if negb (truthy hosted_zone_name)
  then raise (PlainException "Either HostedZoneId or HostedZoneName must be present.")
  else
    zones <- lift_backend (list_hosted_zones_by_name hosted_zone_name) ;;
    match zones with
    | [zone] => of_option (dict_get "Id" zone) (KeyError "Id")
    | _ => raise (PlainException
                    ("Ambiguous HostedZoneName " ++ name_text hosted_zone_name
                     ++ " provided.")%string)
    end.

(** [[{"Value": record} for record in v]] *)
Definition wrap_records (v : Value) : Result Value :=
  match v with
  | VList l => Ok (VList (map (fun record => VDict [("Value", record)]) l))
  | VStr s =>
      Ok (VList (map (fun c => VDict [("Value", VStr (String c EmptyString))])
                     (list_ascii_of_string s)))
  | VDict d => Ok (VList (map (fun kv => VDict [("Value", VStr (fst kv))]) d))
  | _ => Raise TypeError
  end.

(** [create(request)], on [model = request.desired_state].  The
    dictionary [attrs["AliasTarget"]] is the one of the model, so the
    default that is written into it shows in the model as well. *)
Definition create (model : Dict) : M St ProgressEvent :=
  model <-
    (if negb (truthy (getv "HostedZoneId" model))
     then
       (* if only name was provided for hosted zone *)
       let hosted_zone_name := getv "HostedZoneName" model in
       hosted_zone_id <- get_hosted_zone_id_from_name hosted_zone_name ;;
       ret (dict_set "HostedZoneId" hosted_zone_id model)
     else ret model) ;;
  let attrs := select_attributes model attr_names in
  am <-
    (match dict_get "AliasTarget" attrs with
     | Some (VDict target) =>
         if dict_has "EvaluateTargetHealth" target then ret (attrs, model)
         else
           let target := VDict (dict_set "EvaluateTargetHealth" (VBool false) target) in
           ret (dict_set "AliasTarget" target attrs, dict_set "AliasTarget" target model)
     | Some target =>
         present <- lift (py_in "EvaluateTargetHealth" target) ;;
         if present then ret (attrs, model) else raise TypeError
     | None =>
         records <- of_option (dict_get "ResourceRecords" attrs)
                      (KeyError "ResourceRecords") ;;
         wrapped <- lift (wrap_records records) ;;
         ret (dict_set "ResourceRecords" wrapped attrs, model)
     end) ;;
  let (attrs, model) := am : Dict * Dict in
  attrs <-
    (match dict_get "TTL" attrs with
     | Some (VStr ttl) =>
         match py_int ttl with
         | Some n => ret (dict_set "TTL" (VInt n) attrs)
         | None => raise ValueError
         end
     | _ => ret attrs
     end) ;;
  zone_id <- of_option (dict_get "HostedZoneId" model) (KeyError "HostedZoneId") ;;
  let request := {| HostedZoneId := zone_id; ChangeAction := "UPSERT";
                    ResourceRecordSet := attrs |} in
  modify (fun s => {| backend := backend s; requests := requests s ++ [request] |}) ;;;
  lift_backend (change_resource_record_sets request) ;;;
  name <- of_option (dict_get "Name" model) (KeyError "Name") ;;
  let model := dict_set "Id" name model in
  ret {| pe_status := SUCCESS; resource_model := model |}.



End Provider.

End Route53.

(* ------------------------------------------------------------------ *)
(** ** Intrinsic evaluator: [resolve_refs_recursively] *)

Module Evaluator.

Import Py Exc.
Local Open Scope monad_scope.

(** list of static attribute references to be replaced in Fn::Sub strings *)
Definition STATIC_REFS : list string :=
  ["AWS::Region"; "AWS::Partition"; "AWS::StackName"; "AWS::AccountId"].

(** The pattern for constructed API Gateway URLs: an [http] or [https]
    URL up to [.execute-api.] (group 1), two or three segments that end
    in a hyphen, a digit and a dot (the region), the host [amazonaws.com]
    or [AWS_URL_SUFFIX] (group 2), an optional slash and the rest of the
    line (group 3).  The dots of [AWS_URL_SUFFIX] are taken over as they
    are, so they stand for any character. *)
Definition REGEX_OUTPUT_APIGATEWAY : Regex.Regex :=
  let segment := Regex.Seq (Regex.plus (Regex.other_than "-")) (Regex.lit "-") in
  Regex.seq
    [ Regex.Bol;
      Regex.Group 1
        (Regex.seq [ Regex.lit "http"; Regex.opt (Regex.lit "s"); Regex.lit "://";
                     Regex.plus Regex.dot; Regex.lit ".execute-api." ]);
      segment; segment; Regex.opt segment;
      Regex.digit; Regex.lit ".";
      Regex.Group 2
        (Regex.Alt (Regex.lit "amazonaws.com")
           (Regex.seq [ Regex.lit "localhost"; Regex.dot; Regex.lit "localstack";
                        Regex.dot; Regex.lit "cloud" ]));
      Regex.opt (Regex.lit "/");
      Regex.Group 3 (Regex.Star Regex.dot);
      Regex.Eol ].

(** The pattern for dynamic references: [{{resolve:], a service name
    without colon (group 1), a colon, a reference key (group 2), [}}]. *)
Definition REGEX_DYNAMIC_REF : Regex.Regex :=
  Regex.seq
    [ Regex.lit "{{resolve:";
      Regex.Group 1 (Regex.plus (Regex.other_than ":"));
      Regex.lit ":";
      Regex.Group 2 (Regex.plus Regex.dot);
      Regex.lit "}}" ].

(** The pattern of [resolve_placeholders_in_string]: a dollar sign and a
    name in braces (group 1). *)
Definition REGEX_PLACEHOLDER : Regex.Regex :=
  Regex.seq
    [ Regex.lit "${";
      Regex.Group 1 (Regex.plus (Regex.other_than "}"));
      Regex.lit "}" ].

(** [str(z)] *)
Definition decimal (z : Z) : string := NilZero.string_of_int (Z.to_int z).

(** The position that an index denotes in a sequence of length [len]: a
    negative index counts from the end. *)
Definition index_of (len : nat) (i : Z) : option nat :=
  if ((0 <=? i) && (i <? Z.of_nat len))%Z then Some (Z.to_nat i)
  else if ((i <? 0) && (- Z.of_nat len <=? i))%Z then Some (Z.to_nat (Z.of_nat len + i))
  else None.

(** A value that can index a sequence: an integer or a boolean. *)
Definition as_index (v : Value) : option Z :=
  match v with
  | VInt z => Some z
  | VBool b => Some (if b then 1 else 0)%Z
  | _ => None
  end.

Definition item_at (A : Type) (xs : list A) (idx : Value) : Result A :=
  match as_index idx with
  | Some i =>
      match index_of (length xs) i with
      | Some n =>
          match nth_error xs n with
          | Some x => Ok x
          | None => Raise IndexError
          end
      | None => Raise IndexError
      end
  | None => Raise TypeError
  end.

(** [xs[n] = c] *)
Fixpoint set_nth (A : Type) (n : nat) (c : A) (xs : list A) : list A :=
  match xs, n with
  | [], _ => []
  | _ :: xs', 0 => c :: xs'
  | x :: xs', S n' => x :: set_nth n' c xs'
  end.

(** What [for x in v] yields: the elements of a list, the characters of a
    string, the keys of a dictionary. *)
Definition iterate (v : Value) : Result (list Value) :=
  match v with
  | VList l => Ok l
  | VStr s => Ok (map VStr (Str.chars s))
  | VDict d => Ok (map VStr (dict_keys d))
  | _ => Raise TypeError
  end.

(** [x1, .., xn = v] *)
Definition unpack (n : nat) (v : Value) : Result (list Value) :=
  rbind (iterate v) (fun xs => if (length xs =? n)%nat then Ok xs else Raise ValueError).

(** A way from an object to one of its parts: [v[i]] for an integer [i],
    [v[k]] for a string [k], and the element number [i] of an iteration
    over [v]. *)
Inductive Step : Type :=
| Idx (i : Z)
| Key (k : string)
| Elem (i : nat).

(** [v[idx]] *)
Definition getitem (v idx : Value) : Result Value :=
  match v with
  | VList l => item_at l idx
  | VStr s => item_at (map VStr (Str.chars s)) idx
  | VDict d =>
      match idx with
      | VStr k =>
          match dict_get k d with
          | Some x => Ok x
          | None => Raise (KeyError k)
          end
      | VList _ | VDict _ => Raise TypeError       (* unhashable *)
      | VNone => Raise (KeyError "None")
      | VBool b => Raise (KeyError (if b then "True" else "False"))
      | VInt z => Raise (KeyError (decimal z))
      end
  | _ => Raise TypeError
  end.

Definition child (st : Step) (v : Value) : Result Value :=
  match st with
  | Idx i => getitem v (VInt i)
  | Key k => getitem v (VStr k)
  | Elem i =>
      rbind (iterate v) (fun xs =>
        match nth_error xs i with
        | Some x => Ok x
        | None => Raise IndexError
        end)
  end.

(** The object [v] after its part at [st] became [c].  The characters of a
    string and the keys of a dictionary are strings, which nothing
    changes. *)
Definition put (st : Step) (c : Value) (v : Value) : Value :=
  match v, st with
  | VList l, Idx i =>
      match index_of (length l) i with
      | Some n => VList (set_nth n c l)
      | None => v
      end
  | VList l, Elem n => VList (set_nth n c l)
  | VDict d, Key k => VDict (dict_set k c d)
  | _, _ => v
  end.

(** Python's [str(v)] on the values that have one spelling; [repr] is the
    text of a list or of a dictionary. *)
Definition py_str (repr : Value -> string) (v : Value) : string :=
  match v with
  | VNone => "None"
  | VBool b => if b then "True" else "False"
  | VInt z => decimal z
  | VStr s => s
  | _ => repr v
  end.

(** The last component of the lower-case key: [Fn::GetAtt] gives
    [getatt]. *)
Definition stripped_fn_lower (key : string) : string :=
  last (Str.split "::" (Str.lower key)) EmptyString.

(** The names that the evaluator dispatches on. *)
Definition operators : list string :=
  [ "getatt"; "join"; "sub"; "findinmap"; "importvalue"; "if"; "condition";
    "not"; "and"; "or"; "equals"; "select"; "split"; "getazs"; "base64" ].

(** A dictionary that the evaluator takes for an intrinsic function. *)
Definition is_operator (d : Dict) : bool :=
  match d with
  | [(key, _)] => (key =? "Ref") || str_in (stripped_fn_lower key) operators
  | _ => false
  end.

Section Eval.

(** The state of what the evaluator reads from: the resources of the
    stack and their models, the exports, the parameter store, the
    secrets. *)
Variable Ext : Type.

(** The collaborators.  [resolve_ref] (lines 342-432) works on the
    resources and on their models; the value it hands out is taken as an
    object of its own, that no part of the tree under evaluation shares. *)
Variable resolve_ref : Value -> Value -> Call Ext Value.
(** the dictionary [resources] *)
Variable resources : Ext -> Dict.
(** the model classes and [RESOURCE_MODELS.get(resource_type)] *)
Variable ModelClass : Type.
Variable RESOURCE_MODELS : string -> option ModelClass.
(** [model_class(resource_name=.., resource_json=..).get_cfn_attribute(attribute)] *)
Variable get_cfn_attribute : ModelClass -> Value -> Value -> Value -> Call Ext Value.
(** [exports_map()] *)
Variable exports_map : Call Ext Value.
(** [aws_stack.get_region()] *)
Variable get_region : Call Ext Value.
(** [config.service_port("apigateway")] *)
Variable apigateway_port : Z.
(** [ssm_client.get_parameter(Name=.., WithDecryption=..)] *)
Variable ssm_get_parameter : string -> bool -> Call Ext Value.
(** [secretsmanager_client.get_secret_value(SecretId=.., VersionId=.., VersionStage=..)],
    the two optional arguments in this order *)
Variable get_secret_value : string -> option string -> option string -> Call Ext Value.
(** [json.loads(s)] *)
Variable json_loads : string -> Result Value.
(** [to_str(base64.b64encode(to_bytes(s)))] *)
Variable b64encode : string -> string.
(** [int(s)] on a string; [None] stands for [ValueError]. *)
Variable py_int : string -> option Z.
(** the text of a list or of a dictionary *)
Variable repr : Value -> string.

(** The evaluator works on an object, [value], that it changes in place,
    and on the collaborators.  Both survive an exception. *)
Record St : Type := {
  backends : Ext;
  value : Value
}.

Definition lift_backends (A : Type) (c : Call Ext A) : M St A :=
  fun s => let (r, e) := call c (backends s) in (r, {| backends := e; value := value s |}).

(** the object at hand *)
Definition this : M St Value := s <- get ;; ret (value s).

(** [value[st] = c] *)
Definition assign (st : Step) (c : Value) : M St unit :=
  modify (fun s => {| backends := backends s; value := put st c (value s) |}).

(** Run [m] on the part [st] of the object at hand: what [m] does to the
    part, it does to the object. *)
Definition zoom (A : Type) (st : Step) (m : M St A) : M St A :=
  fun s =>
    match child st (value s) with
    | Ok c =>
        let (r, s') := m {| backends := backends s; value := c |} in
        (r, {| backends := backends s'; value := put st (value s') (value s) |})
    | Raise e => (Raise e, s)
    | OutOfFuel => (OutOfFuel, s)
    end.

(** Run [m] on an object [x] that is no part of the object at hand. *)
Definition detached (A : Type) (x : Value) (m : M St A) : M St A :=
  fun s =>
    let (r, s') := m {| backends := backends s; value := x |} in
    (r, {| backends := backends s'; value := value s |}).

(** [[rec(v) for v in value]]: the elements number [i], .., [i + n - 1]. *)
Fixpoint resolve_each (rec : M St Value) (i n : nat) : M St (list Value) :=
  match n with
  | 0 => ret []
  | S n' =>
      r <- zoom (Elem i) rec ;;
      rs <- resolve_each rec (S i) n' ;;
      ret (r :: rs)
  end.

Definition resolve_all (rec : M St Value) : M St (list Value) :=
  v <- this ;;
  xs <- lift (iterate v) ;;
  resolve_each rec 0 (length xs).

Definition get_resource_type (resource : Value) : Result Value :=
  getitem resource (VStr "Type").

Definition get_attr_from_model_instance (resource attribute resource_type resource_id : Value)
  : M St Value :=
  match resource_type with
  | VList _ | VDict _ => raise TypeError          (* unhashable *)
  | VStr t =>
      match RESOURCE_MODELS t with
      | None => ret VNone
      | Some model_class =>
          try_except
            (lift_backends (get_cfn_attribute model_class resource_id resource attribute))
            (fun _ => ret VNone)
      end
  | _ => ret VNone
  end.

Definition evaluate_condition (rec : M St Value) : M St Value :=
  condition <- rec ;;
  condition <- lift_backends (resolve_ref condition (VStr "Ref")) ;;
  detached condition rec.

(** The function [_replace] of [resolve_placeholders_in_string], on the
    text of the match and on its group 1. *)
Definition _replace (rec : M St Value) (whole ref_expression : string) : M St string :=
  let parts := Str.split "." ref_expression in
  if (2 <=? length parts)%nat then
    (* Resource attributes specified => Use GetAtt to resolve *)
    let (resource_name, attr_name) := Str.partition "." ref_expression in
    s <- get ;;
    resource <- of_option (dict_get resource_name (resources (backends s)))
                  (KeyError resource_name) ;;
    resource_type <- lift (get_resource_type resource) ;;
    resolved <- get_attr_from_model_instance resource (VStr attr_name) resource_type
                  (VStr resource_name) ;;
    match resolved with
    | VNone => raise DependencyNotYetSatisfied
    | _ => ret (py_str repr resolved)
    end
  else
    s <- get ;;
    if ((length parts =? 1)%nat && dict_has (hd EmptyString parts) (resources (backends s)))%bool
    then
      (* Logical resource ID or parameter name specified => Use Ref for lookup *)
      result <- lift_backends (resolve_ref (VStr (hd EmptyString parts)) (VStr "Ref")) ;;
      match result with
      | VNone => raise DependencyNotYetSatisfied
      | _ =>
          (* make sure we resolve any functions/placeholders in the extracted string *)
          result <- detached result rec ;;
          (* make sure we convert the result to string *)
          ret (match result with VNone => EmptyString | _ => py_str repr result end)
      end
    else ret whole.

(** [re.sub(regex, _replace, result)]: the matches are looked for from the
    left, and the search goes on behind a match; [skip] counts the
    characters of a match that are still to be passed over. *)
Fixpoint sub_placeholders (rec : M St Value) (skip : nat) (s : string) : M St string :=
  match s with
  | EmptyString => ret EmptyString
  | String c s' =>
      match skip with
      | S n => sub_placeholders rec n s'
      | 0 =>
          match Regex.re_match REGEX_PLACEHOLDER s with
          | Some gs =>
              let ref_expression := Regex.group 1 gs in
              r <- _replace rec ("${" ++ ref_expression ++ "}") ref_expression ;;
              rest <- sub_placeholders rec (String.length ref_expression + 2) s' ;;
              ret (r ++ rest)%string
          | None =>
              rest <- sub_placeholders rec 0 s' ;;
              ret (String c rest)
          end
      end
  end.

Definition resolve_placeholders_in_string (rec : M St Value) (result : string)
  : M St Value :=
  r <- sub_placeholders rec 0 result ;;
  ret (VStr r).

(** The secret that a [secretsmanager] reference names. *)
Definition resolve_secret (reference_key : string) : M St Value :=
  parsed <-
    (if contains "SecretString" reference_key
     then
       let parts := Str.split ":SecretString:" reference_key in
       match parts with
       | secret_id :: rest :: _ =>
           (* json-key, version-stage and version-id are optional. *)
           match Str.split ":" (rest ++ "::") with
           | json_key :: version_stage :: version_id :: _ =>
               ret (secret_id, json_key, version_stage, version_id)
           | _ => raise ValueError
           end
       | _ => raise IndexError
       end
     else ret (reference_key, EmptyString, EmptyString, EmptyString)) ;;
  let '(secret_id, json_key, version_stage, version_id) := parsed in
  let optional (x : string) := if x =? "" then None else Some x in
  response <- lift_backends
                (get_secret_value secret_id (optional version_id) (optional version_stage)) ;;
  secret_value <- lift (getitem response (VStr "SecretString")) ;;
  if negb (json_key =? "")
  then
    json_secret <- lift (match secret_value with
                         | VStr text => json_loads text
                         | _ => Raise TypeError
                         end) ;;
    present <- lift (py_in json_key json_secret) ;;
    if negb present then raise DependencyNotYetSatisfied
    else lift (getitem json_secret (VStr json_key))
  else ret secret_value.

(** The second half of [resolve_refs_recursively]: the localstack specific
    patches on a result that is a string. *)
Definition patch_result (result : Value) : M St Value :=
  match result with
  | VStr text =>
      (* we're trying to filter constructed API urls here *)
      match Regex.re_match REGEX_OUTPUT_APIGATEWAY text with
      | Some api_match =>
          let prefix := Regex.group 1 api_match in
          let host := Regex.group 2 api_match in
          let path := Regex.group 3 api_match in
          ret (VStr (prefix ++ host ++ ":" ++ decimal apigateway_port ++ "/" ++ path))
      | None =>
          (* basic dynamic reference support *)
          match Regex.re_match REGEX_DYNAMIC_REF text with
          | Some dynamic_ref_match =>
              let service_name := Regex.group 1 dynamic_ref_match in
              let reference_key := Regex.group 2 dynamic_ref_match in
              if service_name =? "ssm" then
                response <- lift_backends (ssm_get_parameter reference_key false) ;;
                parameter <- lift (getitem response (VStr "Parameter")) ;;
                lift (getitem parameter (VStr "Value"))
              else if service_name =? "ssm-secure" then
                response <- lift_backends (ssm_get_parameter reference_key true) ;;
                parameter <- lift (getitem response (VStr "Parameter")) ;;
                lift (getitem parameter (VStr "Value"))
              else if service_name =? "secretsmanager" then
                resolve_secret reference_key
              else ret result
          | None => ret result
          end
      end
  | _ => ret result
  end.

(** The loop of [Fn::Sub] over the entries of the mapping, which is the
    object at hand. *)
Fixpoint sub_loop (rec : M St Value) (keys : list string) (result : Value) : M St Value :=
  match keys with
  | [] => ret result
  | key :: keys' =>
      val <- zoom (Key key) rec ;;
      match result, val with
      | VStr text, VStr v =>
          sub_loop rec keys' (VStr (Str.replace ("${" ++ key ++ "}") v text))
      | VStr _, _ => raise TypeError
      | _, _ => raise AttributeError
      end
  end.

(** [Fn::Sub] on the list [item_to_sub], which is the object at hand. *)
Definition sub_body (rec : M St Value) : M St Value :=
  item_to_sub <- this ;;
  result <- lift (getitem item_to_sub (VInt 0)) ;;
  mapping <- lift (getitem item_to_sub (VInt 1)) ;;
  match mapping with
  | VDict d =>
      let attr_refs := map (fun r => (r, VDict [("Ref", VStr r)])) STATIC_REFS in
      let d := dict_update d attr_refs in
      assign (Idx 1) (VDict d) ;;;
      result <- zoom (Idx 1) (sub_loop rec (dict_keys d) result) ;;
      (* resolve placeholders *)
      match result with
      | VStr text => resolve_placeholders_in_string rec text
      | _ => raise TypeError
      end
  | _ => raise AttributeError
  end.

(** [values[index]], and [values[int(index)]] after a [TypeError]. *)
Definition select_item (values index : Value) : Result Value :=
  match getitem values index with
  | Raise TypeError =>
      rbind (match index with
             | VInt z => Ok z
             | VBool b => Ok (if b then 1 else 0)%Z
             | VStr s => match py_int s with Some z => Ok z | None => Raise ValueError end
             | _ => Raise TypeError
             end)
        (fun i => getitem values (VInt i))
  | r => r
  end.

(** [string.split(delimiter)] *)
Definition split_value (string_ delimiter : Value) : Result Value :=
  match string_ with
  | VStr s =>
      match delimiter with
      | VStr d =>
          if d =? "" then Raise ValueError
          else Ok (VList (map VStr (Str.split d s)))
      | VNone => Ok (VList (map VStr (Str.split_whitespace EmptyString s)))
      | _ => Raise TypeError
      end
  | _ => Raise AttributeError
  end.

(** The special operators of [_resolve_refs_recursively], for a dictionary
    whose one key is [key]: the object at hand is the value under that key,
    [value[keys_list[0]]].  [None] says that no operator applies. *)
Definition special_operators (key : string) (rec : M St Value) : M St (option Value) :=
  let fn := stripped_fn_lower key in
  if key =? "Ref" then
    ref_name <- this ;;
    ref <- lift_backends (resolve_ref ref_name (VStr "Ref")) ;;
    match ref with
    | VNone => raise DependencyNotYetSatisfied
    | _ => ref <- detached ref rec ;; ret (Some ref)
    end
  else if fn =? "getatt" then
    attr_ref <- this ;;
    ids <-
      match attr_ref with
      | VStr s =>
          let attr_ref := VList (map VStr (Str.split "." s)) in
          resource_logical_id <- lift (getitem attr_ref (VInt 0)) ;;
          attribute_name <- lift (getitem attr_ref (VInt 1)) ;;
          (* the attribute name can be a Ref *)
          attribute_name <- detached attribute_name rec ;;
          ret (resource_logical_id, attribute_name)
      | _ =>
          resource_logical_id <- lift (getitem attr_ref (VInt 0)) ;;
          _ <- lift (getitem attr_ref (VInt 1)) ;;
          attribute_name <- zoom (Idx 1) rec ;;
          ret (resource_logical_id, attribute_name)
      end ;;
    let (resource_logical_id, attribute_name) := ids : Value * Value in
    s <- get ;;
    resource <- lift (match resource_logical_id with
                      | VStr id => Ok (getv id (resources (backends s)))
                      | VList _ | VDict _ => Raise TypeError
                      | _ => Ok VNone
                      end) ;;
    resource_type <- lift (get_resource_type resource) ;;
    resolved_getatt <- get_attr_from_model_instance resource attribute_name
                         resource_type VNone ;;
    match resolved_getatt with
    | VNone => raise DependencyNotYetSatisfied
    | _ => ret (Some resolved_getatt)
    end
  else if fn =? "join" then
    arg <- this ;;
    _ <- lift (getitem arg (VInt 1)) ;;
    join_values <- zoom (Idx 1) (resolve_all rec) ;;
    if existsb (fun v => match v with VNone => true | _ => false end) join_values
    then raise (PlainException "Cannot resolve CF fn::Join due to null values")
    else
      sep <- lift (getitem arg (VInt 0)) ;;
      match sep with
      | VStr sep => ret (Some (VStr (Str.join sep (map (py_str repr) join_values))))
      | _ => raise AttributeError
      end
  else if fn =? "sub" then
    item_to_sub <- this ;;
    r <- match item_to_sub with
         | VList _ => sub_body rec
         | _ => detached (VList [item_to_sub; VDict []]) (sub_body rec)
         end ;;
    ret (Some r)
  else if fn =? "findinmap" then
    arg <- this ;;
    _ <- lift (getitem arg (VInt 1)) ;;
    attr <- zoom (Idx 1) rec ;;
    selected_map <- lift (getitem arg (VInt 0)) ;;
    selected_map <-
      match selected_map with
      | VDict d =>
          match dict_get "Ref" d with
          | Some ref => lift_backends (resolve_ref ref (VStr "Ref"))
          | None => ret selected_map
          end
      | _ => ret selected_map
      end ;;
    result <- lift_backends (resolve_ref selected_map attr) ;;
    if negb (truthy result)
    then raise (PlainException "Cannot resolve fn::FindInMap")
    else
      key <- lift (getitem arg (VInt 2)) ;;
      key <- match key with
             | VStr _ => ret key
             | _ => zoom (Idx 2) rec
             end ;;
      match result with
      | VDict d =>
          match key with
          | VList _ | VDict _ => raise TypeError
          | VStr k => ret (Some (getv k d))
          | _ => ret (Some VNone)
          end
      | _ => raise AttributeError
      end
  else if fn =? "importvalue" then
    import_value_key <- rec ;;
    exports <- lift_backends exports_map ;;
    stack_export <-
      match exports with
      | VDict exports =>
          match import_value_key with
          | VList _ | VDict _ => raise TypeError
          | VStr k => ret (py_or (getv k exports) (VDict []))
          | _ => ret (VDict [])
          end
      | _ => raise AttributeError
      end ;;
    match stack_export with
    | VDict stack_export =>
        if negb (truthy (getv "Value" stack_export)) then ret (Some VNone)
        else ret (Some (getv "Value" stack_export))
    | _ => raise AttributeError
    end
  else if fn =? "if" then
    arg <- this ;;
    _ <- lift (unpack 3 arg) ;;
    condition <- zoom (Elem 0) (evaluate_condition rec) ;;
    r <- zoom (Elem (if truthy condition then 1 else 2)) rec ;;
    ret (Some r)
  else if fn =? "condition" then
    result <- evaluate_condition rec ;;
    ret (Some result)
  else if fn =? "not" then
    arg <- this ;;
    _ <- lift (getitem arg (VInt 0)) ;;
    condition <- zoom (Idx 0) rec ;;
    ret (Some (VBool (negb (truthy condition))))
  else if (fn =? "and") || (fn =? "or") then
    results <- resolve_all rec ;;
    ret (Some (VBool (if fn =? "and" then forallb truthy results
                      else existsb truthy results)))
  else if fn =? "equals" then
    arg <- this ;;
    _ <- lift (unpack 2 arg) ;;
    operand1 <- zoom (Elem 0) rec ;;
    operand2 <- zoom (Elem 1) rec ;;
    ret (Some (VBool (py_str repr operand1 =? py_str repr operand2)))
  else if fn =? "select" then
    arg <- this ;;
    _ <- lift (unpack 2 arg) ;;
    index <- zoom (Elem 0) rec ;;
    values <- zoom (Elem 1) rec ;;
    r <- lift (select_item values index) ;;
    ret (Some r)
  else if fn =? "split" then
    arg <- this ;;
    _ <- lift (unpack 2 arg) ;;
    delimiter <- zoom (Elem 0) rec ;;
    string_ <- zoom (Elem 1) rec ;;
    r <- lift (split_value string_ delimiter) ;;
    ret (Some r)
  else if fn =? "getazs" then
    if negb (key =? "Fn::GetAZs") then raise (KeyError "Fn::GetAZs")
    else
      region <- rec ;;
      region <- (if truthy region then ret region else lift_backends get_region) ;;
      ret (Some (VList (map (fun az => VStr (py_str repr region ++ az))
                            ["a"; "b"; "c"; "d"])))
  else if fn =? "base64" then
    value_to_encode <- rec ;;
    match value_to_encode with
    | VStr s => ret (Some (VStr (b64encode s)))
    | _ => raise TypeError
    end
  else ret None.

(** [for key, val in dict(value).items(): value[key] = rec(val)] *)
Definition resolve_entries (rec : M St Value) : M St unit :=
  v <- this ;;
  match v with
  | VDict d =>
      for_each (dict_keys d) (fun key =>
        r <- zoom (Key key) rec ;;
        assign (Key key) r)
  | _ => ret tt
  end.

(** [for i in range(len(value)): value[i] = rec(value[i])] *)
Definition resolve_items (rec : M St Value) : M St unit :=
  v <- this ;;
  match v with
  | VList l =>
      for_each (seq 0 (length l)) (fun i =>
        r <- zoom (Elem i) rec ;;
        assign (Elem i) r)
  | _ => ret tt
  end.

(** The name of the function in a list [[[name, argument]]], if the list
    is one: "in some cases, intrinsic functions are passed in as, e.g.,
    [[['Fn::Sub', '${MyRef}']]]". *)
Definition inner_function (l : list Value) : option Value :=
  match l with
  | [VList [name; _]] =>
      if Str.startswith "fn::" (Str.lower (py_str repr name)) then Some name else None
  | _ => None
  end.

(** [_resolve_refs_recursively].  [rec] is [resolve_refs_recursively], and
    [rec_fresh name] is [resolve_refs_recursively] on the new dictionary
    [{name: argument}], run on its only entry, [argument], which the list
    shares with it. *)
Definition _resolve_refs_recursively (rec : M St Value)
    (rec_fresh : string -> M St Value) : M St Value :=
  v <- this ;;
  match v with
  | VDict d =>
      (* process special operators *)
      r <- match d with
           | [(key, _)] => zoom (Key key) (special_operators key rec)
           | _ => ret None
           end ;;
      match r with
      | Some r => ret r
      | None => resolve_entries rec ;;; this
      end
  | VList l =>
      match inner_function l with
      | Some (VStr name) => zoom (Elem 0) (zoom (Elem 1) (rec_fresh name))
      | Some (VList _) | Some (VDict _) => raise TypeError      (* unhashable key *)
      | Some _ => raise AttributeError
      | None => resolve_items rec ;;; this
      end
  | _ => ret v
  end.

(** Modelled from the spec: the decorator [prevent_stack_overflow] (in
    [localstack.utils.functions], not among the sources).  "The evaluator
    bounds its recursion and returns the original value on overflow":
    [depth] is the number of nested calls that are left.

    [resolve_refs_recursively depth] evaluates the object at hand;
    [resolve_fresh depth name] evaluates a new dictionary [{name: argument}]
    whose entry is the object at hand. *)
Fixpoint resolve_refs_recursively (depth : nat) : M St Value :=
  match depth with
  | 0 => this
  | S depth' =>
      result <- _resolve_refs_recursively (resolve_refs_recursively depth')
                  (resolve_fresh depth') ;;
      (* localstack specific patches *)
      patch_result result
  end
with resolve_fresh (depth : nat) (name : string) : M St Value :=
  match depth with
  | 0 => argument <- this ;; ret (VDict [(name, argument)])
  | S depth' =>
      r <- special_operators name (resolve_refs_recursively depth') ;;
      result <-
        match r with
        | Some r => ret r
        | None =>
            r <- resolve_refs_recursively depth' ;;
            ret (VDict [(name, r)])
        end ;;
      patch_result result
  end.

(** A string that the patches of [resolve_refs_recursively] rewrite: a
    constructed API Gateway URL, or a dynamic reference to one of the three
    supported services. *)
Definition patched (text : string) : bool :=
  match Regex.re_match REGEX_OUTPUT_APIGATEWAY text with
  | Some _ => true
  | None =>
      match Regex.re_match REGEX_DYNAMIC_REF text with
      | Some m => str_in (Regex.group 1 m) ["ssm"; "ssm-secure"; "secretsmanager"]
      | None => false
      end
  end.

(** A tree in which the evaluator finds nothing to do: no intrinsic
    function, no list that stands for one, no string that is patched. *)
Fixpoint settled (v : Value) : bool :=
  match v with
  | VStr text => negb (patched text)
  | VList l =>
      match inner_function l with Some _ => false | None => true end &&
      (fix all (xs : list Value) : bool :=
         match xs with
         | [] => true
         | x :: xs' => settled x && all xs'
         end) l
  | VDict d =>
      negb (is_operator d) &&
      (fix all (xs : list (string * Value)) : bool :=
         match xs with
         | [] => true
         | kv :: xs' => settled (snd kv) && all xs'
         end) d
  | _ => true
  end.

(** The export under [key] has no value to import: there is no such
    export, or it is empty, or its [Value] is missing or empty. *)
Definition no_export_value (key : string) (exports : Dict) : Prop :=
  forall entry,
    dict_get key exports = Some entry ->
    truthy entry = false \/
    exists d, entry = VDict d /\ truthy (getv "Value" d) = false.

(** What the rewriting in place can do to an object: a list keeps its
    length, a dictionary keeps its keys in their order and may get new
    ones behind them, and any other value stays as it is. *)
Definition kept_shape (v v' : Value) : Prop :=
  match v with
  | VList l => exists l', v' = VList l' /\ length l' = length l
  | VDict d => exists d' extra, v' = VDict d' /\ dict_keys d' = dict_keys d ++ extra
  | _ => v' = v
  end.

(** A computation that keeps the shape of the object at hand, whatever
    its outcome. *)
Definition keeps_shape (A : Type) (m : M St A) : Prop :=
  forall s, kept_shape (value s) (value (snd (m s))).

End Eval.

End Evaluator.

(* ------------------------------------------------------------------ *)
(** ** Concrete stacks, templates and collaborators

    The inputs on which Part II runs the definitions. *)

Module Fixtures.

Import Py Exc.

(** A queue service whose delete call reports a queue that is gone. *)
Definition gone_message : string :=
  "An error occurred (NotFoundException) when calling the DeleteQueue operation".

Definition delete_of_missing_queue (params : unit) : Invoker.CallResult unit unit :=
  Invoker.Raised _ (Invoker.ServiceError _ gone_message).

Definition keep_params (params : unit) (report : unit) : unit := params.

(** A stack with nothing in it. *)
Definition blank_stack (name st : string) : Engine.Stack :=
  {| Engine.stack_name := name; Engine.status := st;
     Engine.template_Resources := [];
     Engine.template_Parameters := [];
     Engine.template_original_Resources := [];
     Engine.metadata_Parameters := [];
     Engine.metadata_Capabilities := VNone;
     Engine.metadata_Status := VNone;
     Engine.metadata_ExecutionStatus := VNone;
     Engine.metadata_StatusReason := VNone;
     Engine.outputs := []; Engine.conditions := [];
     Engine.resource_states := []; Engine.change_sets := [];
     Engine.changes := []; Engine.is_change_set := false;
     Engine.resolved_outputs := VNone;
     Engine.time_attributes := [] |}.

Definition with_parameters (decls : list (string * Dict)) (given : list Dict)
    (s : Engine.Stack) : Engine.Stack :=
  {| Engine.stack_name := Engine.stack_name s; Engine.status := Engine.status s;
     Engine.template_Resources := Engine.template_Resources s;
     Engine.template_Parameters := decls;
     Engine.template_original_Resources := Engine.template_original_Resources s;
     Engine.metadata_Parameters := given;
     Engine.metadata_Capabilities := Engine.metadata_Capabilities s;
     Engine.metadata_Status := Engine.metadata_Status s;
     Engine.metadata_ExecutionStatus := Engine.metadata_ExecutionStatus s;
     Engine.metadata_StatusReason := Engine.metadata_StatusReason s;
     Engine.outputs := Engine.outputs s; Engine.conditions := Engine.conditions s;
     Engine.resource_states := Engine.resource_states s;
     Engine.change_sets := Engine.change_sets s;
     Engine.changes := Engine.changes s; Engine.is_change_set := Engine.is_change_set s;
     Engine.resolved_outputs := Engine.resolved_outputs s;
     Engine.time_attributes := Engine.time_attributes s |}.

Definition with_resources (rs : Engine.Resources) (s : Engine.Stack) : Engine.Stack :=
  Engine.set_template_original_Resources
    (map (fun kv => (fst kv, VDict (snd kv))) rs)
    (Engine.set_template_Resources rs s).

(** A parameter store that knows no parameter. *)
Definition no_ssm (param_type default_value : Value) : Call unit Value :=
  fun s => (Returns VNone, s).

(** The stack runs with [Env = "prod"]; the new template declares [Env]
    with the default ["dev"]; the update asks to keep the previous value. *)
Definition stack_with_prod : Engine.Stack :=
  with_parameters [("Env", [("Type", VStr "String"); ("Default", VStr "dev")])]
    [[("ParameterKey", VStr "Env"); ("ParameterValue", VStr "prod")]]
    (blank_stack "app" "CREATE_COMPLETE").

Definition update_keeping_previous : Engine.Stack :=
  with_parameters [("Env", [("Type", VStr "String"); ("Default", VStr "dev")])]
    [[("ParameterKey", VStr "Env"); ("UsePreviousValue", VBool true)]]
    (blank_stack "app" "").

Definition env_keeping_previous : Engine.Env unit :=
  {| Engine.existing := stack_with_prod;
     Engine.other := Some update_keeping_previous;
     Engine.ext := tt |}.

(** The same update against a template that declares [Env] without a
    default. *)
Definition update_without_default : Engine.Stack :=
  with_parameters [("Env", [("Type", VStr "String")])]
    [[("ParameterKey", VStr "Env"); ("UsePreviousValue", VBool true)]]
    (blank_stack "app" "").

Definition env_without_default : Engine.Env unit :=
  {| Engine.existing := stack_with_prod;
     Engine.other := Some update_without_default;
     Engine.ext := tt |}.

(** Three resources.  The deployed stack has a bucket and a queue; the new
    template keeps the queue, with another timeout, drops the bucket and
    adds a topic. *)
Definition bucket : Engine.Resource :=
  [ ("Type", VStr "AWS::S3::Bucket"); ("LogicalResourceId", VStr "Bucket");
    ("Properties", VDict [("BucketName", VStr "assets")]) ].

Definition queue (timeout : Z) : Engine.Resource :=
  [ ("Type", VStr "AWS::SQS::Queue"); ("LogicalResourceId", VStr "Queue");
    ("Properties", VDict [("VisibilityTimeout", VInt timeout)]) ].

Definition topic : Engine.Resource :=
  [ ("Type", VStr "AWS::SNS::Topic"); ("LogicalResourceId", VStr "Topic") ].

Definition deployed_stack : Engine.Stack :=
  with_resources [("Bucket", bucket); ("Queue", queue 30)]
    (blank_stack "app" "CREATE_COMPLETE").

Definition next_stack : Engine.Stack :=
  with_resources [("Queue", queue 60); ("Topic", topic)] (blank_stack "app" "").

Definition env_update : Engine.Env unit :=
  {| Engine.existing := deployed_stack; Engine.other := Some next_stack;
     Engine.ext := tt |}.

(** The same template again: an update that changes nothing. *)
Definition same_stack : Engine.Stack :=
  with_resources [("Bucket", bucket); ("Queue", queue 30)] (blank_stack "app" "").

Definition env_no_update : Engine.Env unit :=
  {| Engine.existing := deployed_stack; Engine.other := Some same_stack;
     Engine.ext := tt |}.

(** Collaborators over a back-end that is the list of the logical ids that
    are deployed.  The resource [Broken] cannot be created or deleted, the
    condition of [Disabled] is false, and [Topic] depends on [Queue]. *)
Definition deployed_in (resource_id : Value) (w : Engine.Env (list string)) : bool :=
  match resource_id with
  | VStr k => str_in k (Engine.ext w)
  | _ => false
  end.

Definition set_backend (ids : list string) (w : Engine.Env (list string))
  : Engine.Env (list string) :=
  {| Engine.existing := Engine.existing w; Engine.other := Engine.other w;
     Engine.ext := ids |}.

Definition demo_action (resource_id : Value) (action_name : string)
  : Call (Engine.Env (list string)) Value :=
  fun w =>
    match resource_id with
    | VStr k =>
        if k =? "Broken" then (Raises (ServiceFailure "boom"), w)
        else if action_name =? "create"
             then (Returns VNone, set_backend (Engine.ext w ++ [k]) w)
             else (Returns VNone,
                   set_backend (filter (fun x => negb (x =? k)) (Engine.ext w)) w)
    | _ => (Raises TypeError, w)
    end.

Definition demo_services : Engine.Services (list string) :=
  {| Engine.add_default_resource_props := fun _ w => (Returns tt, w);
     Engine.evaluate_resource_condition := fun resource_id w =>
       (Returns (negb (py_eq resource_id (VStr "Disabled"))), w);
     Engine.resolve_refs_recursively := fun _ w => (Returns tt, w);
     Engine.is_deployable_resource := fun _ w => (Returns true, w);
     Engine.is_deployed := fun resource_id w => (Returns (deployed_in resource_id w), w);
     Engine.is_updatable := fun _ w => (Returns true, w);
     Engine.all_resource_dependencies_satisfied := fun resource_id w =>
       (Returns (if py_eq resource_id (VStr "Topic")
                 then deployed_in (VStr "Queue") w else true), w);
     Engine.run_resource_action := demo_action;
     Engine.run_update_resource := fun _ w => (Returns VNone, w);
     Engine.determine_resource_physical_id := fun resource_id w =>
       (Returns (match resource_id with
                 | VStr k => VStr ("phys-" ++ k)
                 | _ => VNone
                 end), w);
     Engine.get_action_name_for_resource_change := fun a =>
       match a with
       | Engine.Add => "CREATE"
       | Engine.Modify => "UPDATE"
       | Engine.Remove => "DELETE"
       end;
     Engine.resolve_outputs := fun w => (Returns (VList []), w) |}.

Definition no_ssm_list (param_type default_value : Value) : Call (list string) Value :=
  fun s => (Returns VNone, s).

Definition world_of (s : Engine.Stack) (ids : list string) : Engine.World (list string) :=
  {| Engine.env := {| Engine.existing := s; Engine.other := None; Engine.ext := ids |};
     Engine.calls := [] |}.

(** A new stack with a topic that is listed before the queue it depends
    on. *)
Definition topic_then_queue : Engine.Stack :=
  with_resources [("Topic", topic); ("Queue", queue 30)] (blank_stack "app" "").

(** A new stack one of whose resources cannot be created. *)
Definition broken : Engine.Resource :=
  [ ("Type", VStr "AWS::S3::Bucket"); ("LogicalResourceId", VStr "Broken") ].

Definition stack_with_broken : Engine.Stack :=
  with_resources [("Queue", queue 30); ("Broken", broken)] (blank_stack "app" "").

(** The loop at its start, with one change for the queue of
    [deployed_stack]; [ids] are the resources that are deployed. *)
Definition queue_change (a : Engine.ChangeAction) (d : option bool)
  : Engine.ResourceChange :=
  Engine.set__deployed d (Engine.planned_change a (queue 30)).

Definition loop_with (c : Engine.ResourceChange) (ids : list string)
  : Engine.Loop (list string) :=
  {| Engine.l_world := world_of deployed_stack ids;
     Engine.l_changes := [c];
     Engine.l_changes_done := [];
     Engine.l_passes := 0 |}.

(** The stack with the resource that cannot be deleted, after a deployment
    that recorded a status for each of its two resources. *)
Definition deployed_with_broken : Engine.Stack :=
  Engine.set_resource_states
    [("Queue", [("ResourceStatus", VStr "CREATE_COMPLETE")]);
     ("Broken", [("ResourceStatus", VStr "CREATE_COMPLETE")])]
    (Engine.set_status "CREATE_COMPLETE" stack_with_broken).

(** An update of [deployed_stack] with the template it was deployed
    from. *)
Definition world_no_update : Engine.World (list string) :=
  {| Engine.env := {| Engine.existing := deployed_stack;
                      Engine.other := Some same_stack;
                      Engine.ext := ["Bucket"; "Queue"] |};
     Engine.calls := [] |}.

(** A Route 53 back-end: the hosted zones, as pairs of a name and an id.
    The lookup by name returns the zones of that name; a change request is
    accepted as it is. *)
Definition zones_by_name (name : Value) : M (list (string * string)) (list Dict) :=
  fun zones =>
    (Ok (map (fun z => [("Name", VStr (fst z)); ("Id", VStr (snd z))])
             (filter (fun z => py_eq (VStr (fst z)) name) zones)),
     zones).

Definition accept_change (request : Route53.ChangeRequest)
  : M (list (string * string)) unit :=
  ret tt.

(** [int(s)] on an optional minus sign and decimal digits. *)
Definition digit (c : ascii) : option Z :=
  let n := nat_of_ascii c in
  if ((48 <=? n) && (n <=? 57))%nat then Some (Z.of_nat (n - 48)) else None.

Fixpoint digits (acc : Z) (s : string) : option Z :=
  match s with
  | EmptyString => Some acc
  | String c s' =>
      match digit c with
      | Some d => digits (10 * acc + d)%Z s'
      | None => None
      end
  end.

Definition decimal (s : string) : option Z :=
  match s with
  | EmptyString => None
  | String "-"%char EmptyString => None
  | String "-"%char s' => option_map Z.opp (digits 0 s')
  | _ => digits 0 s
  end.

Definition one_zone : Route53.St (list (string * string)) :=
  {| Route53.backend := [("example.com.", "Z123")]; Route53.requests := [] |}.


(** A record set with the two required properties and the name of its
    zone, and the same with a record and a time to live. *)
Definition record_name_only : Dict :=
  [ ("Name", VStr "www.example.com."); ("Type", VStr "A");
    ("HostedZoneName", VStr "example.com.") ].


(** Collaborators of the evaluator over a parameter store: the parameters
    and their values.  The stack has no resource, no export and no
    secret. *)
Definition Store : Type := list (string * string).

Definition no_reference (ref attribute : Value) : Call Store Value :=
  fun s => (Raises (PlainException "Should be detected earlier"), s).

Definition stored_parameter (name : string) (with_decryption : bool) : Call Store Value :=
  fun s =>
    match dict_get name s with
    | Some v => (Returns (VDict [("Parameter", VDict [("Name", VStr name);
                                                      ("Value", VStr v)])]), s)
    | None => (Raises (ServiceFailure "ParameterNotFound"), s)
    end.

Definition exports_of (exports : Dict) : Call Store Value :=
  fun s => (Returns (VDict exports), s).

(** The evaluator with these collaborators, over the given exports. *)
Definition evaluate (exports : Dict) (depth : nat)
  : M (Evaluator.St Store) Value :=
  Evaluator.resolve_refs_recursively
    no_reference
    (fun _ => [])
    (fun _ : string => @None unit)
    (fun _ _ _ _ s => (Raises AttributeError, s))
    (exports_of exports)
    (fun s => (Returns (VStr "us-east-1"), s))
    4566%Z
    stored_parameter
    (fun _ _ _ s => (Raises (ServiceFailure "ResourceNotFoundException"), s))
    (fun _ => Raise ValueError)
    (fun s => s)
    decimal
    (fun _ => "[...]")
    depth.

(** A parameter that holds a reference to a second one, which holds a
    reference to a third. *)
Definition chained_parameters : Store :=
  [ ("/a", "{{resolve:ssm:/b}}"); ("/b", "{{resolve:ssm:/c}}"); ("/c", "v") ].

Definition on_tree (v : Value) : Evaluator.St Store :=
  {| Evaluator.backends := chained_parameters; Evaluator.value := v |}.



(** Exports that hold one value, and a tree without intrinsic
    function. *)
Definition one_export : Dict :=
  [ ("shared-vpc", VDict [("Value", VStr "vpc-1")]); ("pending", VDict []) ].

Definition import_of (name : string) : Value :=
  VDict [("Fn::ImportValue", VStr name)].


(** Collaborators of the evaluator over a stack with the parameter [Env]
    and the queue of [deployed_stack], whose model knows the attribute
    [Arn] only. *)
Definition reference_in_stack (ref attribute : Value) : Call Store Value :=
  fun s =>
    match ref with
    | VStr "Env" => (Returns (VStr "dev"), s)
    | VList _ | VDict _ => (Raises TypeError, s)
    | _ => (Returns VNone, s)
    end.

Definition resources_in_stack (s : Store) : Dict :=
  [("Queue", VDict (queue 30)); ("Custom", VDict [("Type", VStr "Custom::Thing")])].

Definition models_in_stack (resource_type : string) : option unit :=
  if resource_type =? "AWS::SQS::Queue" then Some tt else None.

Definition queue_attribute (model_class : unit) (resource_name resource_json attribute : Value)
  : Call Store Value :=
  fun s =>
    match attribute with
    | VStr "Arn" => (Returns (VStr "arn:aws:sqs:us-east-1:000000000000:jobs"), s)
    | _ => (Raises AttributeError, s)
    end.

Definition evaluate_in_stack (depth : nat) : M (Evaluator.St Store) Value :=
  Evaluator.resolve_refs_recursively
    reference_in_stack
    resources_in_stack
    models_in_stack
    queue_attribute
    (exports_of one_export)
    (fun s => (Returns (VStr "us-east-1"), s))
    4566%Z
    stored_parameter
    (fun _ _ _ s => (Raises (ServiceFailure "ResourceNotFoundException"), s))
    (fun _ => Raise ValueError)
    (fun s => s)
    decimal
    (fun _ => "[...]")
    depth.

(** A choice between two lists of references, by the parameter [Env]. *)
Definition choice_by_env : Value :=
  VDict [("Fn::If", VList [ VStr "Env";
                            VList [VStr "{{resolve:ssm:/b}}"];
                            VList [VStr "{{resolve:ssm:/c}}"] ])].

(** A deployed stack whose queue has its physical id. *)
Definition queue_with_id : Engine.Resource :=
  queue 30 ++ [("PhysicalResourceId", VStr "http://localhost:4566/queue/app")].

Definition stack_with_ids : Engine.Stack :=
  with_resources [("Queue", queue_with_id)] (blank_stack "app" "CREATE_COMPLETE").

(** A back-end that keeps, besides the logical ids that are deployed, the
    ids of the resources whose state the service was asked for. *)
Record Asked : Type := {
  deployed_ids : list string;
  asked : list string
}.

(** The one model class, for queues, and its [fetch_and_update_state]: a
    call to the service, which knows the queues that are deployed. *)
Definition queue_model (resource_type : Value) : option unit :=
  if py_eq resource_type (VStr "AWS::SQS::Queue") then Some tt else None.

Definition fetch_queue_state (resource_class : unit) (resource : Engine.Resource)
  : Call (Engine.Env Asked) Value :=
  fun w =>
    match dict_get "LogicalResourceId" resource with
    | Some (VStr k) =>
        (Returns (if str_in k (deployed_ids (Engine.ext w))
                  then VDict [("QueueUrl", VStr ("http://localhost:4566/queue/" ++ k))]
                  else VNone),
         {| Engine.existing := Engine.existing w; Engine.other := Engine.other w;
            Engine.ext := {| deployed_ids := deployed_ids (Engine.ext w);
                             asked := asked (Engine.ext w) ++ [k] |} |})
    | _ => (Raises TypeError, w)
    end.

(** The collaborators of the loop with [is_deployed] as the deployer has
    it, on the resource under the logical id. *)
Definition asking_services : Engine.Services Asked :=
  {| Engine.add_default_resource_props := fun _ w => (Returns tt, w);
     Engine.evaluate_resource_condition := fun _ w => (Returns true, w);
     Engine.resolve_refs_recursively := fun _ w => (Returns tt, w);
     Engine.is_deployable_resource := fun _ w => (Returns true, w);
     Engine.is_deployed := fun resource_id w =>
       match get_by resource_id (Engine.resources (Engine.existing w)) with
       | Some resource =>
           match Engine.is_deployed_resource queue_model fetch_queue_state resource w with
           | (Ok b, w') => (Returns b, w')
           | (Raise e, w') => (Raises e, w')
           | (OutOfFuel, w') => (Raises (PlainException "unreachable"), w')
           end
       | None => (Raises (KeyError "resource_id"), w)
       end;
     Engine.is_updatable := fun _ w => (Returns true, w);
     Engine.all_resource_dependencies_satisfied := fun _ w => (Returns true, w);
     Engine.run_resource_action := fun _ _ w => (Returns VNone, w);
     Engine.run_update_resource := fun _ w => (Returns VNone, w);
     Engine.determine_resource_physical_id := fun _ w => (Returns VNone, w);
     Engine.get_action_name_for_resource_change := fun a =>
       match a with
       | Engine.Add => "CREATE"
       | Engine.Modify => "UPDATE"
       | Engine.Remove => "DELETE"
       end;
     Engine.resolve_outputs := fun w => (Returns (VList []), w) |}.

(** The loop at its start with an Add change for the queue of
    [deployed_stack], which is deployed; the service was not asked yet. *)
Definition loop_on_deployed_queue : Engine.Loop Asked :=
  {| Engine.l_world :=
       {| Engine.env := {| Engine.existing := deployed_stack; Engine.other := None;
                           Engine.ext := {| deployed_ids := ["Queue"]; asked := [] |} |};
          Engine.calls := [] |};
     Engine.l_changes := [queue_change Engine.Add None];
     Engine.l_changes_done := [];
     Engine.l_passes := 0 |}.

End Fixtures.

(* ================================================================== *)
(** * Part II: lemmas and theorems *)

(* ------------------------------------------------------------------ *)
(** ** Strings *)

Lemma prefix_app (m s : string) :
  String.prefix m s = true <-> exists post, s = (m ++ post)%string.
Proof.
  revert s; induction m as [|c m IH]; intros s.
  - split; [intros _; now exists s | intros _; now destruct s].
  - destruct s as [|d s]; simpl.
    + split; [discriminate | intros [post H]; discriminate].
    + destruct (Ascii.ascii_dec c d) as [->|ne].
      * rewrite IH. split; intros [post H]; exists post.
        -- now rewrite H.
        -- now inversion H.
      * split; [discriminate|].
        intros [post H]. inversion H. congruence.
Qed.

Lemma contains_Substring (m s : string) :
  Py.contains m s = true <-> Py.Substring m s.
Proof.
  unfold Py.Substring.
  induction s as [|c s IH]; cbn [Py.contains].
  - destruct (String.prefix m "") eqn:P.
    + split; [intros _|reflexivity].
      apply prefix_app in P. destruct P as [post P].
      now exists "", post.
    + split; [discriminate|].
      intros [pre [post H]].
      destruct pre; [|discriminate]. simpl in H.
      assert (String.prefix m "" = true) by (apply prefix_app; eauto).
      congruence.
  - destruct (String.prefix m (String c s)) eqn:P.
    + split; [intros _|reflexivity].
      apply prefix_app in P. destruct P as [post P].
      exists "", post. exact P.
    + rewrite IH. split.
      * intros [pre [post H]]. exists (String c pre), post. simpl. now rewrite H.
      * intros [pre [post H]]. destruct pre as [|d pre]; simpl in H.
        -- assert (String.prefix m (String c s) = true)
             by (apply prefix_app; eauto).
           congruence.
        -- inversion H. now exists pre, post.
Qed.

(* ------------------------------------------------------------------ *)
(** ** Action Invoker *)

Section InvokerFacts.

Import Invoker.

Variables Params Res Report : Type.
Variable function : Params -> CallResult Res Report.
Variable fix_boto_parameters_based_on_report : Params -> Report -> Params.

Lemma check_not_found_exception_spec (e : Exn Report) :
  check_not_found_exception e = true <-> is_not_found e.
Proof.
  unfold check_not_found_exception, is_not_found.
  rewrite Exists_exists.
  destruct (filter _ markers) as [|m ms] eqn:F.
  - split; [discriminate|].
    intros [m [Hin Hs]].
    assert (In m (filter (fun m => Py.contains m (str e)) markers)) as H.
    { apply filter_In. split; [assumption|]. now apply contains_Substring. }
    rewrite F in H. destruct H.
  - split; [intros _|reflexivity].
    assert (In m (filter (fun m => Py.contains m (str e)) markers)) as H
        by (rewrite F; now left).
    apply filter_In in H. destruct H as [Hin Hc].
    exists m. split; [assumption|]. now apply contains_Substring.
Qed.

Lemma call_with_retry_fails (params : Params) (e : Exn Report) :
  fails_with function fix_boto_parameters_based_on_report params e ->
  call_with_retry function fix_boto_parameters_based_on_report params = Raised _ e.
Proof.
  unfold call_with_retry.
  intros [e' H Hn | r m e' H1 H2].
  - rewrite H. destruct e' as [[r|] m|m]; try reflexivity.
    exfalso. now apply (Hn r m).
  - now rewrite H1.
Qed.

(** C6.  When the service call fails with [e] (on the first call, or on the
    retry that follows a parameter-validation report), [invoke_function]
    returns normally, with [None], exactly when the action is ["delete"] and
    the message of [e] contains one of the seven not-found markers; in every
    other case, another failure during a delete or any failure during
    another action, it raises [e] to its caller. *)
Theorem invoke_function_swallows_not_found_on_delete
    (params : Params) (action_name : string) (e : Exn Report) :
  fails_with function fix_boto_parameters_based_on_report params e ->
  (action_name = "delete" /\ is_not_found e ->
     invoke_function function fix_boto_parameters_based_on_report params action_name
     = Return _ None) /\
  (~ (action_name = "delete" /\ is_not_found e) ->
     invoke_function function fix_boto_parameters_based_on_report params action_name
     = Raise _ e).
Proof.
  intros F. unfold invoke_function.
  rewrite (call_with_retry_fails F).
  destruct (action_name =? "delete") eqn:A;
    destruct (check_not_found_exception e) eqn:C; simpl.
  - split; [reflexivity|]. intros N. exfalso. apply N. split.
    + now apply String.eqb_eq.
    + now apply check_not_found_exception_spec.
  - split; [|reflexivity]. intros [_ N].
    apply check_not_found_exception_spec in N. congruence.
  - split; [|reflexivity]. intros [N _].
    apply String.eqb_eq in N. congruence.
  - split; [|reflexivity]. intros [N _].
    apply String.eqb_eq in N. congruence.
Qed.

End InvokerFacts.

Lemma invoke_function_swallows_not_found_on_delete_witness :
  Invoker.fails_with Fixtures.delete_of_missing_queue Fixtures.keep_params tt
    (Invoker.ServiceError unit Fixtures.gone_message) /\
  ((Invoker.ACTION_DELETE = "delete" /\
    Invoker.is_not_found (Invoker.ServiceError unit Fixtures.gone_message) ->
    Invoker.invoke_function Fixtures.delete_of_missing_queue Fixtures.keep_params
      tt Invoker.ACTION_DELETE = Invoker.Return _ None) /\
   (~ (Invoker.ACTION_DELETE = "delete" /\
       Invoker.is_not_found (Invoker.ServiceError unit Fixtures.gone_message)) ->
    Invoker.invoke_function Fixtures.delete_of_missing_queue Fixtures.keep_params
      tt Invoker.ACTION_DELETE = Invoker.Raise _ (Invoker.ServiceError unit Fixtures.gone_message))).
Proof.
  assert (F : Invoker.fails_with Fixtures.delete_of_missing_queue Fixtures.keep_params tt
                (Invoker.ServiceError unit Fixtures.gone_message)).
  { apply Invoker.fails_first; [reflexivity | intros r m; discriminate]. }
  split; [exact F|].
  exact (invoke_function_swallows_not_found_on_delete Invoker.ACTION_DELETE F).
Defined.

(* ------------------------------------------------------------------ *)
(** ** Parameter merging *)

(** The entry that the overlay writes for a template parameter holds the
    [Default] whenever there is one, whatever value the stack has for the
    key. *)
Lemma template_param_entry_default (logical_id : string) (value : Py.Dict)
    (parameters : list (string * Py.Dict)) :
  Py.getv "Default" value <> Py.VNone ->
  Py.getv "ParameterValue" (Engine.template_param_entry logical_id value parameters)
  = Py.getv "Default" value.
Proof.
  intros H. unfold Engine.template_param_entry.
  destruct (Py.getv "Default" value); try reflexivity. congruence.
Qed.

(** C5.  The stack runs with [Env = "prod"] and the update passes [Env] with
    [UsePreviousValue] true.  When the new template declares [Env] with the
    default ["dev"], [apply_parameter_changes] leaves [Env = "dev"] in the
    stack: the overlay replaced the current value by the default and the
    [UsePreviousValue] entry then kept that.  When the template declares
    [Env] without a default, the value that is left is the whole previous
    entry, not its value. *)
Theorem apply_parameter_changes_loses_previous_value :
  Engine.metadata_Parameters (Engine.existing
    (snd (Engine.apply_parameter_changes Fixtures.no_ssm Fixtures.env_keeping_previous)))
  = [[("ParameterKey", Py.VStr "Env"); ("ParameterValue", Py.VStr "dev")]]
  /\
  Engine.metadata_Parameters (Engine.existing
    (snd (Engine.apply_parameter_changes Fixtures.no_ssm Fixtures.env_without_default)))
  = [[("ParameterKey", Py.VStr "Env");
      ("ParameterValue",
        Py.VDict [("ParameterKey", Py.VStr "Env"); ("ParameterValue", Py.VStr "prod")])]].
Proof. split; reflexivity. Qed.

(* ------------------------------------------------------------------ *)
(** ** Dictionaries *)

Section DictFacts.

Import Py.

Variable A : Type.
Implicit Types (d : list (string * A)) (k : string).

Lemma dict_get_In k d v : dict_get k d = Some v -> In (k, v) d.
Proof.
  induction d as [|[k' v'] d IH]; simpl; [discriminate|].
  destruct (k' =? k) eqn:E.
  - apply String.eqb_eq in E. intros [= ->]. left. now subst.
  - intros H. right. auto.
Qed.

Lemma dict_get_NoDup k d v :
  NoDup (dict_keys d) -> In (k, v) d -> dict_get k d = Some v.
Proof.
  induction d as [|[k' v'] d IH]; simpl; [intros _ []|].
  intros N [H|H].
  - injection H as -> ->. now rewrite String.eqb_refl.
  - inversion N as [|? ? Hn N']; subst.
    destruct (k' =? k) eqn:E.
    + apply String.eqb_eq in E. subst. exfalso. apply Hn.
      change k with (fst (k, v)). now apply in_map.
    + auto.
Qed.

Lemma dict_get_set_same k v d : dict_get k (dict_set k v d) = Some v.
Proof.
  induction d as [|[k' v'] d IH]; simpl.
  - now rewrite String.eqb_refl.
  - destruct (k' =? k) eqn:E; simpl; rewrite ?String.eqb_refl; [reflexivity|].
    now rewrite E.
Qed.

Lemma dict_get_set_other k k' v d :
  k' <> k -> dict_get k (dict_set k' v d) = dict_get k d.
Proof.
  intros N. induction d as [|[k2 v2] d IH]; simpl.
  - destruct (k' =? k) eqn:E; [apply String.eqb_eq in E; congruence|reflexivity].
  - destruct (k2 =? k') eqn:E; simpl.
    + apply String.eqb_eq in E. subst k2.
      destruct (k' =? k) eqn:E'; [apply String.eqb_eq in E'; congruence|reflexivity].
    + destruct (k2 =? k); [reflexivity|exact IH].
Qed.

Lemma dict_keys_set_present k v d :
  dict_has k d = true -> dict_keys (dict_set k v d) = dict_keys d.
Proof.
  unfold dict_has, dict_keys.
  induction d as [|[k' v'] d IH]; simpl; [discriminate|].
  destruct (k' =? k) eqn:E; simpl.
  - apply String.eqb_eq in E. now subst.
  - intros H. now rewrite IH.
Qed.

Lemma dict_has_set k k' v d :
  dict_has k (dict_set k' v d) = (k' =? k) || dict_has k d.
Proof.
  unfold dict_has.
  destruct (k' =? k) eqn:E.
  - apply String.eqb_eq in E. subst. now rewrite dict_get_set_same.
  - rewrite dict_get_set_other; [reflexivity|].
    intros ->. now rewrite String.eqb_refl in E.
Qed.

Lemma dict_set_same k (x : A) d :
  dict_get k d = Some x -> dict_set k x d = d.
Proof.
  induction d as [|[k' y] d IH]; cbn [dict_get dict_set]; [discriminate|].
  destruct (k' =? k) eqn:E.
  - apply String.eqb_eq in E. intros [= ->]. now subst.
  - intros H. now rewrite IH.
Qed.

End DictFacts.

(* ------------------------------------------------------------------ *)
(** ** Change planner *)

Section PlannerFacts.

Import Py Exc Engine.

Variable Ext : Type.
Variable ssm : Value -> Value -> Call Ext Value.

Lemma same_but_props_refl r : same_but_props r r.
Proof. now intros key _. Qed.

Lemma same_but_props_trans r1 r2 r3 :
  same_but_props r1 r2 -> same_but_props r2 r3 -> same_but_props r1 r3.
Proof. intros H1 H2 key N. now rewrite H1, H2. Qed.

Lemma same_but_props_set r v : same_but_props r (dict_set "Properties" v r).
Proof.
  intros key N. symmetry. apply dict_get_set_other. congruence.
Qed.

Lemma res_sim_refl rs : res_sim rs rs.
Proof.
  induction rs; constructor; auto. split; [reflexivity|apply same_but_props_refl].
Qed.

Lemma res_sim_get rs0 rs key r0 :
  res_sim rs0 rs -> dict_get key rs0 = Some r0 ->
  exists r, dict_get key rs = Some r /\ same_but_props r0 r.
Proof.
  induction 1 as [|[k0 v0] [k v] rs0 rs [Hk Hs] _ IH]; simpl; [discriminate|].
  simpl in Hk, Hs. subst k.
  destruct (k0 =? key); [intros [= ->]; eauto | exact IH].
Qed.

Lemma res_sim_set rs0 rs key r r' :
  res_sim rs0 rs -> dict_get key rs = Some r -> same_but_props r r' ->
  res_sim rs0 (dict_set key r' rs).
Proof.
  induction 1 as [|[k0 v0] [k v] rs0 rs [Hk Hs] HF IH]; simpl; [discriminate|].
  simpl in Hk, Hs. subst k.
  destruct (k0 =? key) eqn:E.
  - intros [= ->] S. apply String.eqb_eq in E. subst.
    constructor; [|exact HF]. split; [reflexivity|].
    simpl. eapply same_but_props_trans; eauto.
  - intros G S. constructor; [now split|]. now apply IH.
Qed.

Lemma res_sim_keys rs0 rs : res_sim rs0 rs -> dict_keys rs = dict_keys rs0.
Proof.
  unfold dict_keys. induction 1 as [|? ? ? ? [Hk _] _ IH]; simpl; [reflexivity|].
  now rewrite IH, Hk.
Qed.

Lemma env_sim_refl (w : Env Ext) : env_sim w w.
Proof. repeat split; auto using res_sim_refl. Qed.

Lemma env_sim_write (w0 w : Env Ext) sd key r r' :
  env_sim w0 w ->
  dict_get key (template_Resources (stack_of sd w)) = Some r ->
  same_but_props r r' ->
  env_sim w0 (upd_stack sd (fun s =>
    set_template_Resources (dict_set key r' (template_Resources s)) s) w).
Proof.
  intros (Ho & He & Hn) G S.
  destruct w as [ex [ot|] x]; destruct sd; unfold env_sim, upd_stack, upd_new,
    upd_existing, new_stack, stack_of in *; simpl in *;
    (split; [rewrite Ho; split; intro Hx; try discriminate Hx; reflexivity|]); split;
    solve [ assumption | eapply res_sim_set; eauto ].
Qed.

Lemma get_change_config_planned action r0 r :
  same_but_props r0 r -> dict_has "Type" r0 = true ->
  get_change_config action r = Ok (planned_change action r0).
Proof.
  intros S T. unfold get_change_config, planned_change, dict_has, getv in *.
  rewrite <- !S by discriminate.
  destruct (dict_get "Type" r0); [reflexivity|discriminate].
Qed.

(** Without the filter, one item of one of the three lists yields the change
    planned for the resource as it was at the start, and the resources keep
    everything but [Properties]. *)
Lemma construct_item_spec (w0 w : Env Ext) action cs sd key r0 :
  env_sim w0 w ->
  dict_get key (template_Resources (stack_of sd w0)) = Some r0 ->
  dict_has "Type" r0 = true ->
  exists w',
    construct_item false action cs (sd, key) w
    = (Ok (cs ++ [planned_change action r0]), w') /\ env_sim w0 w'.
Proof.
  intros Sim G T.
  assert (exists r, dict_get key (template_Resources (stack_of sd w)) = Some r
                    /\ same_but_props r0 r) as (r & Gr & Sr).
  { destruct Sim as (Ho & He & Hn).
    destruct sd; simpl in *; eapply res_sim_get; eauto. }
  unfold construct_item, read_resource, write_resource.
  unfold bind, get, of_option, modify, ret, lift. rewrite Gr. simpl.
  set (r' := dict_set "Properties" _ r).
  assert (Sr' : same_but_props r0 r').
  { eapply same_but_props_trans; [exact Sr|apply same_but_props_set]. }
  rewrite (get_change_config_planned action Sr' T).
  eexists. split; [reflexivity|].
  eapply env_sim_write; eauto. apply same_but_props_set.
Qed.

Lemma construct_items_spec (l : Resources) : forall (w0 w : Env Ext) action cs sd,
  env_sim w0 w ->
  (forall kv, In kv l ->
     dict_get (fst kv) (template_Resources (stack_of sd w0)) = Some (snd kv)
     /\ dict_has "Type" (snd kv) = true) ->
  exists w',
    fold_m (construct_item false action) (map (fun kv => (sd, fst kv)) l) cs w
    = (Ok (cs ++ map (fun kv => planned_change action (snd kv)) l), w')
    /\ env_sim w0 w'.
Proof.
  induction l as [|kv l IH]; intros w0 w action cs sd Sim H; cbn [fold_m map].
  - exists w. rewrite app_nil_r. now split.
  - destruct (H kv (or_introl eq_refl)) as [G T].
    destruct (construct_item_spec action cs sd (fst kv) Sim G T) as (w1 & E1 & Sim1).
    unfold bind at 1. rewrite E1.
    destruct (IH w0 w1 action (cs ++ [planned_change action (snd kv)]) sd Sim1)
      as (w2 & E2 & Sim2).
    { intros kv' Hin. apply H. now right. }
    exists w2. rewrite E2. split; [|exact Sim2].
    now rewrite <- app_assoc.
Qed.

Lemma sorted_by_rank_app (l1 l2 : list ResourceChange) (n : nat) :
  StronglySorted (fun c c' => action_rank (Action c) <= action_rank (Action c')) l1 ->
  StronglySorted (fun c c' => action_rank (Action c) <= action_rank (Action c')) l2 ->
  Forall (fun c => action_rank (Action c) <= n) l1 ->
  Forall (fun c => n <= action_rank (Action c)) l2 ->
  StronglySorted (fun c c' => action_rank (Action c) <= action_rank (Action c'))
    (l1 ++ l2).
Proof.
  intros S1 S2 F1 F2. induction S1 as [|c l1 S1 IH Hc]; simpl; [exact S2|].
  inversion F1; subst. constructor; [auto|].
  apply Forall_app. split; [exact Hc|].
  eapply Forall_impl; [|exact F2]. simpl. intros. lia.
Qed.

Lemma sorted_planned (a : ChangeAction) (rs : list Resource) :
  StronglySorted (fun c c' => action_rank (Action c) <= action_rank (Action c'))
    (map (planned_change a) rs).
Proof.
  induction rs; simpl; constructor; auto.
  apply Forall_forall. intros c Hin. apply in_map_iff in Hin.
  destruct Hin as (r & <- & _). simpl. lia.
Qed.

Lemma rank_planned (a : ChangeAction) (rs : list Resource) (P : nat -> Prop) :
  P (action_rank a) ->
  Forall (fun c => P (action_rank (Action c))) (map (planned_change a) rs).
Proof.
  intros H. apply Forall_forall. intros c Hin. apply in_map_iff in Hin.
  now destruct Hin as (r & <- & _).
Qed.

(** C4.  For two templates whose resources have a [Type], and with
    [filter_unchanged_resources] off (its default, and what [apply_changes]
    passes), [construct_changes] returns exactly: one Remove change for each
    resource of the old template whose key is not in the new one, then one
    Add change for each resource of the new template whose key is not in
    the old one (for every resource of the new template when [initialize]
    is set), then one Modify change for each resource of the new template
    whose key is in the old one (none when [initialize] is set); each list
    in the order of its template.  The result is ordered Remove, Add,
    Modify. *)
Theorem construct_changes_plan (w : Env Ext) (initialize append_to_changeset : bool) :
  let old_resources := template_Resources (existing w) in
  let new_resources := template_Resources (new_stack w) in
  NoDup (dict_keys old_resources) ->
  NoDup (dict_keys new_resources) ->
  (forall kv, In kv old_resources \/ In kv new_resources ->
              dict_has "Type" (snd kv) = true) ->
  exists cs w',
    construct_changes initialize append_to_changeset false w = (Ok cs, w') /\
    cs =
      map (planned_change Remove)
        (dict_values (filter (fun kv => negb (dict_has (fst kv) new_resources))
                             old_resources))
      ++ map (planned_change Add)
        (dict_values (filter (fun kv => initialize
                                        || negb (dict_has (fst kv) old_resources))
                             new_resources))
      ++ map (planned_change Modify)
        (dict_values (filter (fun kv => negb initialize
                                        && dict_has (fst kv) old_resources)
                             new_resources)) /\
    StronglySorted
      (fun c c' => action_rank (Action c) <= action_rank (Action c')) cs.
Proof.
  intros old_resources new_resources Nold Nnew HT.
  set (dl := filter (fun kv => negb (dict_has (fst kv) new_resources)) old_resources).
  set (al := filter (fun kv => initialize || negb (dict_has (fst kv) old_resources))
               new_resources).
  set (ml := filter (fun kv => negb initialize && dict_has (fst kv) old_resources)
               new_resources).
  assert (Hd : forall kv, In kv dl ->
     dict_get (fst kv) (template_Resources (stack_of Old w)) = Some (snd kv)
     /\ dict_has "Type" (snd kv) = true).
  { intros [k r] Hin. apply filter_In in Hin. destruct Hin as [Hin _]. split.
    - now apply dict_get_NoDup.
    - apply HT. now left. }
  assert (Hn : forall f kv, In kv (filter f new_resources) ->
     dict_get (fst kv) (template_Resources (stack_of New w)) = Some (snd kv)
     /\ dict_has "Type" (snd kv) = true).
  { intros f [k r] Hin. apply filter_In in Hin. destruct Hin as [Hin _]. split.
    - now apply dict_get_NoDup.
    - apply HT. now right. }
  destruct (construct_items_spec dl (w0 := w) Remove [] Old (env_sim_refl w) Hd)
    as (w1 & E1 & S1).
  destruct (construct_items_spec al (w0 := w) Add
              ([] ++ map (fun kv => planned_change Remove (snd kv)) dl) New S1 (Hn _))
    as (w2 & E2 & S2).
  destruct (construct_items_spec ml (w0 := w) Modify
              (([] ++ map (fun kv => planned_change Remove (snd kv)) dl)
                 ++ map (fun kv => planned_change Add (snd kv)) al) New S2 (Hn _))
    as (w3 & E3 & S3).
  assert (E : exists w',
    construct_changes initialize append_to_changeset false w =
      (Ok ((([] ++ map (fun kv => planned_change Remove (snd kv)) dl)
              ++ map (fun kv => planned_change Add (snd kv)) al)
             ++ map (fun kv => planned_change Modify (snd kv)) ml), w')).
  { unfold construct_changes.
    unfold bind at 1. unfold get at 1. cbv beta iota.
    fold old_resources new_resources.
    unfold bind at 1. cbn [fold_m fst snd].
    unfold deletes_of, adds_of, modifies_of. fold dl al ml.
    unfold bind at 1. rewrite E1.
    unfold bind at 1. rewrite E2.
    unfold bind at 1. rewrite E3.
    unfold ret at 1.
    destruct append_to_changeset.
    - unfold bind, get, modify, ret.
      destruct (is_change_set (new_stack w3)); eexists; reflexivity.
    - unfold bind, ret. eexists; reflexivity. }
  destruct E as (w' & E).
  eexists. exists w'. split; [exact E|].
  unfold dict_values. rewrite !map_map. simpl. rewrite <- app_assoc.
  split; [reflexivity|].
  rewrite <- (map_map snd (planned_change Remove)).
  rewrite <- (map_map snd (planned_change Add)).
  rewrite <- (map_map snd (planned_change Modify)).
  apply sorted_by_rank_app with (n := 1).
  - apply sorted_planned.
  - apply sorted_by_rank_app with (n := 1).
    + apply sorted_planned.
    + apply sorted_planned.
    + apply (rank_planned Add _ (fun n => n <= 1)). simpl. lia.
    + apply (rank_planned Modify _ (fun n => 1 <= n)). simpl. lia.
  - apply (rank_planned Remove _ (fun n => n <= 1)). simpl. lia.
  - apply Forall_app. split.
    + apply (rank_planned Add _ (fun n => 1 <= n)). simpl. lia.
    + apply (rank_planned Modify _ (fun n => 1 <= n)). simpl. lia.
Qed.

(* ---------------------------- *)
(** *** The stack status is not touched before the loop *)

Lemma keeps_bind A B (m : M (Env Ext) A) (k : A -> M (Env Ext) B) :
  keeps_status m -> (forall a, keeps_status (k a)) -> keeps_status (bind m k).
Proof.
  intros Hm Hk w. unfold bind. specialize (Hm w).
  destruct (m w) as [[a|e|] w1]; simpl in *; [|assumption|assumption].
  now rewrite (Hk a w1).
Qed.

Lemma keeps_ret A (a : A) : keeps_status (ret (S := Env Ext) a).
Proof. now intros w. Qed.

Lemma keeps_raise A e : keeps_status (raise (S := Env Ext) (A := A) e).
Proof. now intros w. Qed.

Lemma keeps_get : keeps_status (get (S := Env Ext)).
Proof. now intros w. Qed.

Lemma keeps_lift A (r : Result A) : keeps_status (lift (S := Env Ext) r).
Proof. now intros w. Qed.

Lemma keeps_of_option A (o : option A) e : keeps_status (of_option (S := Env Ext) o e).
Proof. destruct o; [apply keeps_ret|apply keeps_raise]. Qed.

Lemma keeps_lift_ext A (c : Call Ext A) : keeps_status (lift_ext (Ext := Ext) c).
Proof. intros w. unfold lift_ext. now destruct (call c (ext w)). Qed.

Lemma keeps_upd_stack sd (f : Stack -> Stack) :
  (forall s, status (f s) = status s) ->
  keeps_status (modify (upd_stack (Ext := Ext) sd f)).
Proof.
  intros Hf [ex [ot|] x]; destruct sd; simpl; auto.
Qed.

Lemma keeps_upd_existing (f : Stack -> Stack) :
  (forall s, status (f s) = status s) ->
  keeps_status (modify (upd_existing (Ext := Ext) f)).
Proof. intros Hf. exact (keeps_upd_stack Old f Hf). Qed.

Lemma keeps_upd_new (f : Stack -> Stack) :
  (forall s, status (f s) = status s) ->
  keeps_status (modify (upd_new (Ext := Ext) f)).
Proof. intros Hf. exact (keeps_upd_stack New f Hf). Qed.

Lemma keeps_fold_m A B (f : B -> A -> M (Env Ext) B) (xs : list A) :
  (forall b a, keeps_status (f b a)) -> forall b, keeps_status (fold_m f xs b).
Proof.
  intros Hf. induction xs as [|x xs IH]; intros b; simpl.
  - apply keeps_ret.
  - apply keeps_bind; auto.
Qed.

Lemma keeps_for_each A (xs : list A) (body : A -> M (Env Ext) unit) :
  (forall a, keeps_status (body a)) -> keeps_status (for_each xs body).
Proof.
  intros Hb. induction xs as [|x xs IH]; simpl.
  - apply keeps_ret.
  - apply keeps_bind; auto.
Qed.

Lemma status_set_resource_status rid st pid s :
  status (set_resource_status rid st pid s) = status s.
Proof. unfold set_resource_status. now destruct rid. Qed.

Ltac keeps_step :=
  first
    [ apply keeps_ret | apply keeps_raise | apply keeps_get | apply keeps_lift
    | apply keeps_of_option | apply keeps_lift_ext
    | apply keeps_upd_existing; intros; first [reflexivity | apply status_set_resource_status]
    | apply keeps_upd_new; intros; reflexivity
    | apply keeps_upd_stack; intros; reflexivity
    | apply keeps_bind; [|intros]
    | apply keeps_fold_m; intros
    | apply keeps_for_each; intros
    | match goal with
      | |- keeps_status (if ?b then _ else _) => destruct b
      | |- keeps_status (match ?x with _ => _ end) => destruct x
      | |- keeps_status (let (_, _) := ?x in _) => destruct x
      end ].

Lemma keeps_init_resource_status rs action :
  keeps_status (init_resource_status (Ext := Ext) rs action).
Proof. unfold init_resource_status. repeat keeps_step. Qed.

Lemma keeps_apply_parameter_changes : keeps_status (apply_parameter_changes ssm).
Proof. unfold apply_parameter_changes, resolve_param. repeat keeps_step. Qed.

Lemma keeps_resource_config_differs r :
  keeps_status (resource_config_differs (Ext := Ext) r).
Proof. unfold resource_config_differs. repeat keeps_step. Qed.

Lemma keeps_construct_changes i a f :
  keeps_status (construct_changes (Ext := Ext) i a f).
Proof.
  unfold construct_changes, construct_item, read_resource, write_resource.
  repeat first [apply keeps_resource_config_differs | keeps_step].
Qed.

Lemma keeps_merge_properties rid : keeps_status (merge_properties (Ext := Ext) rid).
Proof.
  unfold merge_properties, read_resource, write_resource. repeat keeps_step.
Qed.

Lemma keeps_plan_changes i : keeps_status (plan_changes ssm i).
Proof.
  unfold plan_changes.
  repeat first [ apply keeps_init_resource_status
               | apply keeps_apply_parameter_changes
               | apply keeps_construct_changes | keeps_step ].
Qed.

Lemma keeps_check_change b c : keeps_status (check_change (Ext := Ext) b c).
Proof.
  unfold check_change.
  repeat first [ apply keeps_resource_config_differs
               | apply keeps_merge_properties | keeps_step ].
Qed.

(** Whatever the stacks and whatever the outcome, the part of
    [apply_changes] that runs before the deployment loop leaves the status
    of the existing stack as it found it. *)
Lemma keeps_apply_changes_prepare i : keeps_status (apply_changes_prepare ssm i).
Proof.
  unfold apply_changes_prepare.
  repeat first [ apply keeps_plan_changes | apply keeps_check_change | keeps_step ].
Qed.

(* ---------------------------- *)
(** *** An update that changes nothing *)

Ltac destruct_inner :=
  match goal with
  | |- context [match ?x with _ => _ end] =>
      lazymatch x with
      | context [match _ with _ => _ end] => fail
      | _ => destruct x
      end
  end.

(** [resource_config_differs] only reads. *)
Lemma resource_config_differs_pure r (w : Env Ext) :
  snd (resource_config_differs r w) = w.
Proof.
  unfold resource_config_differs, bind, get, of_option, lift, ret, raise.
  repeat (cbv beta iota; destruct_inner); reflexivity.
Qed.

(** What it reads of the state: the old resource and its recorded status. *)
Lemma resource_config_differs_reads r (w w' : Env Ext) :
  (forall id, dict_get "LogicalResourceId" r = Some id ->
     get_by id (resources (existing w)) = get_by id (resources (existing w')) /\
     get_by id (resource_states (existing w))
     = get_by id (resource_states (existing w'))) ->
  fst (resource_config_differs r w) = fst (resource_config_differs r w').
Proof.
  intros H.
  unfold resource_config_differs, bind, get, of_option, lift, ret, raise.
  destruct (dict_get "LogicalResourceId" r) as [id|]; [|reflexivity].
  destruct (H id eq_refl) as [H1 H2]. rewrite H1, H2.
  repeat (cbv beta iota; destruct_inner); reflexivity.
Qed.

(** When it answers [False], both resources have a dictionary of
    properties. *)
Lemma resource_config_differs_false r (w : Env Ext) :
  fst (resource_config_differs r w) = Ok false ->
  exists id ro d np,
    dict_get "LogicalResourceId" r = Some id /\
    get_by id (resources (existing w)) = Some ro /\
    properties_of ro = Ok d /\ properties_of r = Ok np.
Proof.
  unfold resource_config_differs, bind, get, of_option, lift, ret, raise.
  destruct (dict_get "LogicalResourceId" r) as [id|]; [|discriminate].
  destruct (get_by id (resources (existing w))) as [ro|] eqn:G; [|discriminate].
  destruct (properties_of ro) as [d| |] eqn:P1; [|discriminate|discriminate].
  destruct (properties_of r) as [np| |] eqn:P2; [|discriminate|discriminate].
  intros _. exists id, ro, d, np. repeat split; assumption || reflexivity.
Qed.

Lemma merge_fold_keeps_properties (new_resource old_resource : Resource) :
  dict_get "Properties"
    (fold_left
       (fun acc (kv : string * Value) =>
          if fst kv =? "Properties" then acc
          else dict_set (fst kv)
                 (match dict_get (fst kv) acc with Some v => v | None => snd kv end) acc)
       new_resource old_resource)
  = dict_get "Properties" old_resource.
Proof.
  revert old_resource. induction new_resource as [|[k v] l IH]; intros o; simpl fold_left.
  - reflexivity.
  - rewrite IH. cbn [fst snd]. destruct (k =? "Properties") eqn:E; [reflexivity|].
    apply dict_get_set_other. intros ->. now rewrite String.eqb_refl in E.
Qed.

Lemma properties_of_inv (r : Resource) d :
  properties_of r = Ok d -> dict_get "Properties" r = Some (VDict d).
Proof.
  unfold properties_of. destruct (dict_get "Properties" r) as [[]|]; try discriminate.
  now intros [= ->].
Qed.

Lemma merge_properties_of_unchanged (w : Env Ext) ns key r ro d np :
  other w = Some ns ->
  dict_get key (template_Resources ns) = Some r ->
  dict_get key (template_Resources (existing w)) = Some ro ->
  properties_of ro = Ok d -> properties_of r = Ok np ->
  dict_has key (template_original_Resources ns) = true ->
  exists w',
    merge_properties (VStr key) w = (Ok tt, w') /\
    other w' = Some ns /\
    resource_states (existing w') = resource_states (existing w) /\
    (forall k', k' <> key ->
       dict_get k' (template_Resources (existing w'))
       = dict_get k' (template_Resources (existing w))).
Proof.
  intros Ho Gr Go Po Pn Hor.
  destruct w as [ex ot x]. cbn [other existing] in *. subst ot.
  apply properties_of_inv in Po.
  assert (Kept : truthy (VDict ro) = true).
  { destruct ro; [discriminate|reflexivity]. }
  unfold dict_has in Hor.
  destruct (dict_get key (template_original_Resources ns)) as [orig|] eqn:Eo;
    [|discriminate].
  unfold merge_properties.
  unfold bind at 1. unfold get at 1. cbv beta iota.
  cbn [new_stack other existing get_by].
  rewrite Gr. unfold of_option at 1. unfold bind at 1. unfold ret at 1. cbv beta iota.
  rewrite Go, Kept.
  rewrite !merge_fold_keeps_properties, Po.
  unfold write_resource, read_resource, bind, modify, get, of_option, lift, ret.
  unfold upd_stack, upd_existing, stack_of, new_stack.
  cbn [other existing ext].
  rewrite Gr, Pn. cbn [other existing ext]. rewrite Eo.
  eexists. split; [reflexivity|].
  cbn [other existing ext].
  unfold set_template_original_Resources, set_template_Resources.
  cbn [template_Resources resource_states].
  split; [reflexivity|]. split; [reflexivity|].
  intros k' N. rewrite !dict_get_set_other by congruence. reflexivity.
Qed.

Lemma check_change_unchanged ns (w3 w : Env Ext) c :
  other w = Some ns ->
  resource_states (existing w) = resource_states (existing w3) ->
  unchanged_modify ns w3 c ->
  (forall key, LogicalResourceId c = VStr key ->
     dict_get key (template_Resources (existing w))
     = dict_get key (template_Resources (existing w3))) ->
  exists w',
    @check_change Ext false c w = (Ok false, w') /\
    other w' = Some ns /\
    resource_states (existing w') = resource_states (existing w) /\
    (forall k', LogicalResourceId c <> VStr k' ->
       dict_get k' (template_Resources (existing w'))
       = dict_get k' (template_Resources (existing w))).
Proof.
  intros Ho Hs (Ha & key & r & Hid & Gr & Hl & Hd & Hor) Hk.
  assert (D : resource_config_differs r w = (Ok false, w)).
  { rewrite (surjective_pairing (resource_config_differs r w)).
    rewrite resource_config_differs_pure. f_equal.
    rewrite <- Hd. apply resource_config_differs_reads.
    intros id Hid'. rewrite Hl in Hid'. injection Hid' as <-.
    unfold resources. cbn [get_by]. split; [now apply Hk | now rewrite Hs]. }
  assert (D' : fst (resource_config_differs r w) = Ok false) by now rewrite D.
  apply resource_config_differs_false in D'.
  destruct D' as (id & ro & d & np & Hl' & Go & Po & Pn).
  rewrite Hl in Hl'. injection Hl' as <-. unfold resources in Go. cbn [get_by] in Go.
  destruct (merge_properties_of_unchanged w key Ho Gr Go Po Pn Hor)
    as (w' & Em & Ho' & Hs' & Hk').
  exists w'. split.
  - unfold check_change. unfold bind at 1. unfold get at 1. cbv beta iota.
    rewrite Ha, Hid. unfold new_stack. rewrite Ho. cbn [get_by]. rewrite Gr.
    unfold bind at 1. unfold bind at 1. rewrite D. unfold ret at 1.
    cbv beta iota.
    unfold bind at 1. unfold bind at 1. rewrite Hl. unfold of_option, ret at 1.
    cbv beta iota. rewrite Em. reflexivity.
  - split; [exact Ho'|]. split; [exact Hs'|].
    intros k' N. apply Hk'. intros ->. now apply N.
Qed.

Lemma check_changes_unchanged ns (w3 : Env Ext) : forall cs (w : Env Ext),
  other w = Some ns ->
  resource_states (existing w) = resource_states (existing w3) ->
  NoDup (map LogicalResourceId cs) ->
  (forall c, In c cs -> unchanged_modify ns w3 c) ->
  (forall c key, In c cs -> LogicalResourceId c = VStr key ->
     dict_get key (template_Resources (existing w))
     = dict_get key (template_Resources (existing w3))) ->
  exists w', fold_m (@check_change Ext) cs false w = (Ok false, w').
Proof.
  induction cs as [|c cs IH]; intros w Ho Hs N U K; cbn [fold_m].
  - now exists w.
  - destruct (@check_change_unchanged ns w3 w c Ho Hs)
      as (w1 & E1 & Ho1 & Hs1 & K1).
    { apply U. now left. }
    { intros key Hid. apply (K c key); [now left|exact Hid]. }
    unfold bind at 1. rewrite E1.
    inversion N as [|? ? Hn N']; subst.
    apply IH; auto.
    + congruence.
    + intros c' Hin. apply U. now right.
    + intros c' key Hin Hid. rewrite K1.
      * apply (K c' key); [now right|exact Hid].
      * intros Heq. apply Hn. rewrite Heq, <- Hid. now apply in_map.
Qed.

(** The part of [apply_changes] that runs before the loop, on a diff that
    holds nothing but Modify changes that change nothing. *)
Lemma apply_changes_prepare_no_updates (w w3 : Env Ext) (ns : Stack) (initialize : bool)
    (cs : list ResourceChange) :
  plan_changes ssm initialize w = (Ok cs, w3) ->
  other w3 = Some ns ->
  NoDup (map LogicalResourceId cs) ->
  (forall c, In c cs -> unchanged_modify ns w3 c) ->
  exists w',
    apply_changes_prepare ssm initialize w = (Raise NoStackUpdates, w') /\
    status (existing w') = status (existing w).
Proof.
  intros P Ho N U.
  destruct (@check_changes_unchanged ns w3 cs w3 Ho eq_refl N U)
    as (w' & E); [reflexivity|].
  exists w'. split.
  - unfold apply_changes_prepare. unfold bind at 1. rewrite P.
    unfold bind at 1. rewrite E. reflexivity.
  - pose proof (keeps_apply_changes_prepare initialize w) as K.
    unfold apply_changes_prepare in K. unfold bind at 1 in K. rewrite P in K.
    unfold bind at 1 in K. rewrite E in K. exact K.
Qed.

End PlannerFacts.

Lemma construct_changes_plan_witness :
  NoDup (Py.dict_keys (Engine.template_Resources (Engine.existing Fixtures.env_update))) /\
  NoDup (Py.dict_keys (Engine.template_Resources (Engine.new_stack Fixtures.env_update))) /\
  (forall kv,
     In kv (Engine.template_Resources (Engine.existing Fixtures.env_update)) \/
     In kv (Engine.template_Resources (Engine.new_stack Fixtures.env_update)) ->
     Py.dict_has "Type" (snd kv) = true) /\
  exists cs w',
    Engine.construct_changes false false false Fixtures.env_update = (Exc.Ok cs, w') /\
    cs = [ Engine.planned_change Engine.Remove Fixtures.bucket;
           Engine.planned_change Engine.Add Fixtures.topic;
           Engine.planned_change Engine.Modify (Fixtures.queue 60) ] /\
    StronglySorted
      (fun c c' => Engine.action_rank (Engine.Action c)
                   <= Engine.action_rank (Engine.Action c')) cs.
Proof.
  assert (N1 : NoDup (Py.dict_keys
             (Engine.template_Resources (Engine.existing Fixtures.env_update)))).
  { simpl. repeat constructor; simpl; intuition discriminate. }
  assert (N2 : NoDup (Py.dict_keys
             (Engine.template_Resources (Engine.new_stack Fixtures.env_update)))).
  { simpl. repeat constructor; simpl; intuition discriminate. }
  assert (T : forall kv,
     In kv (Engine.template_Resources (Engine.existing Fixtures.env_update)) \/
     In kv (Engine.template_Resources (Engine.new_stack Fixtures.env_update)) ->
     Py.dict_has "Type" (snd kv) = true).
  { simpl. intros kv [[<-|[<-|[]]]|[<-|[<-|[]]]]; reflexivity. }
  repeat split; [exact N1|exact N2|exact T|].
  exact (construct_changes_plan Fixtures.env_update false false N1 N2 T).
Defined.

(* ------------------------------------------------------------------ *)
(** ** Computations that return *)

Section Termination.

Import Exc.

Variable S : Type.

Lemma terminates_ret A (a : A) : terminates (ret (S := S) a).
Proof. intros s. discriminate. Qed.

Lemma terminates_raise A e : terminates (raise (S := S) (A := A) e).
Proof. intros s. discriminate. Qed.

Lemma terminates_get : terminates (get (S := S)).
Proof. intros s. discriminate. Qed.

Lemma terminates_modify f : terminates (modify (S := S) f).
Proof. intros s. discriminate. Qed.

Lemma terminates_of_option A (o : option A) e : terminates (of_option (S := S) o e).
Proof. destruct o; [apply terminates_ret|apply terminates_raise]. Qed.

Lemma terminates_call A (c : Call S A) : terminates (call c).
Proof. intros s. unfold call. destruct (c s) as [[a|e] s']; discriminate. Qed.

Lemma terminates_bind A B (m : M S A) (k : A -> M S B) :
  terminates m -> (forall a, terminates (k a)) -> terminates (bind m k).
Proof.
  intros Hm Hk s. unfold bind. specialize (Hm s).
  destruct (m s) as [[a|e|] s']; simpl in *; [apply Hk|discriminate|congruence].
Qed.

Lemma terminates_try_except A (m : M S A) h :
  terminates m -> (forall e, terminates (h e)) -> terminates (try_except m h).
Proof.
  intros Hm Hh s. unfold try_except. specialize (Hm s).
  destruct (m s) as [[a|e|] s']; simpl in *; [discriminate|apply Hh|congruence].
Qed.

Lemma terminates_try_dependency A (m h : M S A) :
  terminates m -> terminates h -> terminates (try_dependency m h).
Proof.
  intros Hm Hh s. unfold try_dependency. specialize (Hm s).
  destruct (m s) as [[a|e|] s']; simpl in *; [discriminate| |congruence].
  destruct e; try discriminate. apply Hh.
Qed.

Lemma terminates_for_each A (xs : list A) (body : A -> M S unit) :
  (forall a, terminates (body a)) -> terminates (for_each xs body).
Proof.
  intros Hb. induction xs; simpl; [apply terminates_ret|].
  apply terminates_bind; auto.
Qed.

Lemma bind_ok A B (m : M S A) (k : A -> M S B) s a s1 :
  m s = (Ok a, s1) -> bind m k s = k a s1.
Proof. intros H. unfold bind. now rewrite H. Qed.

Lemma bind_raise A B (m : M S A) (k : A -> M S B) s e s1 :
  m s = (Raise e, s1) -> bind m k s = (Raise e, s1).
Proof. intros H. unfold bind. now rewrite H. Qed.

Lemma bind_fuel A B (m : M S A) (k : A -> M S B) s s1 :
  m s = (OutOfFuel, s1) -> bind m k s = (OutOfFuel, s1).
Proof. intros H. unfold bind. now rewrite H. Qed.

Lemma try_except_ok A (m : M S A) h s a s1 :
  m s = (Ok a, s1) -> try_except m h s = (Ok a, s1).
Proof. intros H. unfold try_except. now rewrite H. Qed.

Lemma try_except_raise A (m : M S A) h s e s1 :
  m s = (Raise e, s1) -> try_except m h s = h e s1.
Proof. intros H. unfold try_except. now rewrite H. Qed.

End Termination.

(* ------------------------------------------------------------------ *)
(** ** Deployment loop *)

Section LoopFacts.

Import Py Exc Engine.

Variable Ext : Type.
Variable svc : Services Ext.

Lemma terminates_lift_env A (m : M (Env Ext) A) :
  terminates m -> terminates (lift_env m).
Proof.
  intros H w. unfold lift_env. specialize (H (env w)).
  now destruct (m (env w)).
Qed.

Lemma terminates_lift_world A (m : M (World Ext) A) :
  terminates m -> terminates (lift_world m).
Proof.
  intros H l. unfold lift_world. specialize (H (l_world l)).
  now destruct (m (l_world l)).
Qed.

Ltac term_step :=
  first
    [ apply terminates_ret | apply terminates_raise | apply terminates_get
    | apply terminates_modify | apply terminates_of_option | apply terminates_call
    | apply terminates_lift_env | apply terminates_lift_world
    | apply terminates_bind; [|intros]
    | apply terminates_try_except; [|intros]
    | apply terminates_for_each; intros
    | match goal with
      | |- terminates (if ?b then _ else _) => destruct b
      | |- terminates (match ?x with _ => _ end) => destruct x
      end ].

Lemma terminates_the_resource rid : terminates (the_resource (Ext := Ext) rid).
Proof. unfold the_resource. repeat term_step. Qed.

Lemma terminates_execute_resource_action rid a :
  terminates (execute_resource_action svc rid a).
Proof. unfold execute_resource_action, log_call. repeat term_step. Qed.

Lemma terminates_update_resource rid : terminates (update_resource svc rid).
Proof. unfold update_resource, log_call. repeat term_step. Qed.

Lemma terminates_is_updateable rid : terminates (is_updateable svc rid).
Proof. unfold is_updateable. repeat term_step. Qed.

Lemma terminates_update_resource_details rid res a :
  terminates (update_resource_details svc rid res a).
Proof.
  unfold update_resource_details, write_resource.
  repeat first [apply terminates_the_resource | term_step].
Qed.

(* ---------------------------- *)
(** *** The lists of the loop *)

Lemma len_kept_ret A (a : A) : len_kept (ret (S := Loop Ext) a).
Proof. intros l. simpl. repeat split. discriminate. Qed.

Lemma len_kept_raise A e : len_kept (raise (S := Loop Ext) (A := A) e).
Proof. intros l. simpl. repeat split. discriminate. Qed.

Lemma len_kept_get : len_kept (get (S := Loop Ext)).
Proof. intros l. simpl. repeat split. discriminate. Qed.

Lemma len_kept_of_option A (o : option A) e :
  len_kept (of_option (S := Loop Ext) o e).
Proof. destruct o; [apply len_kept_ret|apply len_kept_raise]. Qed.

Lemma len_kept_bind A B (m : M (Loop Ext) A) (k : A -> M (Loop Ext) B) :
  len_kept m -> (forall a, len_kept (k a)) -> len_kept (bind m k).
Proof.
  intros Hm Hk l. unfold bind. destruct (Hm l) as (T & L & D & P).
  destruct (m l) as [[a|e|] l1]; simpl in *.
  - destruct (Hk a l1) as (T' & L' & D' & P').
    repeat split; congruence.
  - repeat split; auto. discriminate.
  - congruence.
Qed.

Lemma len_kept_lift_world A (m : M (World Ext) A) :
  terminates m -> len_kept (lift_world m).
Proof.
  intros H l. unfold lift_world. specialize (H (l_world l)).
  destruct (m (l_world l)); simpl in *. repeat split; auto.
Qed.

Lemma length_list_update A j (f : A -> A) (xs : list A) :
  length (list_update j f xs) = length xs.
Proof.
  revert j; induction xs as [|x xs IH]; intros [|j]; simpl; auto.
Qed.

Lemma length_list_delete A j (xs : list A) :
  j < length xs -> S (length (list_delete j xs)) = length xs.
Proof.
  revert j; induction xs as [|x xs IH]; intros [|j]; simpl; try lia.
  intros H. rewrite IH; lia.
Qed.

Lemma len_kept_update_change j f : len_kept (update_change (Ext := Ext) j f).
Proof.
  intros l. simpl. repeat split; [discriminate|]. apply length_list_update.
Qed.

Lemma len_kept_change_at j : len_kept (change_at (Ext := Ext) j).
Proof.
  unfold change_at. apply len_kept_bind; [apply len_kept_get|].
  intros l. apply len_kept_of_option.
Qed.

Ltac len_step :=
  first
    [ apply len_kept_ret | apply len_kept_raise | apply len_kept_get
    | apply len_kept_of_option | apply len_kept_update_change
    | apply len_kept_change_at
    | apply len_kept_lift_world;
      repeat first [ apply terminates_the_resource
                   | apply terminates_execute_resource_action
                   | apply terminates_update_resource
                   | apply terminates_is_updateable
                   | apply terminates_update_resource_details
                   | term_step ]
    | apply len_kept_bind; [|intros]
    | match goal with
      | |- len_kept (if ?b then _ else _) => destruct b
      | |- len_kept (match ?x with _ => _ end) => destruct x
      end ].

Lemma len_kept_prepare rid j : len_kept (prepare_should_deploy_change svc rid j).
Proof. unfold prepare_should_deploy_change. repeat len_step. Qed.

Lemma len_kept_apply_change j : len_kept (apply_change svc j).
Proof. unfold apply_change. repeat len_step. Qed.

(* ---------------------------- *)
(** *** One turn of the [while] loop *)

Lemma step_ok_bind A j (m : M (Loop Ext) A) (k : A -> M (Loop Ext) Step) :
  len_kept m -> (forall a, step_ok j (k a)) -> step_ok j (bind m k).
Proof.
  intros Hm Hk l Hj. unfold bind. destruct (Hm l) as (T & L & D & P).
  destruct (m l) as [[a|e|] l1]; simpl in *.
  - assert (Hj1 : j < length (l_changes l1)) by lia.
    specialize (Hk a l1 Hj1). unfold step_effect in *.
    rewrite <- L, <- D, <- P. exact Hk.
  - unfold step_effect. simpl. auto.
  - congruence.
Qed.

Lemma step_ok_deferred j : step_ok j (ret (S := Loop Ext) Deferred).
Proof. intros l Hj. unfold step_effect. simpl. auto. Qed.

Lemma step_ok_dropped j : step_ok j (bind (del_change (Ext := Ext) j) (fun _ => ret Dropped)).
Proof.
  intros l Hj. unfold step_effect. simpl. repeat split.
  now apply length_list_delete.
Qed.

Lemma step_ok_dropped_status j f :
  step_ok j (bind (del_change (Ext := Ext) j)
               (fun _ => bind (lift_world (lift_env (modify f)))
                           (fun _ => ret Dropped))).
Proof.
  intros l Hj. unfold step_effect. simpl. repeat split.
  now apply length_list_delete.
Qed.

Lemma step_ok_apply_and_record j : step_ok j (apply_and_record svc j).
Proof.
  intros l Hj.
  destruct (len_kept_apply_change j l) as (T & L & D & P).
  unfold apply_and_record, change_at, del_change.
  unfold bind, get, of_option, modify, ret.
  destruct (apply_change svc j l) as [[v|e|] l1]; simpl in T, L, D, P;
    cbv beta iota.
  - assert (Hj1 : j < length (l_changes l1)) by lia.
    destruct (nth_error (l_changes l1) j) as [c|] eqn:E.
    + unfold step_effect, set_l_changes.
      cbn [fst snd l_passes l_changes l_changes_done].
      rewrite P, D. split; [reflexivity|]. split.
      * rewrite <- L. now apply length_list_delete.
      * now exists c.
    + apply nth_error_None in E. lia.
  - unfold step_effect. cbn [fst snd]. auto.
  - congruence.
Qed.

Lemma step_ok_try_dependency j (m : M (Loop Ext) Step) :
  step_ok j m -> step_ok j (try_dependency m (ret Deferred)).
Proof.
  intros H l Hj. specialize (H l Hj). unfold try_dependency.
  destruct (m l) as [[s|e|] l1]; simpl in *; try exact H.
  destruct e; simpl; exact H.
Qed.

Lemma step_ok_handle_change j : step_ok j (handle_change svc j).
Proof.
  unfold handle_change. apply step_ok_try_dependency.
  apply step_ok_bind; [apply len_kept_change_at|]. intros c.
  destruct (Action c).
  - apply step_ok_bind; [apply len_kept_prepare|]. intros [[|]|];
      first [apply step_ok_apply_and_record | apply step_ok_dropped].
  - apply step_ok_bind; [repeat len_step|]. intros _.
    apply step_ok_bind; [apply len_kept_prepare|]. intros [[|]|];
      try apply step_ok_dropped_status.
    apply step_ok_bind; [repeat len_step|]. intros [|]; simpl;
      [apply step_ok_apply_and_record|apply step_ok_deferred].
  - apply step_ok_bind; [repeat len_step|]. intros _.
    apply step_ok_bind; [apply len_kept_prepare|]. intros [[|]|];
      try apply step_ok_dropped_status.
    apply step_ok_bind; [repeat len_step|]. intros [|]; simpl;
      [apply step_ok_apply_and_record|apply step_ok_deferred].
Qed.

(* ---------------------------- *)
(** *** One pass and the passes *)

Lemma while_changes_unfold fuel j updated (l : Loop Ext) :
  while_changes svc (S fuel) j updated l =
  if (j <? length (l_changes l))%nat
  then match handle_change svc j l with
       | (Ok Dropped, l1) => while_changes svc fuel j updated l1
       | (Ok Deferred, l1) => while_changes svc fuel (j + 1) updated l1
       | (Ok Applied, l1) => while_changes svc fuel j true l1
       | (Raise e, l1) => (Raise e, l1)
       | (OutOfFuel, l1) => (OutOfFuel, l1)
       end
  else (Ok updated, l).
Proof.
  cbn [while_changes]. unfold bind, get.
  destruct (j <? length (l_changes l))%nat; [|reflexivity].
  destruct (handle_change svc j l) as [[[]|e|] l1]; reflexivity.
Qed.

Lemma one_pass_unfold (l : Loop Ext) :
  one_pass svc l =
  while_changes svc (S (length (l_changes l))) 0 false
    {| l_world := l_world l; l_changes := l_changes l;
       l_changes_done := l_changes_done l; l_passes := S (l_passes l) |}.
Proof. reflexivity. Qed.

(** With more fuel than [len(changes) - j] the [while] loop comes to its
    end.  It does not lengthen [changes], it only appends to
    [changes_done], and the flag it returns says whether [updated] was set
    before or a change was applied. *)
Lemma while_changes_effect : forall fuel j updated (l : Loop Ext),
  length (l_changes l) - j < fuel ->
  fst (while_changes svc fuel j updated l) <> OutOfFuel /\
  length (l_changes (snd (while_changes svc fuel j updated l)))
    <= length (l_changes l) /\
  l_passes (snd (while_changes svc fuel j updated l)) = l_passes l /\
  exists cs,
    l_changes_done (snd (while_changes svc fuel j updated l))
    = l_changes_done l ++ cs /\
    forall u, fst (while_changes svc fuel j updated l) = Ok u ->
              u = updated || (0 <? length cs)%nat.
Proof.
  induction fuel as [|fuel IH]; intros j updated l Hf; [lia|].
  rewrite while_changes_unfold.
  destruct (j <? length (l_changes l))%nat eqn:Hj.
  - apply Nat.ltb_lt in Hj.
    pose proof (@step_ok_handle_change j l Hj) as He.
    destruct (handle_change svc j l) as [[[]|e|] l1];
      unfold step_effect in He; cbn [fst snd] in He.
    + (* Dropped *)
      destruct He as (P & L & D).
      destruct (IH j updated l1) as (T & L' & P' & cs & D' & U'); [lia|].
      repeat split; [exact T|lia|congruence|].
      exists cs. split; [congruence|exact U'].
    + (* Deferred *)
      destruct He as (P & L & D).
      destruct (IH (j + 1) updated l1) as (T & L' & P' & cs & D' & U'); [lia|].
      repeat split; [exact T|lia|congruence|].
      exists cs. split; [congruence|exact U'].
    + (* Applied *)
      destruct He as (P & L & c & D).
      destruct (IH j true l1) as (T & L' & P' & cs & D' & U'); [lia|].
      repeat split; [exact T|lia|congruence|].
      exists (c :: cs). split.
      * rewrite D', D, <- app_assoc. reflexivity.
      * intros u Hu. rewrite (U' u Hu). simpl. now rewrite orb_true_r.
    + (* an exception other than DependencyNotYetSatisfied *)
      destruct He as (P & L & D).
      cbn [fst snd]. repeat split; [discriminate|lia|exact P|].
      exists []. rewrite app_nil_r. split; [exact D|discriminate].
    + destruct He as (_ & []).
  - cbn [fst snd]. repeat split; [discriminate|lia|].
    exists []. rewrite app_nil_r. split; [reflexivity|].
    intros u [= <-]. simpl. now rewrite orb_false_r.
Qed.

(** One pass returns or raises; its flag is set exactly when the pass moved
    a change to [changes_done]. *)
Lemma one_pass_effect (l : Loop Ext) :
  fst (one_pass svc l) <> OutOfFuel /\
  length (l_changes (snd (one_pass svc l))) <= length (l_changes l) /\
  l_passes (snd (one_pass svc l)) = S (l_passes l) /\
  exists cs,
    l_changes_done (snd (one_pass svc l)) = l_changes_done l ++ cs /\
    forall u, fst (one_pass svc l) = Ok u -> u = (0 <? length cs)%nat.
Proof.
  rewrite one_pass_unfold.
  set (l1 := {| l_world := l_world l; l_changes := l_changes l;
                l_changes_done := l_changes_done l; l_passes := S (l_passes l) |}).
  destruct (@while_changes_effect (S (length (l_changes l))) 0 false l1)
    as (T & L & P & cs & D & U); [simpl; lia|].
  repeat split; [exact T|exact L|exact P|].
  exists cs. split; [exact D|]. intros u Hu. now rewrite (U u Hu).
Qed.

Lemma deployment_passes_unfold n (l : Loop Ext) :
  deployment_passes svc (S n) l =
  match one_pass svc l with
  | (Ok updated, l1) =>
      match l_changes l1 with
      | [] => (Ok tt, l1)
      | _ :: _ =>
          if negb updated then (Raise (PlainException loop_completed), l1)
          else deployment_passes svc n l1
      end
  | (Raise e, l1) => (Raise e, l1)
  | (OutOfFuel, l1) => (OutOfFuel, l1)
  end.
Proof.
  cbn [deployment_passes]. unfold bind at 1.
  destruct (one_pass svc l) as [[updated|e|] l1]; try reflexivity.
  unfold bind, get. destruct (l_changes l1); [reflexivity|].
  now destruct updated.
Qed.

Lemma deployment_passes_effect : forall n (l : Loop Ext),
  fst (deployment_passes svc n l) <> OutOfFuel /\
  l_passes (snd (deployment_passes svc n l)) <= l_passes l + n /\
  length (l_changes (snd (deployment_passes svc n l))) <= length (l_changes l).
Proof.
  induction n as [|n IH]; intros l.
  - simpl. repeat split; [discriminate|lia|lia].
  - rewrite deployment_passes_unfold.
    destruct (one_pass_effect l) as (T & L & P & _).
    destruct (one_pass svc l) as [[updated|e|] l1]; cbn [fst snd] in *.
    + destruct (l_changes l1) eqn:E.
      * cbn [fst snd]. repeat split; [discriminate|lia|rewrite E; simpl; lia].
      * destruct updated; cbn [negb].
        -- destruct (IH l1) as (T' & P' & L'). rewrite E in L'.
           repeat split; [exact T'|lia|simpl in *; lia].
        -- cbn [fst snd]. repeat split; [discriminate|lia|rewrite E; lia].
    + repeat split; [discriminate|lia|lia].
    + congruence.
Qed.

Lemma terminates_with_loop A cs (m : M (Loop Ext) A) :
  (forall l, fst (m l) <> OutOfFuel) -> terminates (with_loop cs m).
Proof.
  intros H w. unfold with_loop.
  match goal with |- context [m ?l] => specialize (H l); destruct (m l) as [[a|e|] l1] end;
    simpl in *; congruence.
Qed.

Lemma terminates_do_apply_changes_in_loop cs :
  terminates (do_apply_changes_in_loop svc cs).
Proof.
  unfold do_apply_changes_in_loop.
  repeat first [ apply terminates_with_loop; intros; apply deployment_passes_effect
               | term_step ].
Qed.

(** C1.  The deployment loop of [do_apply_changes_in_loop] comes to an end
    for every list of changes and every state: it starts at most 30 passes,
    the list of pending changes never grows, and the function returns or
    raises.  A pass sets [updated] exactly when it applied a change (moved it
    to [changes_done]).  After a pass that came to its end, the loop stops
    normally if no change is pending; it raises [Exception] if changes are
    pending and the pass applied none; otherwise it goes on with the passes
    that are left.  An exception that leaves a pass leaves the loop. *)
Theorem deployment_loop_terminates (cs : list ResourceChange) (w : World Ext) :
  let l0 := {| l_world := w; l_changes := cs; l_changes_done := []; l_passes := 0 |} in
  (fst (deployment_passes svc max_iters l0) <> OutOfFuel /\
   l_passes (snd (deployment_passes svc max_iters l0)) <= 30 /\
   length (l_changes (snd (deployment_passes svc max_iters l0))) <= length cs /\
   fst (do_apply_changes_in_loop svc cs w) <> OutOfFuel) /\
  (forall n (l : Loop Ext),
     match one_pass svc l with
     | (Ok updated, l1) =>
         (updated = true <->
            exists c done, l_changes_done l1 = l_changes_done l ++ c :: done) /\
         (l_changes l1 = [] -> deployment_passes svc (S n) l = (Ok tt, l1)) /\
         (l_changes l1 <> [] -> updated = false ->
            deployment_passes svc (S n) l
            = (Raise (PlainException loop_completed), l1)) /\
         (l_changes l1 <> [] -> updated = true ->
            deployment_passes svc (S n) l = deployment_passes svc n l1)
     | (Raise e, l1) => deployment_passes svc (S n) l = (Raise e, l1)
     | (OutOfFuel, _) => False
     end).
Proof.
  intros l0. split.
  - destruct (deployment_passes_effect max_iters l0) as (T & P & L).
    repeat split; [exact T|exact P|exact L|].
    apply terminates_do_apply_changes_in_loop.
  - intros n l. rewrite deployment_passes_unfold.
    destruct (one_pass_effect l) as (T & _ & _ & done & D & U).
    destruct (one_pass svc l) as [[updated|e|] l1]; cbn [fst snd] in *;
      [|reflexivity|congruence].
    specialize (U updated eq_refl).
    split; [|split; [|split]].
    + rewrite U, D. destruct done as [|c done]; simpl.
      * split; [discriminate|]. intros (c & d & H).
        rewrite app_nil_r in H.
        apply (f_equal (@length _)) in H. rewrite length_app in H. simpl in H. lia.
      * split; [|reflexivity]. intros _. now exists c, done.
    + intros ->. reflexivity.
    + intros N ->. destruct (l_changes l1); [congruence|reflexivity].
    + intros N ->. destruct (l_changes l1); [congruence|reflexivity].
Qed.

(* ---------------------------- *)
(** *** Which action a change runs *)

Lemma calls_kept_lift_env A (m : M (Env Ext) A) : calls_kept (lift_env m).
Proof. intros w. unfold lift_env. now destruct (m (env w)). Qed.

Lemma calls_kept_ret A (a : A) : calls_kept (ret (S := World Ext) a).
Proof. now intros w. Qed.

Lemma calls_kept_raise A e : calls_kept (raise (S := World Ext) (A := A) e).
Proof. now intros w. Qed.

Lemma calls_kept_get : calls_kept (get (S := World Ext)).
Proof. now intros w. Qed.

Lemma calls_kept_of_option A (o : option A) e :
  calls_kept (of_option (S := World Ext) o e).
Proof. destruct o; [apply calls_kept_ret|apply calls_kept_raise]. Qed.

Lemma calls_kept_bind A B (m : M (World Ext) A) (k : A -> M (World Ext) B) :
  calls_kept m -> (forall a, calls_kept (k a)) -> calls_kept (bind m k).
Proof.
  intros Hm Hk w. unfold bind. specialize (Hm w).
  destruct (m w) as [[a|e|] w1]; simpl in *; [|assumption|assumption].
  now rewrite (Hk a w1).
Qed.

Ltac calls_step :=
  first
    [ apply calls_kept_ret | apply calls_kept_raise | apply calls_kept_get
    | apply calls_kept_of_option | apply calls_kept_lift_env
    | apply calls_kept_bind; [|intros]
    | match goal with
      | |- calls_kept (if ?b then _ else _) => destruct b
      | |- calls_kept (match ?x with _ => _ end) => destruct x
      end ].

Lemma calls_kept_the_resource rid : calls_kept (the_resource (Ext := Ext) rid).
Proof. unfold the_resource. repeat calls_step. Qed.

Lemma calls_kept_update_resource_details rid res a :
  calls_kept (update_resource_details svc rid res a).
Proof.
  unfold update_resource_details.
  repeat first [apply calls_kept_the_resource | calls_step].
Qed.

(** A resource action is on record as soon as it is started, whether it
    returns or raises. *)
Lemma calls_execute_resource_action rid a (w : World Ext) :
  calls (snd (execute_resource_action svc rid a w)) = calls w ++ [(rid, a)].
Proof.
  unfold execute_resource_action, log_call, bind, modify, lift_env. cbn [env calls].
  now destruct (call (run_resource_action svc rid a) (env w)).
Qed.

Lemma calls_update_resource rid (w : World Ext) :
  calls (snd (update_resource svc rid w)) = calls w ++ [(rid, "update")].
Proof.
  unfold update_resource, log_call, bind, modify, lift_env. cbn [env calls].
  now destruct (call (run_update_resource svc rid) (env w)).
Qed.

Lemma lift_call_returns A (c : Call (Env Ext) A) (l : Loop Ext) a e :
  c (env (l_world l)) = (Returns a, e) ->
  lift_world (lift_env (call c)) l = (Ok a, set_env e l).
Proof.
  intros H. unfold lift_world, lift_env, call. rewrite H. reflexivity.
Qed.

Lemma the_resource_found rid r (l : Loop Ext) :
  get_by rid (resources (existing (env (l_world l)))) = Some r ->
  lift_world (the_resource rid) l = (Ok r, l).
Proof.
  intros H. unfold lift_world, the_resource, bind, get, of_option.
  rewrite H. unfold ret. now destruct l.
Qed.

Lemma change_at_found j c (l : Loop Ext) :
  nth_error (l_changes l) j = Some c -> change_at j l = (Ok c, l).
Proof. intros H. unfold change_at, bind, get, of_option. now rewrite H. Qed.

(** [prepare_should_deploy_change] on a Modify change whose resource is not
    deployed: it records [_deployed = False] in the change and answers
    [True]. *)
Lemma prepare_modify_undeployed j c r e1 e2 e3 (l : Loop Ext) :
  nth_error (l_changes l) j = Some c ->
  Action c = Modify ->
  get_by (LogicalResourceId c) (resources (existing (env (l_world l)))) = Some r ->
  evaluate_resource_condition svc (LogicalResourceId c) (env (l_world l))
    = (Returns true, e1) ->
  resolve_refs_recursively svc (LogicalResourceId c) e1 = (Returns tt, e2) ->
  is_deployed svc (LogicalResourceId c) e2 = (Returns false, e3) ->
  prepare_should_deploy_change svc (LogicalResourceId c) j l
  = (Ok (Some true),
     set_l_changes (list_update j (set__deployed (Some false)) (l_changes l))
       (set_env e3 l)).
Proof.
  intros Hc Ha Hr H1 H2 H3.
  unfold prepare_should_deploy_change.
  unfold bind at 1. rewrite (the_resource_found _ l Hr).
  unfold bind at 1. rewrite (change_at_found _ l Hc).
  unfold bind at 1. rewrite (lift_call_returns _ l H1). cbn [negb].
  unfold bind at 1. rewrite (lift_call_returns _ (set_env e1 l) H2).
  rewrite Ha.
  unfold bind at 1. unfold ret at 1. cbn [negb].
  unfold bind at 1. rewrite (lift_call_returns _ (set_env e2 (set_env e1 l)) H3).
  reflexivity.
Qed.

Lemma calls_lift_world A (m : M (World Ext) A) (l : Loop Ext) :
  calls (l_world (snd (lift_world m l))) = calls (snd (m (l_world l))).
Proof. unfold lift_world. now destruct (m (l_world l)). Qed.

(** [apply_change] on a Modify change that carries [_deployed = False]
    runs the create action of the resource: the action works on the state
    that the evaluation of the condition left, and what it returns and the
    state it leaves go on to [update_resource_details]; an exception of the
    action ends [apply_change].  The update of the resource is not run. *)
Lemma apply_change_modify_undeployed j c r e1 e2 res (l : Loop Ext) :
  nth_error (l_changes l) j = Some c ->
  Action c = Modify ->
  _deployed c = Some false ->
  get_by (LogicalResourceId c) (resources (existing (env (l_world l)))) = Some r ->
  evaluate_resource_condition svc (LogicalResourceId c) (env (l_world l))
    = (Returns true, e1) ->
  run_resource_action svc (LogicalResourceId c) ACTION_CREATE e1 = (res, e2) ->
  apply_change svc j l
  = match res with
    | Returns result =>
        bind (lift_world (update_resource_details svc (LogicalResourceId c) result
                            (get_action_name_for_resource_change svc Modify)))
             (fun _ => ret result)
             (after_action j (LogicalResourceId c) ACTION_CREATE e2 l)
    | Raises e => (Raise e, after_action j (LogicalResourceId c) ACTION_CREATE e2 l)
    end.
Proof.
  intros Hc Ha Hd Hr H1 H2.
  unfold apply_change.
  unfold bind at 1. rewrite (change_at_found _ l Hc).
  unfold bind at 1. rewrite (the_resource_found _ l Hr).
  unfold bind at 1. unfold update_change at 1, modify at 1. cbv beta iota.
  set (l1 := set_l_changes _ l).
  assert (H1' : evaluate_resource_condition svc (LogicalResourceId c) (env (l_world l1))
                = (Returns true, e1)) by exact H1.
  unfold bind at 1. rewrite (lift_call_returns _ l1 H1'). cbn [negb].
  rewrite Ha, Hd.
  assert (X : lift_world (execute_resource_action svc (LogicalResourceId c) ACTION_CREATE)
                (set_env e1 l1)
              = (match res with Returns v => Ok v | Raises e => Raise e end,
                 after_action j (LogicalResourceId c) ACTION_CREATE e2 l)).
  { unfold lift_world, execute_resource_action, log_call, bind, modify, lift_env, call.
    cbn [set_env l_world env calls]. rewrite H2. now destruct res. }
  unfold bind at 1. rewrite X. now destruct res.
Qed.

(** The body of the loop on an Add change whose resource is deployed: the
    change is deleted from the list and the resource gets the status of a
    completed action.  The state is the one that the four questions about
    the resource left: nothing else has run. *)
Lemma handle_change_add_deployed j c r e1 e2 e3 e4 (l : Loop Ext) :
  nth_error (l_changes l) j = Some c ->
  Action c = Add ->
  get_by (LogicalResourceId c) (resources (existing (env (l_world l)))) = Some r ->
  evaluate_resource_condition svc (LogicalResourceId c) (env (l_world l))
    = (Returns true, e1) ->
  resolve_refs_recursively svc (LogicalResourceId c) e1 = (Returns tt, e2) ->
  is_deployable_resource svc (LogicalResourceId c) e2 = (Returns true, e3) ->
  is_deployed svc (LogicalResourceId c) e3 = (Returns true, e4) ->
  handle_change svc j l
  = (Ok Dropped,
     {| l_world :=
          {| env := upd_existing
                      (set_resource_status (LogicalResourceId c)
                         (get_action_name_for_resource_change svc Add ++ "_COMPLETE")
                         VNone) e4;
             calls := calls (l_world l) |};
        l_changes := list_delete j (list_update j (set__deployed (Some true)) (l_changes l));
        l_changes_done := l_changes_done l;
        l_passes := l_passes l |}).
Proof.
  intros Hc Ha Hr H1 H2 H3 H4.
  assert (P : prepare_should_deploy_change svc (LogicalResourceId c) j l
              = (Ok (Some false),
                 set_l_changes (list_update j (set__deployed (Some true)) (l_changes l))
                   (set_env e4 l))).
  { unfold prepare_should_deploy_change.
    unfold bind at 1. rewrite (the_resource_found _ l Hr).
    unfold bind at 1. rewrite (change_at_found _ l Hc).
    unfold bind at 1. rewrite (lift_call_returns _ l H1). cbn [negb].
    unfold bind at 1. rewrite (lift_call_returns _ (set_env e1 l) H2).
    rewrite Ha.
    unfold bind at 1. rewrite (lift_call_returns _ (set_env e2 (set_env e1 l)) H3).
    cbn [negb].
    unfold bind at 1.
    rewrite (lift_call_returns _ (set_env e3 (set_env e2 (set_env e1 l))) H4).
    reflexivity. }
  unfold handle_change, try_dependency.
  unfold bind at 1. rewrite (change_at_found _ l Hc). rewrite Ha.
  unfold bind at 1. rewrite (the_resource_found _ l Hr).
  unfold bind at 1. rewrite P. reflexivity.
Qed.

(** C10.  For a Modify change [c = changes[j]] whose resource exists, has a
    true condition and is reported as not deployed,
    [prepare_should_deploy_change] records [_deployed = False] in the change
    and answers [True].  [apply_change] on a Modify change that carries
    [_deployed = False] (condition true) runs the create action of the
    resource, not its update: the create action works on the state that the
    condition left, its result and the state it leaves go on to
    [update_resource_details], and its exception, if it raises, is the one
    of [apply_change].  For an Add change whose resource is deployable and
    reported as deployed, the body of the loop drops the change from the
    list and marks the resource as complete; no create, update or delete
    action runs, the state is the one that the condition, the evaluator,
    [is_deployable_resource] and [is_deployed] left. *)
Theorem modify_of_undeployed_creates_add_of_deployed_drops :
  (forall j c r e1 e2 e3 (l : Loop Ext),
     nth_error (l_changes l) j = Some c ->
     Action c = Modify ->
     get_by (LogicalResourceId c) (resources (existing (env (l_world l)))) = Some r ->
     evaluate_resource_condition svc (LogicalResourceId c) (env (l_world l))
       = (Returns true, e1) ->
     resolve_refs_recursively svc (LogicalResourceId c) e1 = (Returns tt, e2) ->
     is_deployed svc (LogicalResourceId c) e2 = (Returns false, e3) ->
     prepare_should_deploy_change svc (LogicalResourceId c) j l
     = (Ok (Some true),
        set_l_changes (list_update j (set__deployed (Some false)) (l_changes l))
          (set_env e3 l)))
  /\
  (forall j c r e1 e2 res (l : Loop Ext),
     nth_error (l_changes l) j = Some c ->
     Action c = Modify ->
     _deployed c = Some false ->
     get_by (LogicalResourceId c) (resources (existing (env (l_world l)))) = Some r ->
     evaluate_resource_condition svc (LogicalResourceId c) (env (l_world l))
       = (Returns true, e1) ->
     run_resource_action svc (LogicalResourceId c) ACTION_CREATE e1 = (res, e2) ->
     apply_change svc j l
     = match res with
       | Returns result =>
           bind (lift_world (update_resource_details svc (LogicalResourceId c) result
                               (get_action_name_for_resource_change svc Modify)))
                (fun _ => ret result)
                (after_action j (LogicalResourceId c) ACTION_CREATE e2 l)
       | Raises e => (Raise e, after_action j (LogicalResourceId c) ACTION_CREATE e2 l)
       end)
  /\
  (forall j c r e1 e2 e3 e4 (l : Loop Ext),
     nth_error (l_changes l) j = Some c ->
     Action c = Add ->
     get_by (LogicalResourceId c) (resources (existing (env (l_world l)))) = Some r ->
     evaluate_resource_condition svc (LogicalResourceId c) (env (l_world l))
       = (Returns true, e1) ->
     resolve_refs_recursively svc (LogicalResourceId c) e1 = (Returns tt, e2) ->
     is_deployable_resource svc (LogicalResourceId c) e2 = (Returns true, e3) ->
     is_deployed svc (LogicalResourceId c) e3 = (Returns true, e4) ->
     handle_change svc j l
     = (Ok Dropped,
        {| l_world :=
             {| env := upd_existing
                         (set_resource_status (LogicalResourceId c)
                            (get_action_name_for_resource_change svc Add ++ "_COMPLETE")
                            VNone) e4;
                calls := calls (l_world l) |};
           l_changes :=
             list_delete j (list_update j (set__deployed (Some true)) (l_changes l));
           l_changes_done := l_changes_done l;
           l_passes := l_passes l |})).
Proof.
  split; [|split].
  - intros. eapply prepare_modify_undeployed; eauto.
  - intros. eapply apply_change_modify_undeployed; eauto.
  - intros. eapply handle_change_add_deployed; eauto.
Qed.

(** X7.  A physical resource id, once assigned, is stable:
    [update_resource_details] on a resource that has one returns it, for an
    update as for a creation, whatever [determine_resource_physical_id]
    would answer.  The resource itself is left as it is; the one change to
    the stack is the call of [set_resource_status] with the status
    [<action>_COMPLETE] and that id.  The other stack, the back-ends and the
    record of the resource actions stay as they are. *)
Theorem physical_resource_id_is_stable (key action : string) (result p : Value)
    (resource : Resource) (w : World Ext) :
  dict_get key (resources (existing (env w))) = Some resource ->
  dict_get "PhysicalResourceId" resource = Some p ->
  truthy p = true ->
  exists w',
    update_resource_details svc (VStr key) result action w = (Ok p, w') /\
    template_Resources (existing (env w')) = template_Resources (existing (env w)) /\
    existing (env w')
      = set_resource_status (VStr key) (action ++ "_COMPLETE") p (existing (env w)) /\
    other (env w') = other (env w) /\
    ext (env w') = ext (env w) /\
    calls w' = calls w.
Proof.
  intros G P T.
  assert (R : the_resource (VStr key) w = (Ok resource, w)).
  { unfold the_resource. erewrite bind_ok by reflexivity. cbn [get_by]. now rewrite G. }
  unfold update_resource_details.
  erewrite bind_ok by exact R.
  unfold getv at 1 2. rewrite P, T.
  erewrite bind_ok by reflexivity.
  erewrite bind_ok by exact R.
  unfold getv. rewrite P, T. cbn [negb orb].
  assert (W : forall k : unit -> M (World Ext) Value,
            bind (if ((action =? "UPDATE") && true)%bool
                  then lift_env (write_resource Old key
                                   (dict_set "PhysicalResourceId" p resource))
                  else ret tt) k w = k tt w).
  { intros k. destruct (action =? "UPDATE"); cbn [andb]; [|reflexivity].
    erewrite bind_ok; [reflexivity|].
    unfold lift_env, write_resource, modify, upd_stack, upd_existing.
    rewrite (dict_set_same _ _ P).
    unfold resources in G. rewrite (dict_set_same _ _ G).
    destruct w as [[ex ot x] cs]. now destruct ex. }
  rewrite W.
  erewrite bind_ok by reflexivity.
  eexists. split; [reflexivity|].
  cbn [env calls]. unfold upd_existing. cbn [existing other ext].
  repeat split.
Qed.

(* ---------------------------- *)
(** *** The changes of the loop are the planned ones *)

Section Kept.

Variable X : Type.
Variable view : list (ResourceChange) -> X.

Lemma lists_kept_ret A (a : A) : lists_kept view (ret (S := Loop Ext) a).
Proof. intros l. now split. Qed.

Lemma lists_kept_raise A e : lists_kept view (raise (S := Loop Ext) (A := A) e).
Proof. intros l. now split. Qed.

Lemma lists_kept_get : lists_kept view (get (S := Loop Ext)).
Proof. intros l. now split. Qed.

Lemma lists_kept_of_option A (o : option A) e :
  lists_kept view (of_option (S := Loop Ext) o e).
Proof. destruct o; [apply lists_kept_ret|apply lists_kept_raise]. Qed.

Lemma lists_kept_bind A B (m : M (Loop Ext) A) (k : A -> M (Loop Ext) B) :
  lists_kept view m -> (forall a, lists_kept view (k a)) -> lists_kept view (bind m k).
Proof.
  intros Hm Hk l. unfold bind. destruct (Hm l) as (L & D).
  destruct (m l) as [[a|e|] l1]; cbn [snd] in *; try (now split).
  destruct (Hk a l1) as (L' & D'). split; congruence.
Qed.

Lemma lists_kept_lift_world A (m : M (World Ext) A) : lists_kept view (lift_world m).
Proof.
  intros l. unfold lift_world. destruct (m (l_world l)). now split.
Qed.

Lemma lists_kept_change_at j : lists_kept view (change_at (Ext := Ext) j).
Proof.
  unfold change_at. apply lists_kept_bind; [apply lists_kept_get|].
  intros l. apply lists_kept_of_option.
Qed.

End Kept.

Lemma map_as_planned_update j d (xs : list ResourceChange) :
  map as_planned (list_update j (set__deployed d) xs) = map as_planned xs.
Proof.
  revert j; induction xs as [|x xs IH]; intros [|j]; cbn [list_update map];
    try reflexivity.
  now rewrite IH.
Qed.

Lemma lists_kept_update_change j d :
  lists_kept (map as_planned) (update_change (Ext := Ext) j (set__deployed d)).
Proof. intros l. split; [apply map_as_planned_update|reflexivity]. Qed.

Ltac kept_step :=
  first
    [ apply lists_kept_ret | apply lists_kept_raise | apply lists_kept_get
    | apply lists_kept_of_option | apply lists_kept_update_change
    | apply lists_kept_change_at | apply lists_kept_lift_world
    | apply lists_kept_bind; [|intros]
    | match goal with
      | |- lists_kept _ (if ?b then _ else _) => destruct b
      | |- lists_kept _ (match ?x with _ => _ end) => destruct x
      end ].

Lemma lists_kept_prepare rid j :
  lists_kept (map as_planned) (prepare_should_deploy_change svc rid j).
Proof. unfold prepare_should_deploy_change. repeat kept_step. Qed.

Lemma lists_kept_apply_change j : lists_kept (map as_planned) (apply_change svc j).
Proof. unfold apply_change. repeat kept_step. Qed.

(** After [apply_change] the change has no mark. *)
Lemma nth_error_list_update A j (f : A -> A) (xs : list A) :
  nth_error (list_update j f xs) j = option_map f (nth_error xs j).
Proof.
  revert j; induction xs as [|x xs IH]; intros [|j]; cbn; auto.
Qed.

Lemma apply_change_unmarks j (l l1 : Loop Ext) v c :
  apply_change svc j l = (Ok v, l1) ->
  nth_error (l_changes l1) j = Some c ->
  _deployed c = None.
Proof.
  unfold apply_change, change_at. unfold bind at 1 2. unfold get at 1.
  destruct (nth_error (l_changes l) j) as [c0|] eqn:E; cbn [of_option ret raise];
    [|discriminate].
  unfold bind at 1.
  destruct (lift_world (the_resource (LogicalResourceId c0)) l) as [[r|e|] l0] eqn:R;
    try discriminate.
  pose proof (@lists_kept_lift_world _ (fun x => x) _
                (the_resource (LogicalResourceId c0)) l) as [K _].
  rewrite R in K. cbn [snd] in K.
  unfold bind at 1. unfold update_change at 1. cbn [modify].
  set (l2 := set_l_changes _ l0).
  set (rest := bind _ _).
  assert (KR : lists_kept (fun x => x) rest).
  { subst rest. repeat kept_step. }
  intros H. destruct (KR l2) as [K2 _]. rewrite H in K2. cbn [snd] in K2.
  rewrite K2. subst l2. cbn [l_changes set_l_changes]. rewrite K.
  rewrite nth_error_list_update, E. cbn. now intros [= <-].
Qed.

Lemma accounted_refl (l : Loop Ext) : accounted l l.
Proof. exists []. now rewrite app_nil_r. Qed.

Lemma accounted_trans (l1 l2 l3 : Loop Ext) :
  accounted l1 l2 -> accounted l2 l3 -> accounted l1 l3.
Proof.
  intros [d1 P1] [d2 P2]. exists (d2 ++ d1).
  rewrite app_assoc. now rewrite P2.
Qed.

Lemma kept_is_accounted (l l1 : Loop Ext) :
  map as_planned (l_changes l1) = map as_planned (l_changes l) ->
  l_changes_done l1 = l_changes_done l ->
  accounted l l1 /\
  (Forall (fun c => _deployed c = None) (l_changes_done l) ->
   Forall (fun c => _deployed c = None) (l_changes_done l1)).
Proof.
  intros L D. split.
  - exists []. rewrite app_nil_r, !map_app, L, D. reflexivity.
  - now rewrite D.
Qed.

Lemma accounts_of_kept A (m : M (Loop Ext) A) :
  lists_kept (map as_planned) m -> accounts m.
Proof. intros H l. destruct (H l) as [L D]. now apply kept_is_accounted. Qed.

Lemma accounts_bind A B (m : M (Loop Ext) A) (k : A -> M (Loop Ext) B) :
  accounts m -> (forall a, accounts (k a)) -> accounts (bind m k).
Proof.
  intros Hm Hk l. unfold bind. destruct (Hm l) as [P F].
  destruct (m l) as [[a|e|] l1]; cbn [snd] in *; try (now split).
  destruct (Hk a l1) as [P' F']. split; [|auto].
  eapply accounted_trans; eassumption.
Qed.

Lemma list_delete_perm A j (xs : list A) :
  exists d, Permutation (list_delete j xs ++ d) xs.
Proof.
  revert j; induction xs as [|x xs IH]; intros j.
  - exists []. destruct j; reflexivity.
  - destruct j as [|j]; cbn [list_delete].
    + exists [x]. rewrite Permutation_app_comm. reflexivity.
    + destruct (IH j) as [d P]. exists d. cbn. now rewrite P.
Qed.

Lemma list_delete_nth A j (xs : list A) c :
  nth_error xs j = Some c -> Permutation (list_delete j xs ++ [c]) xs.
Proof.
  revert j; induction xs as [|x xs IH]; intros [|j]; cbn [nth_error list_delete];
    try discriminate.
  - intros [= ->]. rewrite Permutation_app_comm. reflexivity.
  - intros H. cbn. now rewrite IH.
Qed.

Lemma map_list_delete A B (f : A -> B) j (xs : list A) :
  map f (list_delete j xs) = list_delete j (map f xs).
Proof.
  revert j; induction xs as [|x xs IH]; intros [|j]; cbn; auto. now rewrite IH.
Qed.

Lemma accounts_del_change j : accounts (del_change (Ext := Ext) j).
Proof.
  intros l. unfold del_change, modify. cbn [snd]. unfold set_l_changes.
  split; [|auto].
  destruct (list_delete_perm j (map as_planned (l_changes l))) as [d P].
  exists d. cbn [l_changes l_changes_done]. rewrite !map_app, map_list_delete.
  rewrite <- P at 2. rewrite <- !app_assoc.
  apply Permutation_app_head, Permutation_app_comm.
Qed.

Lemma accounts_apply_and_record j : accounts (apply_and_record svc j).
Proof.
  intros l.
  destruct (lists_kept_apply_change j l) as [L D].
  unfold apply_and_record, change_at, del_change.
  unfold bind, get, of_option, modify, ret.
  destruct (apply_change svc j l) as [[v|e|] l1] eqn:R; cbn [snd] in L, D;
    cbv beta iota; try (now apply kept_is_accounted).
  destruct (nth_error (l_changes l1) j) as [c|] eqn:E; cbn [snd raise];
    [|now apply kept_is_accounted].
  unfold set_l_changes. cbn [l_changes l_changes_done]. split.
  - exists []. cbn [l_changes l_changes_done].
    rewrite app_nil_r, !map_app, <- L, D. cbn [map].
    rewrite (Permutation_app_comm (map as_planned (l_changes_done l))), app_assoc.
    apply Permutation_app_tail. rewrite map_list_delete.
    apply list_delete_nth. now rewrite nth_error_map, E.
  - rewrite D. intros F.
    apply Forall_app. split; [exact F|]. constructor; [|constructor].
    eapply apply_change_unmarks; eassumption.
Qed.

Lemma accounts_try_dependency A (m h : M (Loop Ext) A) :
  accounts m -> accounts h -> accounts (try_dependency m h).
Proof.
  intros Hm Hh l. unfold try_dependency. destruct (Hm l) as [P F].
  destruct (m l) as [[a|e|] l1]; cbn [snd] in *; try (now split).
  destruct e; try (now split).
  destruct (Hh l1) as [P' F']. split; [|auto].
  eapply accounted_trans; eassumption.
Qed.

Ltac accounts_step :=
  first
    [ apply accounts_apply_and_record
    | apply accounts_del_change
    | apply accounts_of_kept; repeat kept_step; fail
    | apply accounts_of_kept, lists_kept_prepare
    | apply accounts_bind; [|intros]
    | match goal with
      | |- accounts (if ?b then _ else _) => destruct b
      | |- accounts (match ?x with _ => _ end) => destruct x
      end ].

Lemma accounts_handle_change j : accounts (handle_change svc j).
Proof.
  unfold handle_change. apply accounts_try_dependency; repeat accounts_step.
Qed.

Lemma accounts_while_changes fuel : forall j updated,
  accounts (while_changes svc fuel j updated).
Proof.
  induction fuel as [|fuel IH]; intros j updated l.
  - split; [apply accounted_refl|auto].
  - revert l. cbn [while_changes]. repeat accounts_step.
    + apply accounts_handle_change.
    + apply IH.
    + apply IH.
    + apply IH.
Qed.

Lemma accounts_one_pass : accounts (one_pass svc).
Proof.
  unfold one_pass. apply accounts_bind; [|intros].
  - intros l. now apply kept_is_accounted.
  - apply accounts_bind; [repeat accounts_step|intros].
    apply accounts_while_changes.
Qed.

Lemma accounts_deployment_passes n : accounts (deployment_passes svc n).
Proof.
  induction n as [|n IH]; cbn [deployment_passes]; [repeat accounts_step|].
  apply accounts_bind; [apply accounts_one_pass|intros].
  apply accounts_bind; [repeat accounts_step|intros l].
  destruct (l_changes l); [repeat accounts_step|].
  destruct (negb a); [repeat accounts_step|apply IH].
Qed.

(** X8.  The changes that [do_apply_changes_in_loop] returns as done are
    planned changes, each of them at most once: the list is, up to the
    order, a part of the list [changes] it was given, the mark [_deployed]
    aside, which no change that is done carries any more. *)
Theorem changes_done_are_planned_changes (cs done : list ResourceChange)
    (w w' : World Ext) :
  do_apply_changes_in_loop svc cs w = (Ok done, w') ->
  Forall (fun c => _deployed c = None) done /\
  exists rest, Permutation (done ++ rest) (map as_planned cs).
Proof.
  unfold do_apply_changes_in_loop.
  unfold bind at 1 2. unfold get at 1.
  destruct (for_each _ _ w) as [[[]|e|] w1]; try discriminate.
  unfold bind at 1. unfold with_loop at 1.
  set (l0 := {| l_world := w1; l_changes := cs; l_changes_done := []; l_passes := 0 |}).
  destruct (accounts_deployment_passes max_iters l0) as [[dropped P] F].
  destruct (deployment_passes svc max_iters l0) as [[[]|e|] l1]; try discriminate.
  cbn [snd] in *.
  intros H.
  assert (D : done = l_changes_done l1).
  { revert H. unfold bind at 1.
    destruct (for_each _ _ _) as [[[]|e|] w2]; try discriminate.
    unfold bind at 1.
    destruct (lift_env _ _) as [[outs|e|] w3]; try discriminate.
    unfold bind at 1.
    destruct (lift_env _ _) as [[[]|e|] w4]; try discriminate.
    now intros [= <- _]. }
  subst done. specialize (F (Forall_nil _)). split; [exact F|].
  exists (map as_planned (l_changes l1) ++ dropped).
  subst l0. cbn [l_changes l_changes_done] in P. rewrite app_nil_r in P.
  rewrite <- P, map_app.
  assert (I : map as_planned (l_changes_done l1) = l_changes_done l1).
  { clear -F. induction F as [|c cs' Hc _ IH]; [reflexivity|].
    cbn [map]. rewrite IH. f_equal. destruct c; cbn in *. now subst. }
  rewrite I, !app_assoc. apply Permutation_app_tail, Permutation_app_comm.
Qed.


End LoopFacts.

Lemma deployment_loop_terminates_witness :
  let cs := [ Engine.planned_change Engine.Add Fixtures.topic;
              Engine.planned_change Engine.Add (Fixtures.queue 30) ] in
  let l0 := {| Engine.l_world := Fixtures.world_of Fixtures.topic_then_queue [];
               Engine.l_changes := cs;
               Engine.l_changes_done := []; Engine.l_passes := 0 |} in
  Engine.l_passes (snd (Engine.deployment_passes Fixtures.demo_services
                          Engine.max_iters l0)) = 2 /\
  fst (Engine.deployment_passes Fixtures.demo_services Engine.max_iters l0)
    <> Exc.OutOfFuel /\
  Engine.l_passes (snd (Engine.deployment_passes Fixtures.demo_services
                          Engine.max_iters l0)) <= 30.
Proof.
  intros cs l0. split; [reflexivity|].
  pose proof (proj1 (deployment_loop_terminates Fixtures.demo_services cs
                       (Fixtures.world_of Fixtures.topic_then_queue []))) as H.
  split; [exact (proj1 H)|exact (proj1 (proj2 H))].
Defined.

(** The claim as it is stated does not hold: the Add change of a queue
    that is deployed is dropped, and no create, update or delete action is
    started, but not without a call to the service: [is_deployed] has
    fetched the state of the queue. *)
Lemma add_of_deployed_resource_asks_the_service :
  let l := Fixtures.loop_on_deployed_queue in
  let l' := snd (Engine.handle_change Fixtures.asking_services 0 l) in
  fst (Engine.handle_change Fixtures.asking_services 0 l) = Exc.Ok Engine.Dropped /\
  Engine.l_changes l' = [] /\
  Engine.calls (Engine.l_world l') = [] /\
  Fixtures.asked (Engine.ext (Engine.env (Engine.l_world l))) = [] /\
  Fixtures.asked (Engine.ext (Engine.env (Engine.l_world l'))) = ["Queue"].
Proof. repeat split. Qed.

Lemma modify_of_undeployed_creates_add_of_deployed_drops_witness :
  (let l := Fixtures.loop_with (Fixtures.queue_change Engine.Modify (Some false)) [] in
   fst (Engine.apply_change Fixtures.demo_services 0 l) = Exc.Ok Py.VNone /\
   Engine.ext (Engine.env (Engine.l_world
     (snd (Engine.apply_change Fixtures.demo_services 0 l)))) = ["Queue"])
  /\
  (let l := Fixtures.loop_with (Fixtures.queue_change Engine.Add None) ["Queue"] in
   fst (Engine.handle_change Fixtures.demo_services 0 l) = Exc.Ok Engine.Dropped /\
   Engine.ext (Engine.env (Engine.l_world
     (snd (Engine.handle_change Fixtures.demo_services 0 l)))) = ["Queue"] /\
   Engine.l_changes (snd (Engine.handle_change Fixtures.demo_services 0 l)) = []).
Proof.
  split; intros l.
  - rewrite (proj1 (proj2 (modify_of_undeployed_creates_add_of_deployed_drops
                             Fixtures.demo_services))
               0 (Fixtures.queue_change Engine.Modify (Some false))
               (Fixtures.queue 30) (Engine.env (Engine.l_world l))
               (Fixtures.set_backend ["Queue"] (Engine.env (Engine.l_world l)))
               (Exc.Returns Py.VNone) l
               eq_refl eq_refl eq_refl eq_refl eq_refl eq_refl).
    split; reflexivity.
  - rewrite (proj2 (proj2 (modify_of_undeployed_creates_add_of_deployed_drops
                             Fixtures.demo_services))
               0 (Fixtures.queue_change Engine.Add None)
               (Fixtures.queue 30) (Engine.env (Engine.l_world l))
               (Engine.env (Engine.l_world l)) (Engine.env (Engine.l_world l))
               (Engine.env (Engine.l_world l)) l
               eq_refl eq_refl eq_refl eq_refl eq_refl eq_refl eq_refl).
    repeat split.
Defined.

(* ------------------------------------------------------------------ *)
(** ** Stack controller *)

Section ControllerFacts.

Import Py Exc Engine.

Variable Ext : Type.
Variable ssm : Value -> Value -> Call Ext Value.
Variable svc : Services Ext.

Lemma append_inj_l (a b c : string) : (a ++ b)%string = (a ++ c)%string -> b = c.
Proof. induction a; simpl; [auto|]. intros [= H]. auto. Qed.

Lemma failed_is_not_complete (action : string) :
  (action ++ "_FAILED")%string <> (action ++ "_COMPLETE")%string.
Proof. intros H. apply append_inj_l in H. discriminate. Qed.

Lemma status_upd_new (w : Env Ext) (f : Stack -> Stack) :
  (forall s, status (f s) = status s) ->
  status (existing (upd_new f w)) = status (existing w).
Proof. intros H. destruct w as [ex [ot|] x]; simpl; auto. Qed.

(** What the worker thread leaves behind: [_run] never raises, and the
    stack status it sets tells whether the loop raised. *)
Lemma run_sets_status (cs : list ResourceChange) (action : string) (w : World Ext) :
  exists w',
    _run svc cs action w = (Ok tt, w') /\
    calls w' = calls (snd (do_apply_changes_in_loop svc cs w)) /\
    status (existing (env w')) =
      match fst (do_apply_changes_in_loop svc cs w) with
      | Ok _ => (action ++ "_COMPLETE")%string
      | _ => (action ++ "_FAILED")%string
      end.
Proof.
  pose proof (terminates_do_apply_changes_in_loop svc cs w) as T.
  unfold _run. unfold bind at 1. unfold try_except, bind at 1.
  destruct (do_apply_changes_in_loop svc cs w) as [[done|e|] w1]; cbn [fst snd] in *;
    [| |congruence].
  - unfold ret at 1. unfold bind at 1.
    unfold set_stack_status, lift_env, modify at 1. cbv beta iota.
    unfold bind at 1, get at 1. cbv beta iota. cbn [env calls].
    match goal with |- context [if ?b then _ else _] => destruct b end.
    + unfold lift_env, modify. cbn [env calls].
      eexists. split; [reflexivity|]. cbn [env calls]. split; [reflexivity|].
      rewrite status_upd_new by reflexivity. reflexivity.
    + unfold ret. eexists. split; [reflexivity|]. split; reflexivity.
  - unfold ret at 1. unfold bind at 1.
    unfold set_stack_status, lift_env, modify at 1. cbv beta iota.
    unfold bind at 1, get at 1. cbv beta iota. cbn [env calls].
    match goal with |- context [if ?b then _ else _] => destruct b end.
    + unfold lift_env, modify. cbn [env calls].
      eexists. split; [reflexivity|]. cbn [env calls]. split; [reflexivity|].
      rewrite status_upd_new by reflexivity. reflexivity.
    + unfold ret. eexists. split; [reflexivity|]. split; reflexivity.
Qed.

(** [apply_changes] once the diff is made: the loop runs, and the call
    returns whatever the loop did. *)
Lemma apply_changes_after_plan initialize action cs (w0 w1 : World Ext) :
  action <> "" ->
  lift_env (apply_changes_prepare ssm initialize) w0 = (Ok cs, w1) ->
  exists w',
    apply_changes ssm svc initialize action w0 = (Ok tt, w') /\
    status (existing (env w')) =
      match fst (do_apply_changes_in_loop svc cs w1) with
      | Ok _ => (action ++ "_COMPLETE")%string
      | _ => (action ++ "_FAILED")%string
      end.
Proof.
  intros Na P. unfold apply_changes.
  destruct (action =? "") eqn:E; [apply String.eqb_eq in E; congruence|].
  unfold bind at 1. rewrite P. unfold apply_changes_in_loop.
  destruct (run_sets_status cs action w1) as (w' & R & _ & S).
  exists w'. now split.
Qed.

Lemma apply_changes_plan_raises initialize action e (w0 w1 : World Ext) :
  lift_env (apply_changes_prepare ssm initialize) w0 = (Raise e, w1) ->
  apply_changes ssm svc initialize action w0 = (Raise e, w1).
Proof.
  intros P. unfold apply_changes. unfold bind at 1. now rewrite P.
Qed.

Lemma started_run st ns (w : World Ext) :
  bind (set_stack_status st) (fun _ => pass_new_stack ns) w = (Ok tt, started st ns w).
Proof. reflexivity. Qed.

Lemma deploy_stack_after_plan cs (w w1 : World Ext) :
  lift_env (apply_changes_prepare ssm true) (started "CREATE_IN_PROGRESS" None w)
    = (Ok cs, w1) ->
  exists w',
    deploy_stack ssm svc w = (Ok tt, w') /\
    status (existing (env w')) =
      match fst (do_apply_changes_in_loop svc cs w1) with
      | Ok _ => "CREATE_COMPLETE"
      | _ => "CREATE_FAILED"
      end.
Proof.
  intros P.
  destruct (@apply_changes_after_plan true "CREATE" cs _ w1 ltac:(discriminate) P)
    as (w' & A & S).
  exists w'. split; [|exact S].
  unfold deploy_stack.
  erewrite bind_ok by reflexivity.
  apply try_except_ok.
  erewrite bind_ok by reflexivity.
  exact A.
Qed.

Lemma deploy_stack_plan_raises e (w w1 : World Ext) :
  lift_env (apply_changes_prepare ssm true) (started "CREATE_IN_PROGRESS" None w)
    = (Raise e, w1) ->
  exists w',
    deploy_stack ssm svc w = (Raise e, w') /\
    status (existing (env w')) = "CREATE_FAILED".
Proof.
  intros P.
  pose proof (@apply_changes_plan_raises true "CREATE" e _ w1 P) as A.
  unfold deploy_stack.
  erewrite bind_ok by reflexivity.
  erewrite try_except_raise
    by (erewrite bind_ok by reflexivity; exact A).
  eexists. split; [reflexivity|reflexivity].
Qed.

Lemma status_time_attribute name (w : World Ext) :
  status (existing (env (snd (set_time_attribute name w)))) = status (existing (env w)).
Proof. reflexivity. Qed.

Lemma update_stack_after_plan ns cs (w w1 : World Ext) :
  lift_env (apply_changes_prepare ssm false) (started "UPDATE_IN_PROGRESS" (Some ns) w)
    = (Ok cs, w1) ->
  exists w',
    update_stack ssm svc ns w = (Ok tt, w') /\
    status (existing (env w')) =
      match fst (do_apply_changes_in_loop svc cs w1) with
      | Ok _ => "UPDATE_COMPLETE"
      | _ => "UPDATE_FAILED"
      end.
Proof.
  intros P.
  destruct (@apply_changes_after_plan false "UPDATE" cs _ w1 ltac:(discriminate) P)
    as (w' & A & S).
  exists (snd (set_time_attribute "LastUpdatedTime" w')). split.
  - unfold update_stack.
    erewrite bind_ok by reflexivity.
    erewrite bind_ok by reflexivity.
    erewrite bind_ok by exact A.
    reflexivity.
  - rewrite status_time_attribute. exact S.
Qed.

Lemma status_lift_env A (m : M (Env Ext) A) (w : World Ext) :
  keeps_status m ->
  status (existing (env (snd (lift_env m w)))) = status (existing (env w)).
Proof.
  intros K. unfold lift_env. specialize (K (env w)).
  destruct (m (env w)) as [r e]. exact K.
Qed.

Lemma update_stack_plan_raises ns e (w w1 : World Ext) :
  lift_env (apply_changes_prepare ssm false) (started "UPDATE_IN_PROGRESS" (Some ns) w)
    = (Raise e, w1) ->
  update_stack ssm svc ns w = (Raise e, w1) /\
  status (existing (env w1)) = "UPDATE_IN_PROGRESS".
Proof.
  intros P.
  pose proof (@apply_changes_plan_raises false "UPDATE" e _ w1 P) as A.
  split.
  - unfold update_stack.
    erewrite bind_ok by reflexivity.
    erewrite bind_ok by reflexivity.
    erewrite bind_raise by exact A. reflexivity.
  - pose proof (status_lift_env (started "UPDATE_IN_PROGRESS" (Some ns) w)
                  (keeps_apply_changes_prepare ssm false)) as K.
    rewrite P in K. exact K.
Qed.

Lemma change_set_action_cases (w : World Ext) :
  change_set_action w = "UPDATE" \/ change_set_action w = "CREATE".
Proof. unfold change_set_action. destruct (str_in _ _); auto. Qed.

Lemma apply_change_set_after_plan change_set cs (w w1 : World Ext) :
  lift_env (apply_changes_prepare ssm false) (change_set_started change_set w)
    = (Ok cs, w1) ->
  exists w',
    apply_change_set ssm svc change_set w = (Ok tt, w') /\
    status (existing (env w')) =
      match fst (do_apply_changes_in_loop svc cs w1) with
      | Ok _ => (change_set_action w ++ "_COMPLETE")%string
      | _ => (change_set_action w ++ "_FAILED")%string
      end.
Proof.
  intros P.
  assert (Na : change_set_action w <> "")
    by (destruct (change_set_action_cases w) as [E|E]; rewrite E; discriminate).
  destruct (@apply_changes_after_plan false _ cs _ w1 Na P) as (w' & A & S).
  exists w'. split; [|exact S].
  unfold apply_change_set.
  erewrite bind_ok by reflexivity. cbv zeta.
  erewrite bind_ok by reflexivity.
  erewrite bind_ok by reflexivity.
  apply try_except_ok.
  erewrite bind_ok by reflexivity.
  exact A.
Qed.

Lemma apply_change_set_plan_raises change_set e (w w1 : World Ext) :
  lift_env (apply_changes_prepare ssm false) (change_set_started change_set w)
    = (Raise e, w1) ->
  exists w',
    apply_change_set ssm svc change_set w = (Raise e, w') /\
    status (existing (env w')) = (change_set_action w ++ "_FAILED")%string.
Proof.
  intros P.
  pose proof (@apply_changes_plan_raises false (change_set_action w) e _ w1 P) as A.
  unfold apply_change_set.
  erewrite bind_ok by reflexivity. cbv zeta.
  erewrite bind_ok by reflexivity.
  erewrite bind_ok by reflexivity.
  erewrite try_except_raise
    by (erewrite bind_ok by reflexivity; exact A).
  erewrite bind_ok by reflexivity.
  erewrite bind_ok by reflexivity.
  eexists. split; [reflexivity|reflexivity].
Qed.

(** A resource whose deletion raises is left for the next cycle: the [try]
    statement of one resource always comes back normally. *)
Lemma delete_resource_returns resource_id (w : World Ext) :
  exists w', delete_resource svc resource_id w = (Ok tt, w').
Proof.
  unfold delete_resource, try_except.
  match goal with |- context [match ?m w with _ => _ end] =>
    assert (T : terminates m); [|specialize (T w); destruct (m w) as [[[]|e|] w1]]
  end.
  - apply terminates_bind; [apply terminates_lift_env, terminates_call|].
    intros [|]; [|apply terminates_ret].
    apply terminates_bind; [apply terminates_execute_resource_action|].
    intros _. apply terminates_lift_env, terminates_modify.
  - now eexists.
  - now eexists.
  - now elim T.
Qed.

Lemma delete_resources_return (rs : list (string * Resource)) : forall w : World Ext,
  exists w', for_each rs (fun kv => delete_resource svc (fst kv)) w = (Ok tt, w').
Proof.
  induction rs as [|kv rs IH]; intros w; cbn [for_each].
  - now eexists.
  - destruct (delete_resource_returns (fst kv) w) as (w1 & E).
    erewrite bind_ok by exact E. apply IH.
Qed.

Lemma delete_cycles_return n : forall (rs : list (string * Resource)) (w : World Ext),
  exists w', delete_cycles svc n rs w = (Ok tt, w').
Proof.
  induction n as [|n IH]; intros rs w; cbn [delete_cycles].
  - now eexists.
  - erewrite bind_ok by reflexivity.
    destruct (filter _ rs) as [|kv rs'] eqn:F; [now eexists|].
    destruct (delete_resources_return (kv :: rs') w) as (w1 & E).
    erewrite bind_ok by exact E. apply IH.
Qed.

Lemma delete_stack_completes rs (w : World Ext) :
  delete_stack_resources (dict_values (resources (existing (env w)))) = Ok rs ->
  exists w',
    delete_stack svc w = (Ok tt, w') /\
    status (existing (env w')) = "DELETE_COMPLETE".
Proof.
  intros R. unfold delete_stack.
  erewrite bind_ok by reflexivity.
  erewrite bind_ok by reflexivity.
  assert (L : forall s : World Ext,
             lift (delete_stack_resources (dict_values (resources (existing (env w))))) s
             = (Ok rs, s)) by (intros s; unfold lift; now rewrite R).
  erewrite bind_ok by exact (L _).
  destruct (delete_cycles_return max_cycle rs (snd (set_stack_status "DELETE_IN_PROGRESS" w)))
    as (w1 & E).
  erewrite bind_ok by exact E.
  erewrite bind_ok by reflexivity.
  eexists. split; reflexivity.
Qed.

(** C2 (amended).  When the deployment loop raises, [deploy_stack],
    [update_stack] and [apply_change_set] set the stack status to
    [CREATE_FAILED] or [UPDATE_FAILED], which is not the [*_COMPLETE] status
    of the action, but they do not propagate the exception: the worker that
    runs the loop catches it, and the operation returns normally.  What is
    propagated is an exception raised before the loop starts, while the
    diff is made: [deploy_stack] and [apply_change_set] then set the
    [*_FAILED] status and re-raise, [update_stack] re-raises and leaves
    [UPDATE_IN_PROGRESS].  [delete_stack] does not run the loop and has no
    [DELETE_FAILED]: whatever the deletions of the resources raise, it
    returns normally with the status [DELETE_COMPLETE]. *)
Theorem loop_failure_sets_failed_status_without_raising :
  (forall cs e (w w1 : World Ext),
     lift_env (apply_changes_prepare ssm true) (started "CREATE_IN_PROGRESS" None w)
       = (Ok cs, w1) ->
     fst (do_apply_changes_in_loop svc cs w1) = Raise e ->
     exists w',
       deploy_stack ssm svc w = (Ok tt, w') /\
       status (existing (env w')) = "CREATE_FAILED")
  /\
  (forall ns cs e (w w1 : World Ext),
     lift_env (apply_changes_prepare ssm false) (started "UPDATE_IN_PROGRESS" (Some ns) w)
       = (Ok cs, w1) ->
     fst (do_apply_changes_in_loop svc cs w1) = Raise e ->
     exists w',
       update_stack ssm svc ns w = (Ok tt, w') /\
       status (existing (env w')) = "UPDATE_FAILED")
  /\
  (forall change_set cs e (w w1 : World Ext),
     lift_env (apply_changes_prepare ssm false) (change_set_started change_set w)
       = (Ok cs, w1) ->
     fst (do_apply_changes_in_loop svc cs w1) = Raise e ->
     exists w',
       apply_change_set ssm svc change_set w = (Ok tt, w') /\
       status (existing (env w')) = (change_set_action w ++ "_FAILED")%string /\
       status (existing (env w')) <> (change_set_action w ++ "_COMPLETE")%string)
  /\
  (forall e (w w1 : World Ext),
     lift_env (apply_changes_prepare ssm true) (started "CREATE_IN_PROGRESS" None w)
       = (Raise e, w1) ->
     exists w',
       deploy_stack ssm svc w = (Raise e, w') /\
       status (existing (env w')) = "CREATE_FAILED")
  /\
  (forall change_set e (w w1 : World Ext),
     lift_env (apply_changes_prepare ssm false) (change_set_started change_set w)
       = (Raise e, w1) ->
     exists w',
       apply_change_set ssm svc change_set w = (Raise e, w') /\
       status (existing (env w')) = (change_set_action w ++ "_FAILED")%string)
  /\
  (forall ns e (w w1 : World Ext),
     lift_env (apply_changes_prepare ssm false) (started "UPDATE_IN_PROGRESS" (Some ns) w)
       = (Raise e, w1) ->
     update_stack ssm svc ns w = (Raise e, w1) /\
     status (existing (env w1)) = "UPDATE_IN_PROGRESS")
  /\
  (forall rs (w : World Ext),
     delete_stack_resources (dict_values (resources (existing (env w)))) = Ok rs ->
     exists w',
       delete_stack svc w = (Ok tt, w') /\
       status (existing (env w')) = "DELETE_COMPLETE").
Proof.
  split; [|split; [|split; [|split; [|split; [|split]]]]].
  - intros cs e w w1 P L.
    destruct (deploy_stack_after_plan w P) as (w' & D & S).
    rewrite L in S. now exists w'.
  - intros ns cs e w w1 P L.
    destruct (update_stack_after_plan ns w P) as (w' & D & S).
    rewrite L in S. now exists w'.
  - intros change_set cs e w w1 P L.
    destruct (apply_change_set_after_plan change_set w P) as (w' & D & S).
    rewrite L in S. exists w'. split; [exact D|]. split; [exact S|].
    rewrite S. apply failed_is_not_complete.
  - intros e w w1 P. now apply deploy_stack_plan_raises with (w1 := w1).
  - intros change_set e w w1 P.
    now apply apply_change_set_plan_raises with (w1 := w1).
  - intros ns e w w1 P. now apply update_stack_plan_raises.
  - intros rs w R. now apply delete_stack_completes with (rs := rs).
Qed.

(** When the diff of the two stacks holds no Remove, no Add and only
    Modify changes whose configuration does not differ (or no change at
    all), [apply_changes] raises [NoStackUpdates]; it leaves the status of
    the stack as it found it and starts no resource action. *)
Lemma apply_changes_raises_no_updates (w : World Ext) (w3 : Env Ext) (ns : Stack)
    (initialize : bool) (action : string) (cs : list ResourceChange) :
  plan_changes ssm initialize (env w) = (Ok cs, w3) ->
  other w3 = Some ns ->
  NoDup (map LogicalResourceId cs) ->
  (forall c, In c cs -> unchanged_modify ns w3 c) ->
  exists w',
    lift_env (apply_changes_prepare ssm initialize) w = (Raise NoStackUpdates, w') /\
    apply_changes ssm svc initialize action w = (Raise NoStackUpdates, w') /\
    status (existing (env w')) = status (existing (env w)) /\
    calls w' = calls w.
Proof.
  intros P Ho N U.
  destruct (apply_changes_prepare_no_updates ssm (env w) initialize P Ho N U)
    as (e' & E & S).
  assert (L : lift_env (apply_changes_prepare ssm initialize) w
              = (Raise NoStackUpdates, {| env := e'; calls := calls w |})).
  { unfold lift_env. now rewrite E. }
  exists {| env := e'; calls := calls w |}.
  split; [exact L|]. split; [|split; [exact S|reflexivity]].
  now apply apply_changes_plan_raises.
Qed.

(** C3.  When the diff of the two stacks holds no Remove, no Add and only
    Modify changes whose configuration does not differ (or no change at
    all), [apply_changes] raises [NoStackUpdates] before a resource action
    is started, and it leaves the status of the stack as it found it.  That
    status is not the one the stack had before the operation: [update_stack]
    has set [UPDATE_IN_PROGRESS] and lets the exception pass, so the stack
    stays in [UPDATE_IN_PROGRESS]; [apply_change_set] catches the exception,
    sets the [_FAILED] status of its action and raises it again. *)
Theorem no_stack_updates_is_raised_after_the_status_was_set :
  (forall (w : World Ext) (w3 : Env Ext) (ns : Stack) (initialize : bool)
          (action : string) (cs : list ResourceChange),
     plan_changes ssm initialize (env w) = (Ok cs, w3) ->
     other w3 = Some ns ->
     NoDup (map LogicalResourceId cs) ->
     (forall c, In c cs -> unchanged_modify ns w3 c) ->
     exists w',
       apply_changes ssm svc initialize action w = (Raise NoStackUpdates, w') /\
       status (existing (env w')) = status (existing (env w)) /\
       calls w' = calls w) /\
  (forall (w : World Ext) (w3 : Env Ext) (new_stack ns : Stack)
          (cs : list ResourceChange),
     plan_changes ssm false (env (started "UPDATE_IN_PROGRESS" (Some new_stack) w))
       = (Ok cs, w3) ->
     other w3 = Some ns ->
     NoDup (map LogicalResourceId cs) ->
     (forall c, In c cs -> unchanged_modify ns w3 c) ->
     exists w',
       update_stack ssm svc new_stack w = (Raise NoStackUpdates, w') /\
       status (existing (env w')) = "UPDATE_IN_PROGRESS" /\
       calls w' = calls w) /\
  (forall (w : World Ext) (w3 : Env Ext) (change_set ns : Stack)
          (cs : list ResourceChange),
     plan_changes ssm false (env (change_set_started change_set w)) = (Ok cs, w3) ->
     other w3 = Some ns ->
     NoDup (map LogicalResourceId cs) ->
     (forall c, In c cs -> unchanged_modify ns w3 c) ->
     exists w',
       apply_change_set ssm svc change_set w = (Raise NoStackUpdates, w') /\
       status (existing (env w')) = (change_set_action w ++ "_FAILED")%string).
Proof.
  split; [|split].
  - intros w w3 ns initialize action cs P Ho N U.
    destruct (apply_changes_raises_no_updates w initialize action P Ho N U)
      as (w' & _ & A & S & C).
    now exists w'.
  - intros w w3 new_stack ns cs P Ho N U.
    destruct (apply_changes_raises_no_updates _ false "UPDATE" P Ho N U)
      as (w' & L & _ & _ & C).
    destruct (update_stack_plan_raises new_stack w L) as [R S].
    exists w'. split; [exact R|]. split; [exact S|]. exact C.
  - intros w w3 change_set ns cs P Ho N U.
    destruct (apply_changes_raises_no_updates _ false "UPDATE" P Ho N U)
      as (w' & L & _).
    now apply apply_change_set_plan_raises with (w1 := w').
Qed.

End ControllerFacts.


(** The claim as it is stated does not hold: a stack whose second resource
    cannot be created makes the deployment loop raise, and [deploy_stack]
    returns normally; a stack one of whose resources cannot be deleted is
    deleted into [DELETE_COMPLETE], not [DELETE_FAILED]. *)
Lemma deploy_stack_does_not_propagate_loop_failure :
  (exists cs w1,
     Engine.lift_env (Engine.apply_changes_prepare Fixtures.no_ssm_list true)
       (Engine.started "CREATE_IN_PROGRESS" None
          (Fixtures.world_of Fixtures.stack_with_broken []))
       = (Exc.Ok cs, w1) /\
     fst (Engine.do_apply_changes_in_loop Fixtures.demo_services cs w1)
       = Exc.Raise (Exc.ServiceFailure "boom") /\
     fst (Engine.deploy_stack Fixtures.no_ssm_list Fixtures.demo_services
            (Fixtures.world_of Fixtures.stack_with_broken []))
       = Exc.Ok tt)
  /\
  (let w' := snd (Engine.delete_stack Fixtures.demo_services
                    (Fixtures.world_of Fixtures.deployed_with_broken
                       ["Queue"; "Broken"])) in
   Engine.status (Engine.existing (Engine.env w')) = "DELETE_COMPLETE" /\
   Engine.ext (Engine.env w') = ["Broken"] /\
   length (Engine.calls w') = 11).
Proof.
  split.
  - eexists. eexists. split; [vm_compute; reflexivity|].
    split; vm_compute; reflexivity.
  - vm_compute. repeat split.
Qed.

Lemma loop_failure_sets_failed_status_without_raising_witness :
  (exists w',
     Engine.deploy_stack Fixtures.no_ssm_list Fixtures.demo_services
       (Fixtures.world_of Fixtures.stack_with_broken []) = (Exc.Ok tt, w') /\
     Engine.status (Engine.existing (Engine.env w')) = "CREATE_FAILED")
  /\
  (exists w',
     Engine.delete_stack Fixtures.demo_services
       (Fixtures.world_of Fixtures.deployed_with_broken ["Queue"; "Broken"])
       = (Exc.Ok tt, w') /\
     Engine.status (Engine.existing (Engine.env w')) = "DELETE_COMPLETE").
Proof.
  split.
  - eapply (proj1 (loop_failure_sets_failed_status_without_raising
                     Fixtures.no_ssm_list Fixtures.demo_services)).
    + vm_compute. reflexivity.
    + vm_compute. reflexivity.
  - eapply (proj2 (proj2 (proj2 (proj2 (proj2 (proj2
             (loop_failure_sets_failed_status_without_raising
                Fixtures.no_ssm_list Fixtures.demo_services))))))).
    vm_compute. reflexivity.
Defined.

(** The claim as it is stated does not hold: an update of a stack in
    [CREATE_COMPLETE] with the template it was deployed from raises
    [NoStackUpdates] and leaves the stack in [UPDATE_IN_PROGRESS]; the same
    template applied as a change set leaves it in [UPDATE_FAILED]. *)
Lemma update_with_the_same_template_changes_the_status :
  let w := Fixtures.world_of Fixtures.deployed_stack ["Bucket"; "Queue"] in
  Engine.status (Engine.existing (Engine.env w)) = "CREATE_COMPLETE" /\
  (exists w',
     Engine.update_stack Fixtures.no_ssm_list Fixtures.demo_services
       Fixtures.same_stack w = (Exc.Raise Exc.NoStackUpdates, w') /\
     Engine.status (Engine.existing (Engine.env w')) = "UPDATE_IN_PROGRESS") /\
  (exists w',
     Engine.apply_change_set Fixtures.no_ssm_list Fixtures.demo_services
       Fixtures.same_stack w = (Exc.Raise Exc.NoStackUpdates, w') /\
     Engine.status (Engine.existing (Engine.env w')) = "UPDATE_FAILED").
Proof.
  intros w. split; [reflexivity|].
  split; eexists; (split; [vm_compute; reflexivity|reflexivity]).
Qed.

Lemma no_stack_updates_is_raised_after_the_status_was_set_witness :
  let w := Fixtures.world_of Fixtures.deployed_stack ["Bucket"; "Queue"] in
  (exists w',
     Engine.apply_changes Fixtures.no_ssm_list Fixtures.demo_services false "UPDATE"
       Fixtures.world_no_update = (Exc.Raise Exc.NoStackUpdates, w') /\
     Engine.status (Engine.existing (Engine.env w')) = "CREATE_COMPLETE" /\
     Engine.calls w' = []) /\
  (exists w',
     Engine.update_stack Fixtures.no_ssm_list Fixtures.demo_services
       Fixtures.same_stack w = (Exc.Raise Exc.NoStackUpdates, w') /\
     Engine.status (Engine.existing (Engine.env w')) = "UPDATE_IN_PROGRESS" /\
     Engine.calls w' = []) /\
  (exists w',
     Engine.apply_change_set Fixtures.no_ssm_list Fixtures.demo_services
       Fixtures.same_stack w = (Exc.Raise Exc.NoStackUpdates, w') /\
     Engine.status (Engine.existing (Engine.env w')) = "UPDATE_FAILED").
Proof.
  intros w.
  split; [|split].
  - eapply (proj1 (no_stack_updates_is_raised_after_the_status_was_set
                     Fixtures.no_ssm_list Fixtures.demo_services)
              Fixtures.world_no_update _ Fixtures.same_stack).
    + vm_compute. reflexivity.
    + reflexivity.
    + repeat constructor; simpl; intuition discriminate.
    + intros c [<-|[<-|[]]]; (split; [reflexivity|]).
      * exists "Bucket", Fixtures.bucket. repeat split; reflexivity.
      * exists "Queue", (Fixtures.queue 30). repeat split; reflexivity.
  - eapply (proj1 (proj2 (no_stack_updates_is_raised_after_the_status_was_set
                            Fixtures.no_ssm_list Fixtures.demo_services))
              w _ Fixtures.same_stack Fixtures.same_stack).
    + vm_compute. reflexivity.
    + reflexivity.
    + repeat constructor; simpl; intuition discriminate.
    + intros c [<-|[<-|[]]]; (split; [reflexivity|]).
      * exists "Bucket", Fixtures.bucket. repeat split; reflexivity.
      * exists "Queue", (Fixtures.queue 30). repeat split; reflexivity.
  - eapply (proj2 (proj2 (no_stack_updates_is_raised_after_the_status_was_set
                            Fixtures.no_ssm_list Fixtures.demo_services))
              w _ Fixtures.same_stack Fixtures.same_stack).
    + vm_compute. reflexivity.
    + reflexivity.
    + repeat constructor; simpl; intuition discriminate.
    + intros c [<-|[<-|[]]]; (split; [reflexivity|]).
      * exists "Bucket", Fixtures.bucket. repeat split; reflexivity.
      * exists "Queue", (Fixtures.queue 30). repeat split; reflexivity.
Defined.

(* ------------------------------------------------------------------ *)
(** ** The Route 53 record-set provider *)

Section Route53Facts.

Import Py Exc Route53.

Variable Backend : Type.
Variable list_hosted_zones_by_name : Value -> M Backend (list Dict).
Variable change_resource_record_sets : ChangeRequest -> M Backend unit.
Variable py_int : string -> option Z.

Local Abbreviation create := (create list_hosted_zones_by_name change_resource_record_sets py_int).
Local Abbreviation zone_id_from_name := (get_hosted_zone_id_from_name list_hosted_zones_by_name).









End Route53Facts.

(** C9.  A record set that supplies the two required properties, [Name]
    and [Type], and the name of its zone, which exactly one hosted zone
    bears, is not created: [create] resolves the zone, then raises
    [KeyError] on [attrs["ResourceRecords"]] and issues no
    [change_resource_record_sets] call. *)
Theorem create_of_name_only_record_raises :
  Py.dict_keys Fixtures.record_name_only = ["Name"; "Type"; "HostedZoneName"] /\
  fst (Fixtures.zones_by_name (Py.VStr "example.com.")
         (Route53.backend Fixtures.one_zone))
    = Exc.Ok [[("Name", Py.VStr "example.com."); ("Id", Py.VStr "Z123")]] /\
  Route53.create Fixtures.zones_by_name Fixtures.accept_change Fixtures.decimal
    Fixtures.record_name_only Fixtures.one_zone
    = (Exc.Raise (Exc.KeyError "ResourceRecords"), Fixtures.one_zone) /\
  Route53.requests Fixtures.one_zone = [].
Proof. repeat split. Qed.


(* ------------------------------------------------------------------ *)
(** ** Intrinsic evaluator *)

Section EvaluatorFacts.

Import Py Exc Evaluator.

Variable Ext : Type.
Variable resolve_ref : Value -> Value -> Call Ext Value.
Variable resources : Ext -> Dict.
Variable ModelClass : Type.
Variable RESOURCE_MODELS : string -> option ModelClass.
Variable get_cfn_attribute : ModelClass -> Value -> Value -> Value -> Call Ext Value.
Variable exports_map : Call Ext Value.
Variable get_region : Call Ext Value.
Variable apigateway_port : Z.
Variable ssm_get_parameter : string -> bool -> Call Ext Value.
Variable get_secret_value : string -> option string -> option string -> Call Ext Value.
Variable json_loads : string -> Result Value.
Variable b64encode : string -> string.
Variable py_int : string -> option Z.
Variable repr : Value -> string.

Local Abbreviation resolve :=
  (resolve_refs_recursively resolve_ref resources RESOURCE_MODELS get_cfn_attribute
     exports_map get_region apigateway_port ssm_get_parameter get_secret_value
     json_loads b64encode py_int repr).
Local Abbreviation operators_of :=
  (special_operators resolve_ref resources RESOURCE_MODELS get_cfn_attribute
     exports_map get_region b64encode py_int repr).
Local Abbreviation patch :=
  (patch_result (Ext := Ext) apigateway_port ssm_get_parameter get_secret_value
     json_loads).

Lemma resolve_unfold (depth : nat) (s : St Ext) :
  resolve (S depth) s
  = bind (_resolve_refs_recursively resolve_ref resources RESOURCE_MODELS
            get_cfn_attribute exports_map get_region b64encode py_int repr
            (resolve depth)
            (resolve_fresh resolve_ref resources RESOURCE_MODELS get_cfn_attribute
               exports_map get_region apigateway_port ssm_get_parameter
               get_secret_value json_loads b64encode py_int repr depth))
         patch s.
Proof. reflexivity. Qed.

(** The patches leave alone what is no string, and a string that is not
    [patched]. *)
Lemma patch_result_settled (v : Value) (s : St Ext) :
  match v with VStr text => patched text = false | _ => True end ->
  patch v s = (Ok v, s).
Proof.
  destruct v as [| | |text| |]; try reflexivity.
  unfold patched, patch_result. intros H.
  destruct (Regex.re_match REGEX_OUTPUT_APIGATEWAY text); [discriminate|].
  destruct (Regex.re_match REGEX_DYNAMIC_REF text) as [m|]; [|reflexivity].
  cbn [str_in existsb] in H.
  rewrite (String.eqb_sym _ "ssm"), (String.eqb_sym _ "ssm-secure"),
    (String.eqb_sym _ "secretsmanager").
  destruct ("ssm" =? Regex.group 1 m); [discriminate|].
  destruct ("ssm-secure" =? Regex.group 1 m); [discriminate|].
  destruct ("secretsmanager" =? Regex.group 1 m); [discriminate|].
  reflexivity.
Qed.


Lemma zoom_key (A : Type) (key : string) (arg : Value) (m : M (St Ext) A)
    (e : Ext) (r : Result A) (s1 : St Ext) :
  m {| backends := e; value := arg |} = (r, s1) ->
  zoom (Key key) m {| backends := e; value := VDict [(key, arg)] |}
  = (r, {| backends := backends s1; value := VDict [(key, value s1)] |}).
Proof.
  intros H. unfold zoom. cbn [child getitem value backends dict_get].
  rewrite String.eqb_refl, H. cbn [put value dict_set]. now rewrite String.eqb_refl.
Qed.

(** [Fn::ImportValue] on an argument that evaluates to the name [name]. *)
Lemma import_value_operator (key name : string) (rec : M (St Ext) Value)
    (s s1 : St Ext) (exports : Dict) (e2 : Ext) :
  stripped_fn_lower key = "importvalue" ->
  rec s = (Ok (VStr name), s1) ->
  exports_map (backends s1) = (Returns (VDict exports), e2) ->
  no_export_value name exports ->
  operators_of key rec s
  = (Ok (Some VNone), {| backends := e2; value := value s1 |}).
Proof.
  intros F R X N.
  assert (K : (key =? "Ref") = false).
  { destruct (key =? "Ref") eqn:E; [|reflexivity].
    apply String.eqb_eq in E. subst. discriminate F. }
  unfold special_operators. rewrite K, F. cbn [String.eqb Ascii.eqb Bool.eqb orb].
  cbv beta iota.
  erewrite bind_ok by exact R.
  erewrite bind_ok
    by (unfold lift_backends, call; rewrite X; reflexivity).
  cbv beta iota.
  assert (H : exists d, py_or (getv name exports) (VDict []) = VDict d /\
                        truthy (getv "Value" d) = false).
  { unfold py_or, getv at 1 2.
    destruct (dict_get name exports) as [entry|] eqn:G; [|now exists []].
    destruct (N entry G) as [T|(d & -> & T)].
    - rewrite T. now exists [].
    - destruct (truthy (VDict d)); [now exists d|now exists []]. }
  destruct H as (d & -> & T).
  erewrite bind_ok by reflexivity. cbv beta iota. now rewrite T.
Qed.

(** C7.  [Fn::ImportValue] of a name that is not among the exports, or
    whose export has no value, evaluates to [None] and raises nothing:
    whenever the argument of the function evaluates to a string [name] and
    the exports hold no value under [name], the dictionary
    [{"Fn::ImportValue": argument}] evaluates to [None].  The dictionary
    itself is left as the evaluation of its argument left it. *)
Theorem import_value_of_missing_export_is_null (depth : nat) (key name : string)
    (argument : Value) (e e2 : Ext) (s1 : St Ext) (exports : Dict) :
  stripped_fn_lower key = "importvalue" ->
  resolve depth {| backends := e; value := argument |} = (Ok (VStr name), s1) ->
  exports_map (backends s1) = (Returns (VDict exports), e2) ->
  no_export_value name exports ->
  resolve (S depth) {| backends := e; value := VDict [(key, argument)] |}
  = (Ok VNone, {| backends := e2; value := VDict [(key, value s1)] |}).
Proof.
  intros F R X N.
  rewrite resolve_unfold.
  erewrite bind_ok; [apply patch_result_settled; exact I|].
  unfold _resolve_refs_recursively.
  erewrite bind_ok by reflexivity. cbn [value].
  erewrite bind_ok
    by (apply zoom_key; eapply import_value_operator; eassumption).
  reflexivity.
Qed.


Lemma settled_list (l : list Value) :
  settled repr (VList l)
  = match inner_function repr l with Some _ => false | None => true end
    && forallb (settled repr) l.
Proof.
  reflexivity.
Qed.

Lemma settled_dict (d : Dict) :
  settled repr (VDict d)
  = negb (is_operator d) && forallb (fun kv => settled repr (snd kv)) d.
Proof.
  reflexivity.
Qed.

Lemma set_nth_same (A : Type) (l : list A) : forall i x,
  nth_error l i = Some x -> set_nth i x l = l.
Proof.
  induction l as [|y l IH]; intros [|i] x H; cbn in *; try discriminate.
  - now injection H as ->.
  - now rewrite IH.
Qed.

(** No operator applies to a key that is none of the names. *)
Lemma special_operators_none (key : string) (rec : M (St Ext) Value) (s : St Ext) :
  (key =? "Ref") = false ->
  str_in (stripped_fn_lower key) operators = false ->
  operators_of key rec s = (Ok None, s).
Proof.
  intros K O. unfold special_operators. rewrite K.
  unfold str_in, operators in O. cbn [existsb] in O.
  repeat (apply orb_false_iff in O; destruct O as [E O];
          rewrite String.eqb_sym in E; rewrite E; clear E).
  reflexivity.
Qed.


Section Unchanged.

(** An evaluator that leaves a settled object as it is and returns it. *)
Variable rec : M (St Ext) Value.
Hypothesis rec_settled : forall (x : Value) (e : Ext),
  settled repr x = true ->
  rec {| backends := e; value := x |} = (Ok x, {| backends := e; value := x |}).

Lemma resolve_item_unchanged (l : list Value) (i : nat) (x : Value) (e : Ext) :
  nth_error l i = Some x ->
  settled repr x = true ->
  bind (zoom (Elem i) rec) (fun r => assign (Elem i) r)
    {| backends := e; value := VList l |}
  = (Ok tt, {| backends := e; value := VList l |}).
Proof.
  intros N S.
  assert (Z : zoom (Elem i) rec {| backends := e; value := VList l |}
              = (Ok x, {| backends := e; value := VList l |})).
  { unfold zoom. cbn [child iterate rbind value backends]. rewrite N.
    rewrite rec_settled by exact S. cbn [put value backends].
    now rewrite set_nth_same by exact N. }
  erewrite bind_ok by exact Z.
  unfold assign, modify. cbn [put value backends].
  now rewrite set_nth_same by exact N.
Qed.

Lemma resolve_items_unchanged (l : list Value) (e : Ext) :
  forallb (settled repr) l = true ->
  resolve_items rec {| backends := e; value := VList l |}
  = (Ok tt, {| backends := e; value := VList l |}).
Proof.
  intros S. unfold resolve_items.
  erewrite bind_ok by reflexivity. cbn [value].
  assert (H : forall is_, (forall i, In i is_ -> i < length l) ->
            for_each is_ (fun i => bind (zoom (Elem i) rec) (fun r => assign (Elem i) r))
              {| backends := e; value := VList l |}
            = (Ok tt, {| backends := e; value := VList l |})).
  { induction is_ as [|i is_ IH]; intros B; [reflexivity|].
    cbn [for_each].
    destruct (nth_error l i) as [x|] eqn:N.
    - erewrite bind_ok.
      + apply IH. intros j Hj. apply B. now right.
      + apply resolve_item_unchanged with (x := x); [exact N|].
        rewrite forallb_forall in S. apply S. eapply nth_error_In; eassumption.
    - apply nth_error_None in N. specialize (B i (or_introl eq_refl)). lia. }
  apply H. intros i Hi. apply in_seq in Hi. lia.
Qed.

Lemma resolve_entry_unchanged (d : Dict) (key : string) (x : Value) (e : Ext) :
  dict_get key d = Some x ->
  settled repr x = true ->
  bind (zoom (Key key) rec) (fun r => assign (Key key) r)
    {| backends := e; value := VDict d |}
  = (Ok tt, {| backends := e; value := VDict d |}).
Proof.
  intros G S.
  assert (Z : zoom (Key key) rec {| backends := e; value := VDict d |}
              = (Ok x, {| backends := e; value := VDict d |})).
  { unfold zoom. cbn [child getitem value backends]. rewrite G.
    rewrite rec_settled by exact S. cbn [put value backends].
    now rewrite dict_set_same by exact G. }
  erewrite bind_ok by exact Z.
  unfold assign, modify. cbn [put value backends].
  now rewrite dict_set_same by exact G.
Qed.

Lemma dict_get_of_key (A : Type) (key : string) (d : list (string * A)) :
  In key (dict_keys d) -> exists x, dict_get key d = Some x /\ In (key, x) d.
Proof.
  unfold dict_keys. induction d as [|[k y] d IH]; cbn [map In dict_get fst]; [intros []|].
  intros H. destruct (k =? key) eqn:E.
  - apply String.eqb_eq in E. subst. exists y. split; [reflexivity|now left].
  - destruct H as [H|H]; [subst; now rewrite String.eqb_refl in E|].
    destruct (IH H) as (x & G & I). exists x. split; [exact G|now right].
Qed.

Lemma resolve_entries_unchanged (d : Dict) (e : Ext) :
  forallb (fun kv => settled repr (snd kv)) d = true ->
  resolve_entries rec {| backends := e; value := VDict d |}
  = (Ok tt, {| backends := e; value := VDict d |}).
Proof.
  intros S. unfold resolve_entries.
  erewrite bind_ok by reflexivity. cbn [value].
  assert (H : forall keys, (forall k, In k keys -> In k (dict_keys d)) ->
            for_each keys (fun key => bind (zoom (Key key) rec) (fun r => assign (Key key) r))
              {| backends := e; value := VDict d |}
            = (Ok tt, {| backends := e; value := VDict d |})).
  { induction keys as [|key keys IH]; intros B; [reflexivity|].
    cbn [for_each].
    destruct (@dict_get_of_key _ key d (B key (or_introl eq_refl))) as (x & G & I).
    erewrite bind_ok.
    - apply IH. intros j Hj. apply B. now right.
    - apply resolve_entry_unchanged with (x := x); [exact G|].
      rewrite forallb_forall in S. exact (S (key, x) I). }
  apply H. auto.
Qed.

End Unchanged.


Lemma settled_is_returned : forall (depth : nat) (v : Value) (e : Ext),
  settled repr v = true ->
  resolve depth {| backends := e; value := v |}
  = (Ok v, {| backends := e; value := v |}).
Proof.
  induction depth as [|depth IH]; intros v e S; [reflexivity|].
  rewrite resolve_unfold.
  erewrite bind_ok.
  - apply patch_result_settled. destruct v; try exact I.
    cbn [settled] in S. now apply negb_true_iff in S.
  - unfold _resolve_refs_recursively.
    erewrite bind_ok by reflexivity. cbn [value].
    destruct v as [| | |text|l|d]; try reflexivity.
    + rewrite settled_list in S. apply andb_true_iff in S. destruct S as [F S].
      destruct (inner_function repr l); [discriminate|].
      pose proof (@resolve_items_unchanged (resolve depth) IH l e S) as R.
      erewrite bind_ok by exact R.
      reflexivity.
    + rewrite settled_dict in S. apply andb_true_iff in S. destruct S as [O S].
      apply negb_true_iff in O.
      assert (Z : (match d with
                   | [(key, _)] => zoom (Key key) (operators_of key (resolve depth))
                   | _ => ret None
                   end) {| backends := e; value := VDict d |}
                  = (Ok None, {| backends := e; value := VDict d |})).
      { destruct d as [|[key x] [|kv d]]; try reflexivity.
        cbn [is_operator] in O. apply orb_false_iff in O. destruct O as [K O].
        apply zoom_key with (s1 := {| backends := e; value := x |}).
        now apply special_operators_none. }
      erewrite bind_ok by exact Z. cbv beta iota.
      pose proof (@resolve_entries_unchanged (resolve depth) IH d e S) as R.
      erewrite bind_ok by exact R.
      reflexivity.
Qed.


Lemma key_is_not_ref (key fn : string) :
  stripped_fn_lower key = fn -> fn <> "ref" -> (key =? "Ref") = false.
Proof.
  intros F N. destruct (key =? "Ref") eqn:E; [|reflexivity].
  apply String.eqb_eq in E. subst. now elim N.
Qed.

Lemma resolve_single_key (depth : nat) (key : string) (argument : Value) (e : Ext)
    (r : Value) (s1 : St Ext) :
  operators_of key (resolve depth) {| backends := e; value := argument |}
    = (Ok (Some r), s1) ->
  resolve (S depth) {| backends := e; value := VDict [(key, argument)] |}
  = patch r {| backends := backends s1; value := VDict [(key, value s1)] |}.
Proof.
  intros H. rewrite resolve_unfold.
  erewrite bind_ok; [reflexivity|].
  unfold _resolve_refs_recursively.
  erewrite bind_ok by reflexivity. cbn [value].
  erewrite bind_ok by (apply zoom_key; exact H).
  reflexivity.
Qed.

Lemma resolve_single_key_raises (depth : nat) (key : string) (argument : Value) (e : Ext)
    (ex : Exception) (s1 : St Ext) :
  operators_of key (resolve depth) {| backends := e; value := argument |}
    = (Raise ex, s1) ->
  resolve (S depth) {| backends := e; value := VDict [(key, argument)] |}
  = (Raise ex, {| backends := backends s1; value := VDict [(key, value s1)] |}).
Proof.
  intros H. rewrite resolve_unfold.
  erewrite bind_raise; [reflexivity|].
  unfold _resolve_refs_recursively.
  erewrite bind_ok by reflexivity. cbn [value].
  erewrite bind_raise by (apply zoom_key; exact H).
  reflexivity.
Qed.

(** X2.  [Fn::ImportValue] of a name that is among the exports with a
    value evaluates to that value, to which the patches for strings are
    applied as to any result. *)
Theorem import_value_of_export_is_its_value (depth : nat) (key name : string)
    (argument v : Value) (e e2 : Ext) (s1 : St Ext) (exports entry : Dict) :
  stripped_fn_lower key = "importvalue" ->
  resolve depth {| backends := e; value := argument |} = (Ok (VStr name), s1) ->
  exports_map (backends s1) = (Returns (VDict exports), e2) ->
  dict_get name exports = Some (VDict entry) ->
  dict_get "Value" entry = Some v ->
  truthy v = true ->
  resolve (S depth) {| backends := e; value := VDict [(key, argument)] |}
  = patch v {| backends := e2; value := VDict [(key, value s1)] |}.
Proof.
  intros F R X G V T.
  apply resolve_single_key with (s1 := {| backends := e2; value := value s1 |}).
  unfold special_operators.
  rewrite (@key_is_not_ref _ _ F) by discriminate. rewrite F.
  cbn [String.eqb Ascii.eqb Bool.eqb orb]. cbv beta iota.
  erewrite bind_ok by exact R.
  erewrite bind_ok by (unfold lift_backends, call; rewrite X; reflexivity).
  cbv beta iota. unfold py_or, getv at 1 2. rewrite G.
  assert (TE : truthy (VDict entry) = true) by (destruct entry; [discriminate V|reflexivity]).
  rewrite TE. erewrite bind_ok by reflexivity. cbv beta iota.
  unfold getv. rewrite V, T. reflexivity.
Qed.

(** X3.  A [Ref] that [resolve_ref] cannot resolve yet raises
    [DependencyNotYetSatisfied], so that the deployment loop retries the
    change; an exception of [resolve_ref] itself is passed on.  In both
    cases the tree is not touched. *)
Theorem unresolved_ref_is_a_dependency_not_yet_satisfied (depth : nat)
    (ref_name : Value) (e e1 : Ext) :
  (resolve_ref ref_name (VStr "Ref") e = (Returns VNone, e1) ->
   resolve (S depth) {| backends := e; value := VDict [("Ref", ref_name)] |}
   = (Raise DependencyNotYetSatisfied,
      {| backends := e1; value := VDict [("Ref", ref_name)] |}))
  /\
  (forall ex,
     resolve_ref ref_name (VStr "Ref") e = (Raises ex, e1) ->
     resolve (S depth) {| backends := e; value := VDict [("Ref", ref_name)] |}
     = (Raise ex, {| backends := e1; value := VDict [("Ref", ref_name)] |})).
Proof.
  split; [intros R|intros ex R];
    apply resolve_single_key_raises
      with (s1 := {| backends := e1; value := ref_name |});
    unfold special_operators; cbn [String.eqb Ascii.eqb Bool.eqb];
    erewrite bind_ok by reflexivity; cbn [value].
  - erewrite bind_ok by (unfold lift_backends, call; cbn [backends]; rewrite R; reflexivity).
    reflexivity.
  - erewrite bind_raise by (unfold lift_backends, call; cbn [backends]; rewrite R; reflexivity).
    reflexivity.
Qed.

Lemma zoom_second (A : Type) (x y : Value) (m : M (St Ext) A) (e : Ext)
    (r : Result A) (s1 : St Ext) :
  m {| backends := e; value := y |} = (r, s1) ->
  zoom (Idx 1) m {| backends := e; value := VList [x; y] |}
  = (r, {| backends := backends s1; value := VList [x; value s1] |}).
Proof.
  intros H. unfold zoom. cbn [value backends].
  change (child (Idx 1) (VList [x; y])) with (Ok (A := Value) y).
  cbv beta iota. rewrite H.
  now change (put (Idx 1) (value s1) (VList [x; y])) with (VList [x; value s1]).
Qed.

(** X4.  [Fn::GetAtt] does not pass on what goes wrong in the model of the
    resource: when the type of the resource has no model class, or the
    model raises on the attribute or has no value for it, the evaluator
    raises [DependencyNotYetSatisfied], which makes the deployment loop
    try the change again later. *)
Theorem getatt_without_attribute_is_a_dependency_not_yet_satisfied (depth : nat)
    (key id t : string) (attr_arg attribute resource : Value) (e : Ext) (s1 : St Ext) :
  stripped_fn_lower key = "getatt" ->
  resolve depth {| backends := e; value := attr_arg |} = (Ok attribute, s1) ->
  dict_get id (resources (backends s1)) = Some resource ->
  get_resource_type resource = Ok (VStr t) ->
  (forall model_class,
     RESOURCE_MODELS t = Some model_class ->
     fst (get_cfn_attribute model_class VNone resource attribute (backends s1))
       = Returns VNone \/
     exists ex,
       fst (get_cfn_attribute model_class VNone resource attribute (backends s1))
         = Raises ex) ->
  exists e2,
    resolve (S depth)
      {| backends := e; value := VDict [(key, VList [VStr id; attr_arg])] |}
    = (Raise DependencyNotYetSatisfied,
       {| backends := e2; value := VDict [(key, VList [VStr id; value s1])] |}).
Proof.
  intros F R G T M.
  assert (H : exists e2,
            get_attr_from_model_instance RESOURCE_MODELS get_cfn_attribute
              resource attribute (VStr t) VNone
              {| backends := backends s1; value := VList [VStr id; value s1] |}
            = (Ok VNone, {| backends := e2; value := VList [VStr id; value s1] |})).
  { unfold get_attr_from_model_instance.
    destruct (RESOURCE_MODELS t) as [model_class|] eqn:C; [|now eexists].
    unfold try_except, lift_backends, call. cbn [backends value].
    destruct (M model_class eq_refl) as [N|(ex & N)];
      destruct (get_cfn_attribute model_class VNone resource attribute (backends s1))
        as [r e2]; cbn [fst] in N; subst r; now eexists. }
  destruct H as (e2 & H). exists e2.
  apply resolve_single_key_raises
    with (s1 := {| backends := e2; value := VList [VStr id; value s1] |}).
  unfold special_operators.
  rewrite (@key_is_not_ref _ _ F) by discriminate. rewrite F.
  cbn [String.eqb Ascii.eqb Bool.eqb orb]. cbv beta iota.
  erewrite bind_ok by reflexivity. cbn [value].
  erewrite bind_ok.
  2:{ erewrite bind_ok by reflexivity.
      erewrite bind_ok by reflexivity.
      erewrite bind_ok by (apply zoom_second; exact R).
      reflexivity. }
  cbv beta iota.
  erewrite bind_ok by reflexivity. cbn [backends value].
  unfold getv. rewrite G.
  erewrite bind_ok by reflexivity.
  erewrite bind_ok by (unfold lift; rewrite T; reflexivity).
  erewrite bind_ok by exact H.
  reflexivity.
Qed.

Lemma run_lit (p : string) : forall whole s gs k g,
  Regex.run (Regex.lit p) whole s gs k = Some g ->
  exists s', s = (p ++ s')%string /\ k s' gs = Some g.
Proof.
  induction p as [|c p IH]; intros whole s gs k g; cbn [Regex.lit Regex.run].
  - intros H. now exists s.
  - destruct s as [|c' s]; [discriminate|].
    destruct (Ascii.eqb c c') eqn:E; [|discriminate].
    apply Ascii.eqb_eq in E. subst c'. intros H.
    destruct (IH _ _ _ _ _ H) as (s' & -> & K). now exists s'.
Qed.

Lemma prefix_append (p s : string) : String.prefix p (p ++ s) = true.
Proof. apply prefix_app. now exists s. Qed.

Lemma dynamic_ref_prefix (text : string) (m : Regex.Groups) :
  Regex.re_match REGEX_DYNAMIC_REF text = Some m ->
  String.prefix "{{resolve:" text = true.
Proof.
  unfold Regex.re_match, REGEX_DYNAMIC_REF. cbn [Regex.seq Regex.run]. intros H.
  apply run_lit in H. destruct H as (s' & -> & _). apply prefix_append.
Qed.

Lemma api_gateway_prefix (text : string) (m : Regex.Groups) :
  Regex.re_match REGEX_OUTPUT_APIGATEWAY text = Some m ->
  String.prefix "http" text = true.
Proof.
  unfold Regex.re_match, REGEX_OUTPUT_APIGATEWAY. cbn [Regex.seq Regex.run].
  rewrite Nat.eqb_refl. intros H.
  apply run_lit in H. destruct H as (s' & -> & _). apply prefix_append.
Qed.

(** X5.  The patches for strings apply to constructed URLs and to dynamic
    references only: a string that begins neither with [http] nor with
    [{{resolve:] evaluates to itself, with no call to a collaborator. *)
Theorem other_strings_evaluate_to_themselves (depth : nat) (text : string) (e : Ext) :
  String.prefix "http" text = false ->
  String.prefix "{{resolve:" text = false ->
  resolve_refs_recursively resolve_ref resources RESOURCE_MODELS get_cfn_attribute
    exports_map get_region apigateway_port ssm_get_parameter get_secret_value
    json_loads b64encode py_int repr depth {| backends := e; value := VStr text |}
  = (Ok (VStr text), {| backends := e; value := VStr text |}).
Proof.
  intros H D. apply settled_is_returned. cbn [settled]. unfold patched.
  destruct (Regex.re_match REGEX_OUTPUT_APIGATEWAY text) as [m|] eqn:A.
  - apply api_gateway_prefix in A. congruence.
  - destruct (Regex.re_match REGEX_DYNAMIC_REF text) as [m|] eqn:R; [|reflexivity].
    apply dynamic_ref_prefix in R. congruence.
Qed.

(** The patches read from the collaborators; they do not touch the tree. *)
Definition keeps_value (A : Type) (m : M (St Ext) A) : Prop :=
  forall s, value (snd (m s)) = value s.

Lemma keeps_value_bind A B (m : M (St Ext) A) (k : A -> M (St Ext) B) :
  keeps_value m -> (forall a, keeps_value (k a)) -> keeps_value (bind m k).
Proof.
  intros Hm Hk s. unfold bind. specialize (Hm s).
  destruct (m s) as [[a|ex|] s1]; cbn [snd] in *; try assumption.
  now rewrite Hk.
Qed.

Lemma keeps_value_lift_backends A (c : Call Ext A) : keeps_value (lift_backends c).
Proof.
  intros s. unfold lift_backends, call. now destruct (c (backends s)) as [[a|ex] b].
Qed.

Ltac value_step :=
  first
    [ apply keeps_value_lift_backends
    | apply keeps_value_bind; [|intros]
    | match goal with
      | |- keeps_value (if ?b then _ else _) => destruct b
      | |- keeps_value (match ?x with _ => _ end) => destruct x
      | |- keeps_value (let '(_, _) := ?x in _) => destruct x
      end
    | (intros ?; reflexivity) ].

Lemma keeps_value_patch_result (v : Value) : keeps_value (patch v).
Proof. unfold patch_result, resolve_secret. repeat value_step. Qed.

Lemma zoom_elem_of_three (A : Type) (i : nat) (x0 x1 x2 : Value) (m : M (St Ext) A)
    (e : Ext) (r : Result A) (s1 : St Ext) :
  i < 3 ->
  m {| backends := e; value := nth i [x0; x1; x2] VNone |} = (r, s1) ->
  zoom (Elem i) m {| backends := e; value := VList [x0; x1; x2] |}
  = (r, {| backends := backends s1;
           value := VList (set_nth i (value s1) [x0; x1; x2]) |}).
Proof.
  intros B H. unfold zoom. cbn [value backends child iterate rbind].
  destruct i as [|[|[|i]]]; try lia; cbn [nth_error nth] in *; now rewrite H.
Qed.

(** X6.  [Fn::If] evaluates its condition and then the branch that the
    condition selects, and only that one: the other branch is left in the
    tree as it was.  What the selected branch evaluates to is the result
    of the function. *)
Theorem fn_if_evaluates_the_selected_branch_only (depth : nat) (key : string)
    (c o1 o2 cond : Value) (e : Ext) (s1 s2 : St Ext) (r : Result Value) :
  stripped_fn_lower key = "if" ->
  evaluate_condition resolve_ref (resolve depth) {| backends := e; value := c |}
    = (Ok cond, s1) ->
  resolve depth {| backends := backends s1;
                   value := if truthy cond then o1 else o2 |} = (r, s2) ->
  let tree := VDict [(key, VList [ value s1;
                                   if truthy cond then value s2 else o1;
                                   if truthy cond then o2 else value s2 ])] in
  let outcome := resolve (S depth)
                   {| backends := e; value := VDict [(key, VList [c; o1; o2])] |} in
  value (snd outcome) = tree /\
  (forall v, r = Ok v -> outcome = patch v {| backends := backends s2; value := tree |}) /\
  (forall ex, r = Raise ex -> fst outcome = Raise ex).
Proof.
  intros F C R tree outcome.
  assert (O : operators_of key (resolve depth)
                {| backends := e; value := VList [c; o1; o2] |}
              = (match r with Ok v => Ok (Some v) | Raise ex => Raise ex
                 | OutOfFuel => OutOfFuel end,
                 {| backends := backends s2;
                    value := VList [ value s1;
                                     if truthy cond then value s2 else o1;
                                     if truthy cond then o2 else value s2 ] |})).
  { unfold special_operators.
    rewrite (@key_is_not_ref _ _ F) by discriminate. rewrite F.
    cbn [String.eqb Ascii.eqb Bool.eqb orb]. cbv beta iota.
    erewrite bind_ok by reflexivity. cbn [value].
    erewrite bind_ok by reflexivity.
    erewrite bind_ok
      by (apply (zoom_elem_of_three (i := 0)); [lia|exact C]).
    cbn [set_nth backends value].
    unfold bind at 1.
    destruct (truthy cond).
    - rewrite (zoom_elem_of_three (i := 1) (value s1) o1 o2 (resolve depth)
                 (backends s1) (r := r) (s1 := s2)) by (lia || exact R).
      now destruct r.
    - rewrite (zoom_elem_of_three (i := 2) (value s1) o1 o2 (resolve depth)
                 (backends s1) (r := r) (s1 := s2)) by (lia || exact R).
      now destruct r. }
  subst outcome. destruct r as [v|ex|].
  - rewrite (@resolve_single_key depth key _ e _ _ O). cbn [backends value].
    split; [apply keeps_value_patch_result|].
    split; [intros v' [= <-]; reflexivity|discriminate].
  - rewrite (@resolve_single_key_raises depth key _ e _ _ O). cbn [backends value snd fst].
    split; [reflexivity|]. split; [discriminate|now intros ex' [= <-]].
  - rewrite resolve_unfold. unfold _resolve_refs_recursively.
    erewrite bind_fuel.
    2:{ erewrite bind_ok by reflexivity. cbn [value].
        erewrite bind_fuel by (apply zoom_key; exact O). reflexivity. }
    cbn [snd backends value]. split; [reflexivity|]. split; discriminate.
Qed.

End EvaluatorFacts.

Lemma import_value_of_missing_export_is_null_witness :
  Fixtures.evaluate Fixtures.one_export 3 (Fixtures.on_tree (Fixtures.import_of "missing"))
  = (Exc.Ok Py.VNone, Fixtures.on_tree (Fixtures.import_of "missing")) /\
  Fixtures.evaluate Fixtures.one_export 3 (Fixtures.on_tree (Fixtures.import_of "pending"))
  = (Exc.Ok Py.VNone, Fixtures.on_tree (Fixtures.import_of "pending")).
Proof.
  split.
  - apply (import_value_of_missing_export_is_null Fixtures.no_reference
              (fun _ => []) (fun _ : string => @None unit)
              (fun _ _ _ _ s => (Exc.Raises Exc.AttributeError, s))
              (Fixtures.exports_of Fixtures.one_export)
              (fun s => (Exc.Returns (Py.VStr "us-east-1"), s))
              4566%Z Fixtures.stored_parameter
              (fun _ _ _ s => (Exc.Raises (Exc.ServiceFailure "ResourceNotFoundException"), s))
              (fun _ => Exc.Raise Exc.ValueError) (fun s => s) Fixtures.decimal
              (fun _ => "[...]") 2 "Fn::ImportValue" (Py.VStr "missing")
              Fixtures.chained_parameters (name := "missing")
              (e2 := Fixtures.chained_parameters)
              (s1 := Fixtures.on_tree (Py.VStr "missing"))
              (exports := Fixtures.one_export)).
    + reflexivity.
    + vm_compute. reflexivity.
    + reflexivity.
    + intros entry H. vm_compute in H. discriminate.
  - apply (import_value_of_missing_export_is_null Fixtures.no_reference
              (fun _ => []) (fun _ : string => @None unit)
              (fun _ _ _ _ s => (Exc.Raises Exc.AttributeError, s))
              (Fixtures.exports_of Fixtures.one_export)
              (fun s => (Exc.Returns (Py.VStr "us-east-1"), s))
              4566%Z Fixtures.stored_parameter
              (fun _ _ _ s => (Exc.Raises (Exc.ServiceFailure "ResourceNotFoundException"), s))
              (fun _ => Exc.Raise Exc.ValueError) (fun s => s) Fixtures.decimal
              (fun _ => "[...]") 2 "Fn::ImportValue" (Py.VStr "pending")
              Fixtures.chained_parameters (name := "pending")
              (e2 := Fixtures.chained_parameters)
              (s1 := Fixtures.on_tree (Py.VStr "pending"))
              (exports := Fixtures.one_export)).
    + reflexivity.
    + vm_compute. reflexivity.
    + reflexivity.
    + intros entry H. vm_compute in H. injection H as <-. now left.
Defined.



Section ShapeFacts.

Import Py Exc Evaluator.

Variable Ext : Type.
Variable resolve_ref : Value -> Value -> Call Ext Value.
Variable resources : Ext -> Dict.
Variable ModelClass : Type.
Variable RESOURCE_MODELS : string -> option ModelClass.
Variable get_cfn_attribute : ModelClass -> Value -> Value -> Value -> Call Ext Value.
Variable exports_map : Call Ext Value.
Variable get_region : Call Ext Value.
Variable apigateway_port : Z.
Variable ssm_get_parameter : string -> bool -> Call Ext Value.
Variable get_secret_value : string -> option string -> option string -> Call Ext Value.
Variable json_loads : string -> Result Value.
Variable b64encode : string -> string.
Variable py_int : string -> option Z.
Variable repr : Value -> string.

Lemma kept_shape_refl (v : Value) : kept_shape v v.
Proof.
  destruct v; cbn; try reflexivity.
  - now exists l.
  - exists d, []. now rewrite app_nil_r.
Qed.

Lemma kept_shape_trans (v1 v2 v3 : Value) :
  kept_shape v1 v2 -> kept_shape v2 v3 -> kept_shape v1 v3.
Proof.
  destruct v1; cbn; try (intros ->; cbn; now intros ->).
  - intros (l2 & -> & L2) (l3 & -> & L3). exists l3. split; [reflexivity|congruence].
  - intros (d2 & x2 & -> & K2) (d3 & x3 & -> & K3).
    exists d3, (x2 ++ x3). split; [reflexivity|]. now rewrite K3, K2, app_assoc.
Qed.

Lemma length_set_nth (A : Type) (l : list A) : forall n c,
  length (set_nth n c l) = length l.
Proof. induction l as [|x l IH]; intros [|n] c; cbn; auto. Qed.

Lemma dict_keys_set (A : Type) (k : string) (c : A) (d : list (string * A)) :
  exists extra, dict_keys (dict_set k c d) = dict_keys d ++ extra.
Proof.
  unfold dict_keys. induction d as [|[k' y] d IH]; cbn [dict_set map fst app].
  - now exists [k].
  - destruct (k' =? k) eqn:E.
    + apply String.eqb_eq in E. subst. exists []. cbn. now rewrite app_nil_r.
    + destruct IH as (extra & IH). exists extra. cbn. now rewrite IH.
Qed.

Lemma kept_shape_put (st : Step) (c v : Value) : kept_shape v (put st c v).
Proof.
  destruct v, st; cbn [put]; try apply kept_shape_refl.
  - destruct (index_of (length l) i); [|apply kept_shape_refl].
    eexists. split; [reflexivity|apply length_set_nth].
  - eexists. split; [reflexivity|apply length_set_nth].
  - destruct (dict_keys_set k c d) as (extra & E). now exists (dict_set k c d), extra.
Qed.

Lemma keeps_shape_ret A (a : A) : keeps_shape (ret (S := St Ext) a).
Proof. intros s. apply kept_shape_refl. Qed.

Lemma keeps_shape_raise A e : keeps_shape (raise (S := St Ext) (A := A) e).
Proof. intros s. apply kept_shape_refl. Qed.

Lemma keeps_shape_get : keeps_shape (get (S := St Ext)).
Proof. intros s. apply kept_shape_refl. Qed.

Lemma keeps_shape_this : keeps_shape (this (Ext := Ext)).
Proof. intros s. apply kept_shape_refl. Qed.

Lemma keeps_shape_lift A (r : Result A) : keeps_shape (lift (S := St Ext) r).
Proof. intros s. apply kept_shape_refl. Qed.

Lemma keeps_shape_of_option A (o : option A) e :
  keeps_shape (of_option (S := St Ext) o e).
Proof. intros s. destruct o; apply kept_shape_refl. Qed.

Lemma keeps_shape_lift_backends A (c : Call Ext A) : keeps_shape (lift_backends c).
Proof.
  intros s. unfold lift_backends, call.
  destruct (c (backends s)) as [[a|e] b]; apply kept_shape_refl.
Qed.

Lemma keeps_shape_assign st c : keeps_shape (assign (Ext := Ext) st c).
Proof. intros s. apply kept_shape_put. Qed.

Lemma keeps_shape_zoom A st (m : M (St Ext) A) : keeps_shape (zoom st m).
Proof.
  intros s. unfold zoom.
  destruct (child st (value s)); try apply kept_shape_refl.
  destruct (m _) as [r s']. apply kept_shape_put.
Qed.

Lemma keeps_shape_detached A x (m : M (St Ext) A) : keeps_shape (detached x m).
Proof. intros s. unfold detached. destruct (m _). apply kept_shape_refl. Qed.

Lemma keeps_shape_bind A B (m : M (St Ext) A) (k : A -> M (St Ext) B) :
  keeps_shape m -> (forall a, keeps_shape (k a)) -> keeps_shape (bind m k).
Proof.
  intros Hm Hk s. unfold bind. specialize (Hm s).
  destruct (m s) as [[a|e|] s1]; cbn [snd] in *; try assumption.
  eapply kept_shape_trans; [exact Hm|apply Hk].
Qed.

Lemma keeps_shape_try_except A (m : M (St Ext) A) h :
  keeps_shape m -> (forall e, keeps_shape (h e)) -> keeps_shape (try_except m h).
Proof.
  intros Hm Hh s. unfold try_except. specialize (Hm s).
  destruct (m s) as [[a|e|] s1]; cbn [snd] in *; try assumption.
  eapply kept_shape_trans; [exact Hm|apply Hh].
Qed.

Lemma keeps_shape_for_each A (xs : list A) (body : A -> M (St Ext) unit) :
  (forall x, keeps_shape (body x)) -> keeps_shape (for_each xs body).
Proof.
  intros H. induction xs as [|x xs IH]; cbn [for_each].
  - apply keeps_shape_ret.
  - apply keeps_shape_bind; [apply H|intros _; exact IH].
Qed.


Ltac shape_step :=
  first
    [ apply keeps_shape_ret | apply keeps_shape_raise | apply keeps_shape_get
    | apply keeps_shape_this | apply keeps_shape_lift | apply keeps_shape_of_option
    | apply keeps_shape_lift_backends | apply keeps_shape_assign
    | apply keeps_shape_zoom | apply keeps_shape_detached
    | assumption
    | apply keeps_shape_bind; [|intros]
    | apply keeps_shape_try_except; [|intros]
    | apply keeps_shape_for_each; intros
    | match goal with
      | |- keeps_shape (if ?b then _ else _) => destruct b
      | |- keeps_shape (match ?x with _ => _ end) => destruct x
      | |- keeps_shape (let (_, _) := ?x in _) => destruct x
      | |- keeps_shape (let '(_, _) := ?x in _) => destruct x
      end ].

Section WithRec.

Variable rec : M (St Ext) Value.
Hypothesis keeps_rec : keeps_shape rec.

Lemma keeps_shape_resolve_each : forall n i, keeps_shape (resolve_each rec i n).
Proof. induction n as [|n IH]; intros i; cbn [resolve_each]; repeat shape_step. apply IH. Qed.

Lemma keeps_shape_resolve_all : keeps_shape (resolve_all rec).
Proof. unfold resolve_all. repeat shape_step. apply keeps_shape_resolve_each. Qed.

Lemma keeps_shape_get_attr resource attribute resource_type resource_id :
  keeps_shape (get_attr_from_model_instance RESOURCE_MODELS get_cfn_attribute
                 resource attribute resource_type resource_id).
Proof. unfold get_attr_from_model_instance. repeat shape_step. Qed.

Lemma keeps_shape_evaluate_condition : keeps_shape (evaluate_condition resolve_ref rec).
Proof. unfold evaluate_condition. repeat shape_step. Qed.

Lemma keeps_shape_replace whole ref_expression :
  keeps_shape (_replace resolve_ref resources RESOURCE_MODELS get_cfn_attribute repr
                 rec whole ref_expression).
Proof.
  unfold _replace. repeat first [apply keeps_shape_get_attr | shape_step].
Qed.

Lemma keeps_shape_sub_placeholders : forall s skip,
  keeps_shape (sub_placeholders resolve_ref resources RESOURCE_MODELS get_cfn_attribute
                 repr rec skip s).
Proof.
  induction s as [|c s IH]; intros skip; cbn [sub_placeholders];
    repeat first [apply IH | apply keeps_shape_replace | shape_step].
Qed.

Lemma keeps_shape_sub_loop : forall keys result,
  keeps_shape (sub_loop rec keys result).
Proof.
  induction keys as [|key keys IH]; intros result; cbn [sub_loop];
    repeat first [apply IH | shape_step].
Qed.

Lemma keeps_shape_sub_body :
  keeps_shape (sub_body resolve_ref resources RESOURCE_MODELS get_cfn_attribute repr rec).
Proof.
  unfold sub_body, resolve_placeholders_in_string.
  repeat first [apply keeps_shape_sub_placeholders | shape_step].
Qed.

Lemma keeps_shape_special_operators key :
  keeps_shape (special_operators resolve_ref resources RESOURCE_MODELS get_cfn_attribute
                 exports_map get_region b64encode py_int repr key rec).
Proof.
  unfold special_operators.
  repeat first [ apply keeps_shape_resolve_all | apply keeps_shape_get_attr
               | apply keeps_shape_evaluate_condition | apply keeps_shape_sub_body
               | shape_step ].
Qed.

Lemma keeps_shape_resolve_entries : keeps_shape (resolve_entries rec).
Proof. unfold resolve_entries. repeat shape_step. Qed.

Lemma keeps_shape_resolve_items : keeps_shape (resolve_items rec).
Proof. unfold resolve_items. repeat shape_step. Qed.

End WithRec.

Lemma keeps_shape_resolve_secret reference_key :
  keeps_shape (resolve_secret (Ext := Ext) get_secret_value json_loads reference_key).
Proof. unfold resolve_secret. repeat shape_step. Qed.

Lemma keeps_shape_patch_result result :
  keeps_shape (patch_result (Ext := Ext) apigateway_port ssm_get_parameter
                 get_secret_value json_loads result).
Proof.
  unfold patch_result. repeat first [apply keeps_shape_resolve_secret | shape_step].
Qed.

Lemma keeps_shape_resolve : forall depth,
  keeps_shape (resolve_refs_recursively resolve_ref resources RESOURCE_MODELS
                 get_cfn_attribute exports_map get_region apigateway_port
                 ssm_get_parameter get_secret_value json_loads b64encode py_int repr
                 depth) /\
  forall name,
    keeps_shape (resolve_fresh resolve_ref resources RESOURCE_MODELS
                   get_cfn_attribute exports_map get_region apigateway_port
                   ssm_get_parameter get_secret_value json_loads b64encode py_int repr
                   depth name).
Proof.
  induction depth as [|depth [IH1 IH2]]; (split; [|intros name]).
  - apply keeps_shape_this.
  - cbn [resolve_fresh]. repeat shape_step.
  - cbn [resolve_refs_recursively]. apply keeps_shape_bind.
    + unfold _resolve_refs_recursively.
      repeat first [ apply keeps_shape_special_operators; exact IH1
                   | apply keeps_shape_resolve_entries; exact IH1
                   | apply keeps_shape_resolve_items; exact IH1
                   | apply IH2 | shape_step ].
    + intros r. apply keeps_shape_patch_result.
  - cbn [resolve_fresh].
    repeat first [ apply keeps_shape_special_operators; exact IH1
                 | apply keeps_shape_patch_result | exact IH1 | shape_step ].
Qed.

(** X1.  The evaluator rewrites the tree it is given in place, but only by
    replacing entries: whatever the outcome of an evaluation, a list has
    the length it had, a dictionary has the keys it had, in their order
    (and possibly new ones behind them), and a value that is neither is
    unchanged. *)
Theorem evaluation_keeps_the_shape_of_the_tree (depth : nat) (s : St Ext) :
  kept_shape (value s)
    (value (snd (resolve_refs_recursively resolve_ref resources RESOURCE_MODELS
                   get_cfn_attribute exports_map get_region apigateway_port
                   ssm_get_parameter get_secret_value json_loads b64encode py_int repr
                   depth s))).
Proof. apply (proj1 (keeps_shape_resolve depth)). Qed.

End ShapeFacts.

Lemma import_value_of_export_is_its_value_witness :
  Fixtures.evaluate_in_stack 3 (Fixtures.on_tree (Fixtures.import_of "shared-vpc"))
  = (Exc.Ok (Py.VStr "vpc-1"), Fixtures.on_tree (Fixtures.import_of "shared-vpc")).
Proof.
  apply (import_value_of_export_is_its_value Fixtures.reference_in_stack
           Fixtures.resources_in_stack Fixtures.models_in_stack Fixtures.queue_attribute
           (Fixtures.exports_of Fixtures.one_export)
           (fun s => (Exc.Returns (Py.VStr "us-east-1"), s))
           4566%Z Fixtures.stored_parameter
           (fun _ _ _ s => (Exc.Raises (Exc.ServiceFailure "ResourceNotFoundException"), s))
           (fun _ => Exc.Raise Exc.ValueError) (fun s => s) Fixtures.decimal
           (fun _ => "[...]") 2 "Fn::ImportValue" (Py.VStr "shared-vpc")
           Fixtures.chained_parameters (name := "shared-vpc")
           (e2 := Fixtures.chained_parameters)
           (s1 := Fixtures.on_tree (Py.VStr "shared-vpc"))
           (exports := Fixtures.one_export)
           (entry := [("Value", Py.VStr "vpc-1")]) (v := Py.VStr "vpc-1")).
  - reflexivity.
  - vm_compute. reflexivity.
  - reflexivity.
  - reflexivity.
  - reflexivity.
  - reflexivity.
Defined.

Lemma unresolved_ref_is_a_dependency_not_yet_satisfied_witness :
  Fixtures.evaluate_in_stack 3 (Fixtures.on_tree (Py.VDict [("Ref", Py.VStr "Missing")]))
  = (Exc.Raise Exc.DependencyNotYetSatisfied,
     Fixtures.on_tree (Py.VDict [("Ref", Py.VStr "Missing")])) /\
  Fixtures.evaluate_in_stack 3 (Fixtures.on_tree (Py.VDict [("Ref", Py.VList [])]))
  = (Exc.Raise Exc.TypeError, Fixtures.on_tree (Py.VDict [("Ref", Py.VList [])])).
Proof.
  split.
  - apply (proj1 (unresolved_ref_is_a_dependency_not_yet_satisfied
           Fixtures.reference_in_stack
           Fixtures.resources_in_stack Fixtures.models_in_stack Fixtures.queue_attribute
           (Fixtures.exports_of Fixtures.one_export)
           (fun s => (Exc.Returns (Py.VStr "us-east-1"), s))
           4566%Z Fixtures.stored_parameter
           (fun _ _ _ s => (Exc.Raises (Exc.ServiceFailure "ResourceNotFoundException"), s))
           (fun _ => Exc.Raise Exc.ValueError) (fun s => s) Fixtures.decimal
           (fun _ => "[...]") 2 (Py.VStr "Missing")
           Fixtures.chained_parameters Fixtures.chained_parameters)).
    reflexivity.
  - apply (proj2 (unresolved_ref_is_a_dependency_not_yet_satisfied
           Fixtures.reference_in_stack
           Fixtures.resources_in_stack Fixtures.models_in_stack Fixtures.queue_attribute
           (Fixtures.exports_of Fixtures.one_export)
           (fun s => (Exc.Returns (Py.VStr "us-east-1"), s))
           4566%Z Fixtures.stored_parameter
           (fun _ _ _ s => (Exc.Raises (Exc.ServiceFailure "ResourceNotFoundException"), s))
           (fun _ => Exc.Raise Exc.ValueError) (fun s => s) Fixtures.decimal
           (fun _ => "[...]") 2 (Py.VList [])
           Fixtures.chained_parameters Fixtures.chained_parameters)).
    reflexivity.
Defined.

Lemma getatt_without_attribute_is_a_dependency_not_yet_satisfied_witness :
  exists e2,
    Fixtures.evaluate_in_stack 3
      (Fixtures.on_tree (Py.VDict [("Fn::GetAtt", Py.VList [Py.VStr "Queue"; Py.VStr "Url"])]))
    = (Exc.Raise Exc.DependencyNotYetSatisfied,
       {| Evaluator.backends := e2;
          Evaluator.value :=
            Py.VDict [("Fn::GetAtt", Py.VList [Py.VStr "Queue"; Py.VStr "Url"])] |}).
Proof.
  apply (getatt_without_attribute_is_a_dependency_not_yet_satisfied
           Fixtures.reference_in_stack
           Fixtures.resources_in_stack Fixtures.models_in_stack Fixtures.queue_attribute
           (Fixtures.exports_of Fixtures.one_export)
           (fun s => (Exc.Returns (Py.VStr "us-east-1"), s))
           4566%Z Fixtures.stored_parameter
           (fun _ _ _ s => (Exc.Raises (Exc.ServiceFailure "ResourceNotFoundException"), s))
           (fun _ => Exc.Raise Exc.ValueError) (fun s => s) Fixtures.decimal
           (fun _ => "[...]") 2 "Fn::GetAtt" "Queue" (Py.VStr "Url")
           Fixtures.chained_parameters (t := "AWS::SQS::Queue")
           (attribute := Py.VStr "Url") (resource := Py.VDict (Fixtures.queue 30))
           (s1 := Fixtures.on_tree (Py.VStr "Url"))).
  - reflexivity.
  - vm_compute. reflexivity.
  - reflexivity.
  - reflexivity.
  - intros model_class _. right. exists Exc.AttributeError. reflexivity.
Defined.

Lemma other_strings_evaluate_to_themselves_witness :
  Fixtures.evaluate_in_stack 3 (Fixtures.on_tree (Py.VStr "arn:aws:sqs:jobs"))
  = (Exc.Ok (Py.VStr "arn:aws:sqs:jobs"), Fixtures.on_tree (Py.VStr "arn:aws:sqs:jobs")).
Proof.
  apply (other_strings_evaluate_to_themselves Fixtures.reference_in_stack
           Fixtures.resources_in_stack Fixtures.models_in_stack Fixtures.queue_attribute
           (Fixtures.exports_of Fixtures.one_export)
           (fun s => (Exc.Returns (Py.VStr "us-east-1"), s))
           4566%Z Fixtures.stored_parameter
           (fun _ _ _ s => (Exc.Raises (Exc.ServiceFailure "ResourceNotFoundException"), s))
           (fun _ => Exc.Raise Exc.ValueError) (fun s => s) Fixtures.decimal
           (fun _ => "[...]") 3 "arn:aws:sqs:jobs" Fixtures.chained_parameters);
    reflexivity.
Defined.

Lemma fn_if_evaluates_the_selected_branch_only_witness :
  Fixtures.evaluate_in_stack 4 (Fixtures.on_tree Fixtures.choice_by_env)
  = (Exc.Ok (Py.VList [Py.VStr "{{resolve:ssm:/c}}"]),
     Fixtures.on_tree
       (Py.VDict [("Fn::If", Py.VList [ Py.VStr "Env";
                                        Py.VList [Py.VStr "{{resolve:ssm:/c}}"];
                                        Py.VList [Py.VStr "{{resolve:ssm:/c}}"] ])])).
Proof.
  apply (proj1 (proj2 (fn_if_evaluates_the_selected_branch_only
           Fixtures.reference_in_stack
           Fixtures.resources_in_stack Fixtures.models_in_stack Fixtures.queue_attribute
           (Fixtures.exports_of Fixtures.one_export)
           (fun s => (Exc.Returns (Py.VStr "us-east-1"), s))
           4566%Z Fixtures.stored_parameter
           (fun _ _ _ s => (Exc.Raises (Exc.ServiceFailure "ResourceNotFoundException"), s))
           (fun _ => Exc.Raise Exc.ValueError) (fun s => s) Fixtures.decimal
           (fun _ => "[...]") 3 "Fn::If" (Py.VStr "Env")
           (Py.VList [Py.VStr "{{resolve:ssm:/b}}"])
           (Py.VList [Py.VStr "{{resolve:ssm:/c}}"])
           Fixtures.chained_parameters
           (cond := Py.VStr "dev")
           (s1 := Fixtures.on_tree (Py.VStr "Env"))
           (s2 := Fixtures.on_tree (Py.VList [Py.VStr "{{resolve:ssm:/c}}"]))
           (r := Exc.Ok (Py.VList [Py.VStr "{{resolve:ssm:/c}}"]))
           eq_refl eq_refl eq_refl))
         (Py.VList [Py.VStr "{{resolve:ssm:/c}}"]) eq_refl).
Defined.

Lemma physical_resource_id_is_stable_witness :
  exists w',
    Engine.update_resource_details Fixtures.demo_services (Py.VStr "Queue") Py.VNone
      "UPDATE" (Fixtures.world_of Fixtures.stack_with_ids ["Queue"])
    = (Exc.Ok (Py.VStr "http://localhost:4566/queue/app"), w') /\
    Engine.template_Resources (Engine.existing (Engine.env w'))
    = [("Queue", Fixtures.queue_with_id)].
Proof.
  destruct (physical_resource_id_is_stable Fixtures.demo_services
              "Queue" "UPDATE" Py.VNone
              (p := Py.VStr "http://localhost:4566/queue/app")
              (resource := Fixtures.queue_with_id)
              (Fixtures.world_of Fixtures.stack_with_ids ["Queue"])
              eq_refl eq_refl eq_refl) as [w' [R [T _]]].
  exists w'. split; [exact R | exact T].
Defined.

Lemma changes_done_are_planned_changes_witness :
  let cs := [ Engine.planned_change Engine.Add Fixtures.topic;
              Engine.planned_change Engine.Add (Fixtures.queue 30) ] in
  let w := Fixtures.world_of Fixtures.topic_then_queue [] in
  fst (Engine.do_apply_changes_in_loop Fixtures.demo_services cs w)
  = Exc.Ok [ Engine.planned_change Engine.Add (Fixtures.queue 30);
             Engine.planned_change Engine.Add Fixtures.topic ] /\
  exists rest,
    Permutation ([ Engine.planned_change Engine.Add (Fixtures.queue 30);
                   Engine.planned_change Engine.Add Fixtures.topic ] ++ rest)
                (map Engine.as_planned cs).
Proof.
  intros cs w.
  assert (E : Engine.do_apply_changes_in_loop Fixtures.demo_services cs w
              = (Exc.Ok [ Engine.planned_change Engine.Add (Fixtures.queue 30);
                          Engine.planned_change Engine.Add Fixtures.topic ],
                 snd (Engine.do_apply_changes_in_loop Fixtures.demo_services cs w)))
    by (vm_compute; reflexivity).
  split; [now rewrite E|].
  exact (proj2 (changes_done_are_planned_changes Fixtures.demo_services cs w E)).
Defined.
